(** * ActronAir Neo coordinator: payload normalizer and refresh policy

    A shallow embedding of [custom_components/actronair_neo/coordinator.py]
    (class [ActronDataCoordinator]) and the properties stated about it.

    Conventions of the embedding:
    - a Python [str] is a Rocq [string], one [ascii] per character (code
      points below 256);
    - a JSON document as [json.loads] returns it is a [value]; a [dict] is an
      association list with one binding per key, looked up from the front;
    - a Python exception derived from [Exception] is a constructor of
      [exn], a fallible expression returns a [result]; exceptions outside
      [Exception] come with the module [Interrupt];
    - the coordinator's methods run in the monad [M]: they thread the
      coordinator object, the state of the vendor API client and the log of
      the calls made to that client. *)

From Stdlib Require Import ZArith Floats Ascii String List Lia.
From stdpp Require Import base option list strings pretty gmap.

Open Scope string_scope.
Open Scope nat_scope.
Open Scope list_scope.

(** ** Python strings *)

Module PyStr.

(** [c in s] for a one-character string [c]. *)
Fixpoint contains (c : ascii) (s : string) : bool :=
  match s with
  | EmptyString => false
  | String x r => if Ascii.eqb x c then true else contains c r
  end.

(** [s.endswith(suffix)]. *)
Fixpoint endswith (s suffix : string) : bool :=
  if String.eqb s suffix then true
  else match s with
       | EmptyString => false
       | String _ r => endswith r suffix
       end.

(** [s.split(sep)] for a one-character separator: never empty, the pieces
    between consecutive separators, in order. *)
Fixpoint split (sep : ascii) (s : string) : list string :=
  match s with
  | EmptyString => [EmptyString]
  | String x r =>
      if Ascii.eqb x sep then EmptyString :: split sep r
      else match split sep r with
           | h :: t => String x h :: t
           | [] => [String x EmptyString]
           end
  end.

Definition upper_char (c : ascii) : ascii :=
  let n := nat_of_ascii c in
  if (97 <=? n) && (n <=? 122) then ascii_of_nat (n - 32) else c.

(** [s.upper()] on the letters a-z. Characters from 128 to 255 are kept: where
    Python maps one to another character none of those is an ASCII letter
    other than S, so membership in LOW, MED, HIGH, AUTO is not affected. *)
Fixpoint upper (s : string) : string :=
  match s with
  | EmptyString => EmptyString
  | String x r => String (upper_char x) (upper r)
  end.

(** Characters that [int()] skips at both ends: the ASCII white space and,
    above 127, the two spaces U+0085 and U+00A0. *)
Definition is_space (c : ascii) : bool :=
  let n := nat_of_ascii c in
  ((9 <=? n) && (n <=? 13)) || (n =? 32) || (n =? 133) || (n =? 160).

Definition digit_of (c : ascii) : option Z :=
  let n := nat_of_ascii c in
  if (48 <=? n) && (n <=? 57) then Some (Z.of_nat (n - 48)) else None.

Fixpoint lstrip (s : string) : string :=
  match s with
  | String x r => if is_space x then lstrip r else s
  | EmptyString => EmptyString
  end.

(** The digits of a decimal literal after its first digit: digits, each
    optionally preceded by one underscore, then trailing white space only. *)
Fixpoint int_digits (acc : Z) (s : string) : option Z :=
  match s with
  | EmptyString => Some acc
  | String x r =>
      match digit_of x with
      | Some d => int_digits (10 * acc + d) r
      | None =>
          if Ascii.eqb x "_" then
            match r with
            | String y r' =>
                match digit_of y with
                | Some d => int_digits (10 * acc + d) r'
                | None => None
                end
            | EmptyString => None
            end
          else if is_space x then
            match lstrip r with EmptyString => Some acc | _ => None end
          else None
      end
  end.

Definition int_unsigned (s : string) : option Z :=
  match s with
  | String x r =>
      match digit_of x with
      | Some d => int_digits d r
      | None => None
      end
  | EmptyString => None
  end.

(** [int(s)], base 10: [None] stands for [ValueError]. *)
Definition int (s : string) : option Z :=
  match lstrip s with
  | String x r =>
      if Ascii.eqb x "+" then int_unsigned r
      else if Ascii.eqb x "-" then Z.opp <$> int_unsigned r
      else int_unsigned (String x r)
  | EmptyString => None
  end.

End PyStr.

(** ** Exceptions and fallible expressions *)

(** The exceptions of the model are subclasses of [Exception], which is what
    the handlers of both coordinators catch. An exception that derives from
    [BaseException] only (the cancellation of the task at an [await], a
    keyboard interrupt) is outside the model: every statement below is about
    calls that return or raise an [exn]. *)
Inductive exn : Type :=
| AuthenticationError
| ApiError
| ConfigEntryAuthFailed
| UpdateFailed
| ValueError
| KeyError
| TypeError
| AttributeError
| IndexError
| OtherException.

Inductive result (A : Type) : Type :=
| Ok (a : A)
| Raise (e : exn).

Arguments Ok {A} a.
Arguments Raise {A} e.

#[global] Instance result_ret : MRet result := λ A a, Ok a.

#[global] Instance result_bind : MBind result := λ A B k r,
  match r with
  | Ok a => k a
  | Raise e => Raise e
  end.

#[global] Instance result_fmap : FMap result := λ A B f r,
  match r with
  | Ok a => Ok (f a)
  | Raise e => Raise e
  end.

Definition from_option {A : Type} (e : exn) (o : option A) : result A :=
  match o with
  | Some a => Ok a
  | None => Raise e
  end.

(** ** JSON values and the Python operations applied to them *)

#[warnings="-register-all"]
Inductive value : Type :=
| JNull
| JBool (b : bool)
| JInt (n : Z)
| JFloat (f : float)
| JStr (s : string)
| JList (l : list value)
| JDict (d : list (string * value)).

(** [x == n] for a float [x] and an integer [n]: Python compares the exact
    values, so neither side is rounded. *)
Definition float_eq_Z (f : float) (n : Z) : bool :=
  match Prim2SF f with
  | S754_zero _ => (n =? 0)%Z
  | S754_finite s m e =>
      let mz := if s then Z.neg m else Z.pos m in
      if (0 <=? e)%Z then (n =? mz * 2 ^ e)%Z else (n * 2 ^ (- e) =? mz)%Z
  | S754_infinity _ => false
  | S754_nan => false
  end.

(** [bool(v)], the test an [if] or [not] applies. *)
Definition truthy (v : value) : bool :=
  match v with
  | JNull => false
  | JBool b => b
  | JInt n => negb (n =? 0)%Z
  | JFloat f => negb (PrimFloat.eqb f 0%float)
  | JStr s => negb (String.eqb s "")
  | JList l => negb (Nat.eqb (length l) 0)
  | JDict d => negb (Nat.eqb (length d) 0)
  end.

Fixpoint dict_get (d : list (string * value)) (k : string) (default : value) : value :=
  match d with
  | [] => default
  | (k', v) :: r => if String.eqb k' k then v else dict_get r k default
  end.

(** [v.get(k, default)]: only a [dict] has the method. *)
Definition get (v : value) (k : string) (default : value) : result value :=
  match v with
  | JDict d => Ok (dict_get d k default)
  | _ => Raise AttributeError
  end.

(** [v.endswith], [v.split] and [in] as the normalizer uses them need a [str]. *)
Definition as_str (v : value) : result string :=
  match v with
  | JStr s => Ok s
  | _ => Raise AttributeError
  end.

Fixpoint chars (s : string) : list value :=
  match s with
  | EmptyString => []
  | String x r => JStr (String x EmptyString) :: chars r
  end.

(** What [for x in v] iterates over: the items of a list, the keys of a dict,
    the characters of a string; anything else is not iterable. *)
Definition iter (v : value) : result (list value) :=
  match v with
  | JList l => Ok l
  | JDict d => Ok (JStr ∘ fst <$> d)
  | JStr s => Ok (chars s)
  | _ => Raise TypeError
  end.

(** [len(v)]. *)
Definition len (v : value) : result nat :=
  match v with
  | JList l => Ok (length l)
  | JDict d => Ok (length d)
  | JStr s => Ok (String.length s)
  | _ => Raise TypeError
  end.

(** [v[i]] for an index [i >= 0]. A dict parsed from JSON has string keys
    only, so an integer key is never found. *)
Definition getitem (v : value) (i : nat) : result value :=
  match v with
  | JList l => from_option IndexError (l !! i)
  | JStr s => from_option IndexError (chars s !! i)
  | JDict _ => Raise KeyError
  | _ => Raise TypeError
  end.

(** [v == n] for an integer [n]; [True == 1] and [1.0 == 1] hold in Python. *)
Definition eq_int (v : value) (n : Z) : bool :=
  match v with
  | JInt m => (m =? n)%Z
  | JBool b => ((if b then 1 else 0) =? n)%Z
  | JFloat f => float_eq_Z f n
  | _ => false
  end.

(** [v == [n]]. *)
Definition eq_singleton (v : value) (n : Z) : bool :=
  match v with
  | JList [x] => eq_int x n
  | _ => false
  end.

(** ** The normalized state *)

Record main_data : Type := {
  is_on : value;
  mode : value;
  fan_mode : string;
  fan_continuous : bool;
  base_fan_mode : string;
  temp_setpoint_cool : value;
  temp_setpoint_heat : value;
  indoor_temp : value;
  indoor_humidity : value;
  compressor_state : value;
  EnabledZones : value;
  away_mode : value;
  quiet_mode : value;
  model : value;
  serial_number : value;
  firmware_version : value;
  filter_clean_required : value;
  defrosting : value
}.

(** The five keys [zone_data.update] adds when a peripheral matches. *)
Record peripheral_data : Type := {
  battery_level : value;
  signal_strength : value;
  peripheral_type : value;
  last_connection : value;
  connection_state : value
}.

Record zone_data : Type := {
  name : value;
  temp : value;
  humidity : value;
  is_enabled : value;
  peripheral : option peripheral_data
}.

Record parsed_data : Type := {
  raw_data : value;
  main : main_data;
  zones : gmap string zone_data
}.

(** [const.py] *)
Definition MAX_ZONES : nat := 8.

(** ** The payload normalizer, [_parse_data] *)

(** Lines 110-112: strip what follows the first ['+'], then what follows the
    first ['-'] of the result. *)
Definition strip_after (sep : ascii) (s : string) : result string :=
  if PyStr.contains sep s then from_option IndexError (PyStr.split sep s !! 0)
  else Ok s.

Definition base_fan_mode_of (fan_mode : string) : result string :=
  base ← strip_after "+" fan_mode;
  strip_after "-" base.

(** Lines 99-140: the sections and the [main] dictionary. Returned with
    [last_known_state] and [aircon_system], which the zone loop reads. *)
Definition parse_main (data : value) : result (main_data * value * value) :=
  last_known_state ← get data "lastKnownState" (JDict []);
  user_aircon_settings ← get last_known_state "UserAirconSettings" (JDict []);
  master_info ← get last_known_state "MasterInfo" (JDict []);
  live_aircon ← get last_known_state "LiveAircon" (JDict []);
  aircon_system ← get last_known_state "AirconSystem" (JDict []);
  alerts ← get last_known_state "Alerts" (JDict []);
  fan_mode_v ← get user_aircon_settings "FanMode" (JStr "");
  fan_mode ← as_str fan_mode_v;
  let is_continuous := PyStr.endswith fan_mode "+CONT" in
  base ← base_fan_mode_of fan_mode;
  v_is_on ← get user_aircon_settings "isOn" (JBool false);
  v_mode ← get user_aircon_settings "Mode" (JStr "OFF");
  v_cool ← get user_aircon_settings "TemperatureSetpoint_Cool_oC" JNull;
  v_heat ← get user_aircon_settings "TemperatureSetpoint_Heat_oC" JNull;
  v_temp ← get master_info "LiveTemp_oC" JNull;
  v_hum ← get master_info "LiveHumidity_pc" JNull;
  v_comp ← get live_aircon "CompressorMode" (JStr "OFF");
  v_zones ← get user_aircon_settings "EnabledZones" (JList []);
  v_away ← get user_aircon_settings "AwayMode" (JBool false);
  v_quiet ← get user_aircon_settings "QuietMode" (JBool false);
  v_model ← get aircon_system "MasterWCModel" JNull;
  v_serial ← get aircon_system "MasterSerial" JNull;
  v_fw ← get aircon_system "MasterWCFirmwareVersion" JNull;
  v_filter ← get alerts "CleanFilter" (JBool false);
  v_defrost ← get alerts "Defrosting" (JBool false);
  mret ({| is_on := v_is_on; mode := v_mode; fan_mode := fan_mode;
           fan_continuous := is_continuous; base_fan_mode := base;
           temp_setpoint_cool := v_cool; temp_setpoint_heat := v_heat;
           indoor_temp := v_temp; indoor_humidity := v_hum;
           compressor_state := v_comp; EnabledZones := v_zones;
           away_mode := v_away; quiet_mode := v_quiet; model := v_model;
           serial_number := v_serial; firmware_version := v_fw;
           filter_clean_required := v_filter; defrosting := v_defrost |},
        last_known_state, aircon_system).

(** [f"zone_{i+1}"] and [f"Zone {i+1}"]. *)
Definition zone_key (i : nat) : string := "zone_" +:+ pretty (i + 1).
Definition zone_title (i : nat) : string := "Zone " +:+ pretty (i + 1).

(** Lines 167-176: the first peripheral whose [ZoneAssignment] is [[i + 1]].
    The loop stops there, so a later element that is not a dict is not
    reached. *)
Fixpoint find_peripheral (peripherals : list value) (i : nat) : result (option peripheral_data) :=
  match peripherals with
  | [] => Ok None
  | p :: rest =>
      za ← get p "ZoneAssignment" (JList []);
      if eq_singleton za (Z.of_nat (i + 1)) then
        v_batt ← get p "RemainingBatteryCapacity_pc" JNull;
        v_sig ← get p "Signal_of3" JNull;
        v_type ← get p "DeviceType" JNull;
        v_last ← get p "LastConnectionTime" JNull;
        v_conn ← get p "ConnectionState" JNull;
        mret (Some {| battery_level := v_batt; signal_strength := v_sig;
                      peripheral_type := v_type; last_connection := v_last;
                      connection_state := v_conn |})
      else find_peripheral rest i
  end.

(** Line 163. *)
Definition enabled_at (enabled : value) (i : nat) : result value :=
  n ← len enabled;
  if i <? n then getitem enabled i else Ok (JBool false).

(** Lines 157-178: one turn of the loop over [enumerate(remote_zone_info)]. *)
Definition parse_zone (enabled peripherals : value) (i : nat) (zone : value)
    (acc : gmap string zone_data) : result (gmap string zone_data) :=
  if i <? MAX_ZONES then
    v_exists ← get zone "NV_Exists" (JBool false);
    if truthy v_exists then
      v_name ← get zone "NV_Title" (JStr (zone_title i));
      v_temp ← get zone "LiveTemp_oC" JNull;
      v_hum ← get zone "LiveHumidity_pc" JNull;
      v_enabled ← enabled_at enabled i;
      ps ← iter peripherals;
      per ← find_peripheral ps i;
      mret (<[zone_key i := {| name := v_name; temp := v_temp; humidity := v_hum;
                               is_enabled := v_enabled; peripheral := per |}]> acc)
    else Ok acc
  else Ok acc.

Fixpoint parse_zones_from (enabled peripherals : value) (i : nat) (zs : list value)
    (acc : gmap string zone_data) : result (gmap string zone_data) :=
  match zs with
  | [] => Ok acc
  | zone :: rest =>
      acc' ← parse_zone enabled peripherals i zone acc;
      parse_zones_from enabled peripherals (S i) rest acc'
  end.

(** Lines 153-178. *)
Definition parse_zones (m : main_data) (last_known_state aircon_system : value)
    : result (gmap string zone_data) :=
  remote_zone_info ← get last_known_state "RemoteZoneInfo" (JList []);
  peripherals ← get aircon_system "Peripherals" (JList []);
  zs ← iter remote_zone_info;
  parse_zones_from (EnabledZones m) peripherals 0 zs ∅.

(** ** The coordinator object *)

(** What [_async_update_data] returns: the normalized state, or the empty
    dict [{}] of line 62. *)
Inductive coordinator_data : Type :=
| EmptyState
| State (p : parsed_data).

(** The attributes of [ActronDataCoordinator]; [data] is the attribute of the
    host's [DataUpdateCoordinator] base class, [None] until the host has
    stored a first result there. *)
Record Coordinator : Type := {
  device_id : string;
  enable_zone_control : bool;
  last_data : option parsed_data;
  _continuous_fan : bool;
  data : option coordinator_data
}.

Definition with_last_data (v : option parsed_data) (c : Coordinator) : Coordinator :=
  {| device_id := device_id c; enable_zone_control := enable_zone_control c;
     last_data := v; _continuous_fan := _continuous_fan c; data := data c |}.

Definition with_continuous_fan (v : bool) (c : Coordinator) : Coordinator :=
  {| device_id := device_id c; enable_zone_control := enable_zone_control c;
     last_data := last_data c; _continuous_fan := v; data := data c |}.

Definition with_data (v : option coordinator_data) (c : Coordinator) : Coordinator :=
  {| device_id := device_id c; enable_zone_control := enable_zone_control c;
     last_data := last_data c; _continuous_fan := _continuous_fan c; data := v |}.

Definition with_enabled_zones (v : value) (m : main_data) : main_data :=
  {| is_on := is_on m; mode := mode m; fan_mode := fan_mode m;
     fan_continuous := fan_continuous m; base_fan_mode := base_fan_mode m;
     temp_setpoint_cool := temp_setpoint_cool m;
     temp_setpoint_heat := temp_setpoint_heat m;
     indoor_temp := indoor_temp m; indoor_humidity := indoor_humidity m;
     compressor_state := compressor_state m; EnabledZones := v;
     away_mode := away_mode m; quiet_mode := quiet_mode m; model := model m;
     serial_number := serial_number m; firmware_version := firmware_version m;
     filter_clean_required := filter_clean_required m;
     defrosting := defrosting m |}.

Definition with_main (m : main_data) (p : parsed_data) : parsed_data :=
  {| raw_data := raw_data p; main := m; zones := zones p |}.

(** ** Mutable list objects

    [set_zone_state] copies a list and assigns into the copy. Lists are
    therefore objects in a store: a location is an index into it, [alloc]
    appends a new object, [list_setitem] updates the object at a location in
    place, and two names are aliases when they hold the same location. *)

Abbreviation loc := nat.
Abbreviation heap := (list (list value)).

Definition alloc (zs : list value) (h : heap) : loc * heap := (length h, h ++ [zs]).

(** [l.copy()]: a new object with the same items. *)
Definition list_copy (l : loc) (h : heap) : result (loc * heap) :=
  zs ← from_option OtherException (h !! l);
  mret (alloc zs h).

Definition list_len (l : loc) (h : heap) : result nat :=
  zs ← from_option OtherException (h !! l);
  mret (length zs).

(** [l[i] = v] for an index within the list. *)
Definition list_setitem (l : loc) (i : nat) (v : value) (h : heap) : heap :=
  alter (λ zs, <[i := v]> zs) l h.

Definition deref (l : loc) (h : heap) : result (list value) :=
  from_option OtherException (h !! l).

(** ** The vendor API client, as the coordinator uses it *)

(** The keyword arguments of [create_command]. [KwZonesDict d k v] is the
    dict [d] with the integer key [k] bound to [v], which is what
    [set_zone_state] builds when the enabled zones are a dict. *)
Inductive kwargs : Type :=
| KwZoneTemp (zone : Z) (temp : float) (temp_key : string)
| KwZones (zones : list value)
| KwZonesDict (zones : list (string * value)) (k : Z) (v : bool).

Module Api.

(** [api.py] is not part of the sources: each method is a parameter, a
    function of the client's state [W] that returns or raises. *)
Record ActronApi (W command : Type) : Type := {
  is_api_healthy : W → result bool * W;
  get_ac_status : string → W → result value * W;
  create_command : string → kwargs → W → result command * W;
  send_command : string → command → W → result unit * W;
  set_fan_mode : string → bool → W → result unit * W
}.

Arguments is_api_healthy {W command} _ _.
Arguments get_ac_status {W command} _ _ _.
Arguments create_command {W command} _ _ _ _.
Arguments send_command {W command} _ _ _ _.
Arguments set_fan_mode {W command} _ _ _ _.

End Api.

(** One entry of the log per call made to the client. *)
Inductive api_call (command : Type) : Type :=
| CallIsApiHealthy
| CallGetAcStatus (device : string)
| CallCreateCommand (kind : string) (args : kwargs)
| CallSendCommand (device : string) (cmd : command)
| CallSetFanMode (base : string) (continuous : bool).

Arguments CallIsApiHealthy {command}.
Arguments CallGetAcStatus {command} device.
Arguments CallCreateCommand {command} kind args.
Arguments CallSendCommand {command} device cmd.
Arguments CallSetFanMode {command} base continuous.

(** A call that goes to the network: everything but the health flag and the
    command builder. *)
Definition is_network_call {command : Type} (c : api_call command) : bool :=
  match c with
  | CallGetAcStatus _ | CallSendCommand _ _ | CallSetFanMode _ _ => true
  | CallIsApiHealthy | CallCreateCommand _ _ => false
  end.

Record World (W command : Type) : Type := {
  self : Coordinator;
  remote : W;
  calls : list (api_call command)
}.

Arguments self {W command} _.
Arguments remote {W command} _.
Arguments calls {W command} _.

(** ** The monad of the coordinator's methods *)

Definition M (W command A : Type) : Type := World W command → result A * World W command.

#[global] Instance M_ret {W command} : MRet (M W command) := λ A a w, (Ok a, w).

#[global] Instance M_bind {W command} : MBind (M W command) := λ A B k m w,
  match m w with
  | (Ok a, w') => k a w'
  | (Raise e, w') => (Raise e, w')
  end.

Section Coordinator.

Context {W command : Type} (api : Api.ActronApi W command).

#[local] Abbreviation M := (M W command).
#[local] Abbreviation World := (World W command).

Definition raise {A : Type} (e : exn) : M A := λ w, (Raise e, w).

Definition lift {A : Type} (r : result A) : M A := λ w, (r, w).

Definition get_self : M Coordinator := λ w, (Ok (self w), w).

Definition modify_self (f : Coordinator → Coordinator) : M unit := λ w,
  (Ok tt, {| self := f (self w); remote := remote w; calls := calls w |}).

(** [try: body except Exception as e: handler e]. Every [exn] derives from
    [Exception], so the handler sees whatever the body raises here; what
    is raised outside [Exception] is the matter of [Interrupt] below. *)
Definition try_except {A : Type} (body : M A) (handler : exn → M A) : M A := λ w,
  match body w with
  | (Raise e, w') => handler e w'
  | (Ok a, w') => (Ok a, w')
  end.

(** A call to the client: logged, then answered by the client. *)
Definition call {A : Type} (c : api_call command) (f : W → result A * W) : M A := λ w,
  let (r, remote') := f (remote w) in
  (r, {| self := self w; remote := remote'; calls := calls w ++ [c] |}).

(** *** [_parse_data], lines 86-184 *)

Definition _parse_data (data_ : value) : M parsed_data :=
  try_except
    ('(m, last_known_state, aircon_system) ← lift (parse_main data_);
     modify_self (with_continuous_fan (fan_continuous m));;
     zs ← lift (parse_zones m last_known_state aircon_system);
     mret {| raw_data := data_; main := m; zones := zs |})
    (λ _, raise UpdateFailed).

(** *** [_async_update_data], lines 57-84 *)

(** [self.last_data] where the code tests it as a condition and returns it:
    a parsed state has three keys, so it is true exactly when it is set. *)
Definition cached_or {A : Type} (c : Coordinator) (k : parsed_data → M A) (otherwise : M A) : M A :=
  match last_data c with
  | Some p => k p
  | None => otherwise
  end.

Definition _async_update_data : M coordinator_data :=
  try_except
    (healthy ← call CallIsApiHealthy (Api.is_api_healthy api);
     c ← get_self;
     if negb healthy then
       cached_or c (λ p, mret (State p)) (mret EmptyState)
     else
       status ← call (CallGetAcStatus (device_id c)) (Api.get_ac_status api (device_id c));
       parsed ← _parse_data status;
       modify_self (with_last_data (Some parsed));;
       mret (State parsed))
    (λ err,
       c ← get_self;
       match err with
       | AuthenticationError => raise ConfigEntryAuthFailed
       | ApiError => cached_or c (λ p, mret (State p)) (raise UpdateFailed)
       | _ => cached_or c (λ p, mret (State p)) (raise UpdateFailed)
       end).

(** Modelled from the spec: the host's [async_request_refresh], inherited
    from [DataUpdateCoordinator] and absent from the sources. It runs
    [_async_update_data], stores a returned state in [data], and handles a
    failure itself, so the command that asked for the refresh does not see it. *)
Definition async_request_refresh : M unit :=
  try_except
    (d ← _async_update_data;
     modify_self (with_data (Some d)))
    (λ _, mret tt).

(** *** [set_fan_mode], lines 233-294 *)

Definition valid_modes : list string := ["LOW"; "MED"; "HIGH"; "AUTO"].

(** Lines 246-250. *)
Definition fan_base_mode (mode_ : string) : string :=
  let base_mode := PyStr.upper mode_ in
  if bool_decide (base_mode ∈ valid_modes) then base_mode else "LOW".

(** [self.data["main"]]: [None] is not subscriptable, [{}] has no such key. *)
Definition data_main : M main_data :=
  c ← get_self;
  match data c with
  | None => raise TypeError
  | Some EmptyState => raise KeyError
  | Some (State p) => mret (main p)
  end.

Definition set_fan_mode (mode_ : string) (continuous : option bool) : M unit :=
  try_except
    (let base_mode := fan_base_mode mode_ in
     continuous ← match continuous with
                  | None =>
                      m ← data_main;
                      mret (PyStr.endswith (fan_mode m) "+CONT")
                  | Some b => mret b
                  end;
     (* line 263: the argument of the debug message reads [self.data["main"]] *)
     _ ← data_main;
     call (CallSetFanMode base_mode continuous) (Api.set_fan_mode api base_mode continuous);;
     modify_self (with_continuous_fan continuous);;
     async_request_refresh;;
     (* lines 276-280: read back, warn on a mismatch *)
     _ ← data_main;
     mret tt)
    (λ err, raise err).

(** *** Zone commands, lines 296-367 *)

(** [int(zone_id.split('_')[1]) - 1] *)
Definition zone_index_of (zone_id : string) : result Z :=
  part ← from_option IndexError (PyStr.split "_" zone_id !! 1);
  n ← from_option ValueError (PyStr.int part);
  mret (n - 1)%Z.

Definition send (kind : string) (args : kwargs) : M unit :=
  command_ ← call (CallCreateCommand kind args) (Api.create_command api kind args);
  c ← get_self;
  call (CallSendCommand (device_id c) command_) (Api.send_command api (device_id c) command_).

Definition set_zone_temperature (zone_id : string) (temperature : float) (temp_key : string) : M unit :=
  c ← get_self;
  if negb (enable_zone_control c) then raise ValueError
  else
    cached_or c
      (λ p,
         match zones p !! zone_id with
         | None => raise ValueError
         | Some zone =>
             if negb (truthy (is_enabled zone)) then raise ValueError
             else
               try_except
                 (zone_index ← lift (zone_index_of zone_id);
                  send "SET_ZONE_TEMP" (KwZoneTemp zone_index temperature temp_key);;
                  async_request_refresh)
                 (λ err, raise err)
         end)
      (raise ValueError).

(** [zone_id: Union[str, int]] *)
Inductive zone_ref : Type :=
| ZoneId (s : string)
| ZoneIndex (n : Z).

(** Lines 348-351. *)
Definition resolve_zone_index (zone_id : zone_ref) : result Z :=
  match zone_id with
  | ZoneId s => zone_index_of s
  | ZoneIndex n => Ok n
  end.

(** Lines 354-358 on the store: [current] names the cached list. Returns the
    location of [modified_statuses]; [ValueError] when the index is out of
    range. *)
Definition modify_statuses (current : loc) (zone_index : Z) (enable : bool) (h : heap)
    : result (loc * heap) :=
  '(modified, h) ← list_copy current h;
  n ← list_len modified h;
  if (0 <=? zone_index)%Z && (zone_index <? Z.of_nat n)%Z then
    mret (modified, list_setitem modified (Z.to_nat zone_index) (JBool enable) h)
  else Raise ValueError.

(** Lines 346-360, up to the command being sent. The cached list is the
    object at [current_zone_status]; what that object holds afterwards is
    what [last_data] holds afterwards. *)
Definition set_zone_state_send (zone_id : zone_ref) (enable : bool) : M unit :=
  zone_index ← lift (resolve_zone_index zone_id);
  c ← get_self;
  p ← lift (from_option TypeError (last_data c));
  match EnabledZones (main p) with
  | JList zs =>
      let '(current_zone_status, h) := alloc zs [] in
      '(modified_statuses, h) ← lift (modify_statuses current_zone_status zone_index enable h);
      cached ← lift (deref current_zone_status h);
      modify_self (with_last_data (Some (with_main (with_enabled_zones (JList cached) (main p)) p)));;
      sent ← lift (deref modified_statuses h);
      send "SET_ZONE_STATE" (KwZones sent)
  | JDict d =>
      if (0 <=? zone_index)%Z && (zone_index <? Z.of_nat (length d))%Z then
        send "SET_ZONE_STATE" (KwZonesDict d zone_index enable)
      else raise ValueError
  | _ => raise AttributeError
  end.

Definition set_zone_state (zone_id : zone_ref) (enable : bool) : M unit :=
  try_except
    (set_zone_state_send zone_id enable;;
     async_request_refresh)
    (λ err, raise err).

End Coordinator.

(** ** Concrete data: the scenario payload and a client with canned answers *)

Module Scenario.

(** The sections of the scenario, as the vendor nests them. *)
Definition sections : list (string * value) :=
  [("UserAirconSettings",
    JDict [("isOn", JBool true); ("Mode", JStr "COOL");
           ("FanMode", JStr "LOW+CONT");
           ("EnabledZones", JList [JBool true; JBool false])]);
   ("RemoteZoneInfo",
    JList [JDict [("NV_Exists", JBool true); ("NV_Title", JStr "Living");
                  ("LiveTemp_oC", JFloat 22.5)]]);
   ("AirconSystem", JDict [("Peripherals", JList [])])].

(** The payload with the sections at its top level. *)
Definition bare_payload : value := JDict sections.

(** The payload with the sections under ["lastKnownState"], where
    [_parse_data] reads them. *)
Definition payload : value := JDict [("lastKnownState", JDict sections)].

Definition living : zone_data :=
  {| name := JStr "Living"; temp := JFloat 22.5; humidity := JNull;
     is_enabled := JBool true; peripheral := None |}.

(** The normalized state of [payload]. *)
Definition state : parsed_data :=
  {| raw_data := payload;
     main := {| is_on := JBool true; mode := JStr "COOL"; fan_mode := "LOW+CONT";
                fan_continuous := true; base_fan_mode := "LOW";
                temp_setpoint_cool := JNull; temp_setpoint_heat := JNull;
                indoor_temp := JNull; indoor_humidity := JNull;
                compressor_state := JStr "OFF";
                EnabledZones := JList [JBool true; JBool false];
                away_mode := JBool false; quiet_mode := JBool false;
                model := JNull; serial_number := JNull; firmware_version := JNull;
                filter_clean_required := JBool false; defrosting := JBool false |};
     zones := {[ "zone_1" := living ]} |}.

(** A client whose answers are fixed in advance; a command is the pair of
    its kind and arguments. *)
Record canned : Type := {
  healthy : result bool;
  status : result value;
  accepted : result unit
}.

Definition command : Type := string * kwargs.

Definition api : Api.ActronApi canned command :=
  {| Api.is_api_healthy := λ r, (healthy r, r);
     Api.get_ac_status := λ _ r, (status r, r);
     Api.create_command := λ kind args r, (Ok (kind, args), r);
     Api.send_command := λ _ _ r, (accepted r, r);
     Api.set_fan_mode := λ _ _ r, (accepted r, r) |}.

Definition coordinator (zone_control : bool) (cached : option parsed_data) : Coordinator :=
  {| device_id := "neo-1"; enable_zone_control := zone_control;
     last_data := cached; _continuous_fan := false;
     data := State <$> cached |}.

Definition world (zone_control : bool) (cached : option parsed_data) (r : canned)
    : World canned command :=
  {| self := coordinator zone_control cached; remote := r; calls := [] |}.

Definition up : canned :=
  {| healthy := Ok true; status := Ok payload; accepted := Ok tt |}.

Definition unhealthy : canned :=
  {| healthy := Ok false; status := Ok payload; accepted := Ok tt |}.

Definition rejecting : canned :=
  {| healthy := Ok true; status := Raise AuthenticationError; accepted := Ok tt |}.

Definition failing : canned :=
  {| healthy := Ok true; status := Raise ApiError; accepted := Ok tt |}.

End Scenario.

(** ** Reference notions used in the statements *)

(** The characters of [s] before the first one that satisfies [stop]. *)
Fixpoint take_until (stop : ascii → bool) (s : string) : string :=
  match s with
  | EmptyString => EmptyString
  | String x r => if stop x then EmptyString else String x (take_until stop r)
  end.

(** The two characters that end the base of a fan mode. *)
Definition is_separator (c : ascii) : bool := Ascii.eqb c "+" || Ascii.eqb c "-".

(** The entries the log gained between two worlds. *)
Definition new_calls {W command : Type} (before after : World W command)
    : list (api_call command) :=
  drop (length (calls before)) (calls after).

(** A call the refresh makes: the health flag and the status request. *)
Definition is_refresh_call {command : Type} (c : api_call command) : bool :=
  match c with
  | CallIsApiHealthy | CallGetAcStatus _ => true
  | CallCreateCommand _ _ | CallSendCommand _ _ | CallSetFanMode _ _ => false
  end.

(** The zone entry [zd] is what the zone loop builds at position [i] from
    the vendor's entry [zone]: the position is below [MAX_ZONES], the entry
    is marked as existing ([NV_Exists] is true as a condition), and
    [is_enabled] is the value of line 163. *)
Definition zone_from (enabled : value) (i : nat) (zone : value) (zd : zone_data) : Prop :=
  i < MAX_ZONES
  ∧ (∃ v, get zone "NV_Exists" (JBool false) = Ok v ∧ truthy v = true)
  ∧ enabled_at enabled i = Ok (is_enabled zd)
  ∧ get zone "LiveTemp_oC" JNull = Ok (temp zd).

(** ** The rest of the coordinator: construction, accessors, zone control *)

(** [__init__], lines 20-40: nothing cached, the fan not continuous; the
    host has stored no data yet. The update interval goes to the host. *)
Definition __init__ (device : string) (zone_control : bool) : Coordinator :=
  {| device_id := device; enable_zone_control := zone_control;
     last_data := None; _continuous_fan := false; data := None |}.

Definition with_enable_zone_control (v : bool) (c : Coordinator) : Coordinator :=
  {| device_id := device_id c; enable_zone_control := v;
     last_data := last_data c; _continuous_fan := _continuous_fan c;
     data := data c |}.

(** Lines 186-199: the peripheral whose [ZoneAssignment] is [[n]], as the
    loop of [get_zone_peripheral] finds it. *)
Fixpoint first_assigned (peripherals : list value) (n : Z) : result (option value) :=
  match peripherals with
  | [] => Ok None
  | p :: rest =>
      za ← get p "ZoneAssignment" (JList []);
      if eq_singleton za n then Ok (Some p) else first_assigned rest n
  end.

(** [self.data.get("raw_data", {})]: [None] has no [get], [{}] has no such
    key, a normalized state holds the payload it was made from. *)
Definition data_raw (c : Coordinator) : result value :=
  match data c with
  | None => Raise AttributeError
  | Some EmptyState => Ok (JDict [])
  | Some (State p) => Ok (raw_data p)
  end.

(** [except (KeyError, ValueError, IndexError): return None]; anything else
    goes to the caller. *)
Definition except_lookup_errors {A : Type} (none : A) (r : result A) : result A :=
  match r with
  | Raise KeyError | Raise ValueError | Raise IndexError => Ok none
  | _ => r
  end.

Definition get_zone_peripheral (c : Coordinator) (zone_id : string) : result (option value) :=
  except_lookup_errors None
    (zone_index ← zone_index_of zone_id;
     raw ← data_raw c;
     aircon_system ← get raw "AirconSystem" (JDict []);
     peripherals ← get aircon_system "Peripherals" (JList []);
     ps ← iter peripherals;
     first_assigned ps (zone_index + 1)%Z).

(** Lines 201-208; [JNull] is the [None] the method returns. *)
Definition get_zone_last_updated (c : Coordinator) (zone_id : string) : result value :=
  except_lookup_errors JNull
    (peripheral_data ← get_zone_peripheral c zone_id;
     match peripheral_data with
     | Some p => if truthy p then get p "LastConnectionTime" JNull else Ok JNull
     | None => Ok JNull
     end).

Section ZoneControl.

Context {W command : Type} (api : Api.ActronApi W command).

(** Lines 52-55. *)
Definition set_enable_zone_control (enable : bool) : M W command unit :=
  modify_self (with_enable_zone_control enable);;
  async_request_refresh api.

End ZoneControl.

(** ** Reference notions for the further properties *)

Fixpoint digits_only (s : string) : bool :=
  match s with
  | EmptyString => true
  | String x r => match PyStr.digit_of x with Some _ => digits_only r | None => false end
  end.

(** The number a string of digits denotes after the digits read so far
    denote [acc]. *)
Fixpoint digits_value (acc : Z) (s : string) : Z :=
  match s with
  | EmptyString => acc
  | String x r =>
      match PyStr.digit_of x with
      | Some d => digits_value (10 * acc + d) r
      | None => acc
      end
  end.

(** The [main] dictionary of a payload that holds none of the sections. *)
Definition default_main : main_data :=
  {| is_on := JBool false; mode := JStr "OFF"; fan_mode := "";
     fan_continuous := false; base_fan_mode := "";
     temp_setpoint_cool := JNull; temp_setpoint_heat := JNull;
     indoor_temp := JNull; indoor_humidity := JNull;
     compressor_state := JStr "OFF"; EnabledZones := JList [];
     away_mode := JBool false; quiet_mode := JBool false; model := JNull;
     serial_number := JNull; firmware_version := JNull;
     filter_clean_required := JBool false; defrosting := JBool false |}.

(** The five values the normalizer copies from a matching peripheral. *)
Definition peripheral_fields (p : list (string * value)) : peripheral_data :=
  {| battery_level := dict_get p "RemainingBatteryCapacity_pc" JNull;
     signal_strength := dict_get p "Signal_of3" JNull;
     peripheral_type := dict_get p "DeviceType" JNull;
     last_connection := dict_get p "LastConnectionTime" JNull;
     connection_state := dict_get p "ConnectionState" JNull |}.

(** The whole zone entry [zd] as the loop builds it at position [i] from the
    vendor's entry [zone]: name, readings, enabled flag and the fields of
    the first matching peripheral. *)
Definition zone_built (enabled peripherals : value) (i : nat) (zone : value)
    (zd : zone_data) : Prop :=
  get zone "NV_Title" (JStr (zone_title i)) = Ok (name zd)
  ∧ get zone "LiveTemp_oC" JNull = Ok (temp zd)
  ∧ get zone "LiveHumidity_pc" JNull = Ok (humidity zd)
  ∧ enabled_at enabled i = Ok (is_enabled zd)
  ∧ ∃ ps, iter peripherals = Ok ps ∧ find_peripheral ps i = Ok (peripheral zd).

(** The coordinator's two copies of the state agree: the host's [data] is
    the cached state when there is one, and holds no state otherwise. *)
Definition coherent (c : Coordinator) : Prop :=
  match last_data c with
  | Some p => data c = Some (State p)
  | None => data c = None ∨ data c = Some EmptyState
  end.

(** ** Concrete data: a payload with a zone sensor *)

Module Sensor.

Definition peripheral : list (string * value) :=
  [("ZoneAssignment", JList [JInt 1]);
   ("RemainingBatteryCapacity_pc", JInt 80);
   ("LastConnectionTime", JStr "2024-01-01T00:00:00Z")].

(** The scenario's sections, with one peripheral assigned to zone 1. *)
Definition sections : list (string * value) :=
  [("UserAirconSettings",
    JDict [("FanMode", JStr "LOW+CONT");
           ("EnabledZones", JList [JBool true; JBool false])]);
   ("RemoteZoneInfo",
    JList [JDict [("NV_Exists", JBool true); ("NV_Title", JStr "Living")]]);
   ("AirconSystem", JDict [("Peripherals", JList [JDict peripheral])])].

(** As the vendor sends it: the sections under ["lastKnownState"]. *)
Definition payload : value := JDict [("lastKnownState", JDict sections)].

(** With the sections at the top level as well, where
    [get_zone_peripheral] looks. *)
Definition flat_payload : value :=
  JDict (("lastKnownState", JDict sections) :: sections).

(** The state a payload is normalized to (the scenario's when it is
    rejected). *)
Definition state_of (d : value) : parsed_data :=
  match fst (_parse_data d (Scenario.world true None Scenario.up)) with
  | Ok p => p
  | Raise _ => Scenario.state
  end.

(** A coordinator after a refresh that returned the state of [d]. *)
Definition coordinator (d : value) : Coordinator :=
  {| device_id := "neo-1"; enable_zone_control := true;
     last_data := Some (state_of d); _continuous_fan := true;
     data := Some (State (state_of d)) |}.

End Sensor.

(** ** Concrete data: clients that fail *)

Module Cases.

(** The client answers the refresh and refuses every command. *)
Definition refusing : Scenario.canned :=
  {| Scenario.healthy := Ok true; Scenario.status := Ok Scenario.payload;
     Scenario.accepted := Raise ApiError |}.

(** The client answers the status request with a payload that is not an
    object. *)
Definition garbled : Scenario.canned :=
  {| Scenario.healthy := Ok true; Scenario.status := Ok (JList []);
     Scenario.accepted := Ok tt |}.

(** One peripheral, assigned to zone 2. *)
Definition peripherals : list value :=
  [JDict [("ZoneAssignment", JList [JInt 2])]].

End Cases.

(** ** The earlier coordinator, [custom_components/actron/coordinator.py] *)

Module Legacy.

Fixpoint has_key (d : list (string * value)) (k : string) : bool :=
  match d with
  | [] => false
  | (k', _) :: r => String.eqb k' k || has_key r k
  end.

Fixpoint is_substring (k s : string) : bool :=
  String.prefix k s
  || match s with
     | EmptyString => false
     | String _ r => is_substring k r
     end.

(** [k in v] for a string [k]: a key of a dict, an item of a list, a
    substring of a string; nothing else can be searched. *)
Definition contains (v : value) (k : string) : result bool :=
  match v with
  | JDict d => Ok (has_key d k)
  | JList l => Ok (existsb (λ x, match x with JStr s => String.eqb s k | _ => false end) l)
  | JStr s => Ok (is_substring k s)
  | _ => Raise TypeError
  end.

(** [v[k]] for a string [k]: only a dict can be subscripted with it. *)
Definition subscript (v : value) (k : string) : result value :=
  match v with
  | JDict d => if has_key d k then Ok (dict_get d k JNull) else Raise KeyError
  | _ => Raise TypeError
  end.

Record zone_entry : Type := {
  enabled : value;
  name : value;
  temperature : value;
  target_temperature_cool : value;
  target_temperature_heat : value
}.

(** The five keys written when the status has ["UserAirconSettings"]. *)
Record user_settings : Type := {
  isOn : value;
  mode : value;
  fanMode : value;
  temperatureSetpointCool : value;
  temperatureSetpointHeat : value
}.

(** The parsed dictionary; a key that is written only under a condition is
    an option. *)
Record parsed_data : Type := {
  settings : option user_settings;
  indoor_temperature : option value;
  indoor_humidity : option value;
  battery_level : option value;
  outdoor_temperature : option value;
  zones : gmap string zone_entry;
  events : value
}.

(** Lines 80-88, one turn of the loop: [str(i)] is the key. *)
Definition parse_zone (remote_zone_info : value) (i : nat) (flag : value)
    (acc : gmap string zone_entry) : result (gmap string zone_entry) :=
  zone_data ← get remote_zone_info (pretty i) (JDict []);
  v_name ← get zone_data "Name" (JStr ("Zone " +:+ pretty i));
  v_temp ← get zone_data "Temperature_oC" JNull;
  v_cool ← get zone_data "TemperatureSetpoint_Cool_oC" JNull;
  v_heat ← get zone_data "TemperatureSetpoint_Heat_oC" JNull;
  mret (<[pretty i := {| enabled := flag; name := v_name; temperature := v_temp;
                         target_temperature_cool := v_cool;
                         target_temperature_heat := v_heat |}]> acc).

Fixpoint parse_zones_from (remote_zone_info : value) (i : nat) (flags : list value)
    (acc : gmap string zone_entry) : result (gmap string zone_entry) :=
  match flags with
  | [] => Ok acc
  | flag :: rest =>
      acc' ← parse_zone remote_zone_info i flag acc;
      parse_zones_from remote_zone_info (S i) rest acc'
  end.

(** Lines 75-90. *)
Definition _parse_zone_data (status : value) : result (gmap string zone_entry) :=
  user ← get status "UserAirconSettings" (JDict []);
  remote_zone_info ← get status "RemoteZoneInfo" (JDict []);
  enabled_zones ← get user "EnabledZones" (JList []);
  flags ← iter enabled_zones;
  parse_zones_from remote_zone_info 0 flags ∅.

(** [if k in v: x = v[k]; body x], with [otherwise] when the key is absent. *)
Definition if_present {A : Type} (v : value) (k : string) (body : value → result A)
    (otherwise : A) : result A :=
  present ← contains v k;
  if (present : bool) then subscript v k ≫= body else Ok otherwise.

(** Lines 47-55. *)
Definition parse_settings (status : value) : result (option user_settings) :=
  if_present status "UserAirconSettings"
    (λ user,
       v_on ← get user "isOn" (JBool false);
       v_mode ← get user "Mode" (JStr "OFF");
       v_fan ← get user "FanMode" (JStr "AUTO");
       v_cool ← get user "TemperatureSetpoint_Cool_oC" JNull;
       v_heat ← get user "TemperatureSetpoint_Heat_oC" JNull;
       mret (Some {| isOn := v_on; mode := v_mode; fanMode := v_fan;
                     temperatureSetpointCool := v_cool;
                     temperatureSetpointHeat := v_heat |}))
    None.

(** Lines 57-68: indoor temperature and humidity, battery level, outdoor
    temperature. *)
Definition parse_sensors (status : value)
    : result (option value * option value * option value * option value) :=
  if_present status "SystemStatus_Local"
    (λ system_status,
       '(temp, hum, batt) ←
         if_present system_status "SensorInputs"
           (λ sensor_inputs,
              '(temp, hum) ←
                if_present sensor_inputs "SHTC1"
                  (λ shtc1,
                     t ← get shtc1 "Temperature_oC" JNull;
                     h ← get shtc1 "RelativeHumidity_pc" JNull;
                     mret (Some t, Some h))
                  (None, None);
              batt ←
                if_present sensor_inputs "Battery"
                  (λ battery, l ← get battery "Level" JNull; mret (Some l))
                  None;
              mret (temp, hum, batt))
           (None, None, None);
       out ←
         if_present system_status "Outdoor"
           (λ outdoor, t ← get outdoor "Temperature_oC" JNull; mret (Some t))
           None;
       mret (temp, hum, batt, out))
    (None, None, None, None).

(** Lines 45-73. *)
Definition _parse_data (status events_ : value) : result parsed_data :=
  s ← parse_settings status;
  '(temp, hum, batt, out) ← parse_sensors status;
  zs ← _parse_zone_data status;
  ev ← get events_ "events" (JList []);
  mret {| settings := s; indoor_temperature := temp; indoor_humidity := hum;
          battery_level := batt; outdoor_temperature := out;
          zones := zs; events := ev |}.

(** The client as this coordinator uses it; [has_bearer_token] is the truth
    value of the attribute [bearer_token]. *)
Record ActronApi (W : Type) : Type := {
  has_bearer_token : W → bool;
  authenticate : W → result unit * W;
  get_ac_status : string → W → result value * W;
  get_ac_events : string → W → result value * W
}.

Arguments has_bearer_token {W} _ _.
Arguments authenticate {W} _ _.
Arguments get_ac_status {W} _ _ _.
Arguments get_ac_events {W} _ _ _.

Inductive call : Type :=
| Authenticate
| GetAcStatus (device : string)
| GetAcEvents (device : string).

Section Coordinator.

Context {W : Type} (api : ActronApi W).

(** Lines 27-31: the calls of the [try] block, up to the payloads. The
    result comes with the client's state and the calls made. *)
Definition fetch (device_id : string) (r0 : W) : result (value * value) * W * list call :=
  let '(auth, r1, log1) :=
    if has_bearer_token api r0 then (Ok tt, r0, [])
    else let (a, r) := authenticate api r0 in (a, r, [Authenticate]) in
  match auth with
  | Raise e => (Raise e, r1, log1)
  | Ok _ =>
      let (s, r2) := get_ac_status api device_id r1 in
      match s with
      | Raise e => (Raise e, r2, log1 ++ [GetAcStatus device_id])
      | Ok status =>
          let (ev, r3) := get_ac_events api device_id r2 in
          let log3 := log1 ++ [GetAcStatus device_id; GetAcEvents device_id] in
          match ev with
          | Raise e => (Raise e, r3, log3)
          | Ok events_ => (Ok (status, events_), r3, log3)
          end
      end
  end.

(** Lines 25-43: each of the three handlers raises [UpdateFailed]. *)
Definition _async_update_data (device_id : string) (r0 : W)
    : result parsed_data * W * list call :=
  let '(fetched, r, log) := fetch device_id r0 in
  let handled :=
    match fetched ≫= (λ '(status, events_), _parse_data status events_) with
    | Ok p => Ok p
    | Raise AuthenticationError => Raise UpdateFailed
    | Raise ApiError => Raise UpdateFailed
    | Raise _ => Raise UpdateFailed
    end in
  (handled, r, log).

End Coordinator.

(** A client with canned answers. *)
Record canned : Type := {
  token : bool;
  login : result unit;
  status : result value;
  history : result value
}.

Definition canned_api : ActronApi canned :=
  {| has_bearer_token := token;
     authenticate := λ r, (login r, r);
     get_ac_status := λ _ r, (status r, r);
     get_ac_events := λ _ r, (history r, r) |}.

(** A status in the shape this coordinator expects: zones keyed by their
    number. *)
Definition sample_status : value :=
  JDict [("UserAirconSettings",
          JDict [("isOn", JBool true); ("EnabledZones", JList [JBool true; JBool false])]);
         ("RemoteZoneInfo", JDict [("0", JDict [("Name", JStr "Living")])])].

End Legacy.

(** ** The commands that set a mode or a temperature, lines 210-231 and
    369-395 *)

Module ModesApi.

(** The keyword arguments these commands pass to [create_command]. *)
Inductive kwargs : Type :=
| KwNone
| KwMode (mode_ : string)
| KwTemp (temp_ : float) (is_cool : bool).

(** The client with the methods these commands add to those of [Api]:
    [create_command] at the keyword arguments above, and the two setters. *)
Record ActronApi (W command : Type) : Type := {
  base : Api.ActronApi W command;
  create_command : string → kwargs → W → result command * W;
  set_away_mode : bool → W → result unit * W;
  set_quiet_mode : bool → W → result unit * W
}.

Arguments base {W command} _.
Arguments create_command {W command} _ _ _ _.
Arguments set_away_mode {W command} _ _ _.
Arguments set_quiet_mode {W command} _ _ _.

End ModesApi.

Module Modes.

(** One entry of the log per call to the client; the calls of a refresh are
    kept together in one entry. *)
Inductive call (command : Type) : Type :=
| CreateCommand (kind : string) (args : ModesApi.kwargs)
| SendCommand (device : string) (cmd : command)
| SetAwayMode (state : bool)
| SetQuietMode (state : bool)
| Refresh (made : list (api_call command)).

Arguments CreateCommand {command} kind args.
Arguments SendCommand {command} device cmd.
Arguments SetAwayMode {command} state.
Arguments SetQuietMode {command} state.
Arguments Refresh {command} made.

Record World (W command : Type) : Type := {
  coord : Coordinator;
  client : W;
  log : list (call command)
}.

Arguments coord {W command} _.
Arguments client {W command} _.
Arguments log {W command} _.

Section Commands.

(** [HVACMode.OFF] is a constant of the host. *)
Context {W command : Type} (api : ModesApi.ActronApi W command) (HVACMode_OFF : string).

#[local] Abbreviation World := (World W command).

(** [await self.async_request_refresh()], run on the coordinator and the
    client as they are; it does not raise. *)
Definition refresh (w : World) : World :=
  let after :=
    snd (async_request_refresh (ModesApi.base api)
           {| self := coord w; remote := client w; calls := [] |}) in
  {| coord := self after; client := remote after;
     log := log w ++ [Refresh (calls after)] |}.

(** One call to the client, logged. *)
Definition call_client {A : Type} (c : call command) (f : W → result A * W) (w : World)
    : result A * World :=
  let (r, client') := f (client w) in
  (r, {| coord := coord w; client := client'; log := log w ++ [c] |}).

(** [command = create_command(kind, ...); await send_command(device_id,
    command); await async_request_refresh()], inside [try ... except: raise]. *)
Definition send_then_refresh (kind : string) (args : ModesApi.kwargs) (w : World)
    : result unit * World :=
  match call_client (CreateCommand kind args) (ModesApi.create_command api kind args) w with
  | (Raise e, w1) => (Raise e, w1)
  | (Ok cmd, w1) =>
      match call_client (SendCommand (device_id (coord w1)) cmd)
              (Api.send_command (ModesApi.base api) (device_id (coord w1)) cmd) w1 with
      | (Raise e, w2) => (Raise e, w2)
      | (Ok _, w2) => (Ok tt, refresh w2)
      end
  end.

(** Lines 210-221. *)
Definition set_hvac_mode (hvac_mode : string) : World → result unit * World :=
  if String.eqb hvac_mode HVACMode_OFF then send_then_refresh "OFF" ModesApi.KwNone
  else send_then_refresh "CLIMATE_MODE" (ModesApi.KwMode hvac_mode).

(** Lines 223-231. *)
Definition set_temperature (temperature : float) (is_cooling : bool)
    : World → result unit * World :=
  send_then_refresh "SET_TEMP" (ModesApi.KwTemp temperature is_cooling).

(** Lines 369-377. *)
Definition set_climate_mode (mode_ : string) : World → result unit * World :=
  send_then_refresh "CLIMATE_MODE" (ModesApi.KwMode mode_).

(** [await setter(state); await async_request_refresh()], inside
    [try ... except: raise]. *)
Definition set_then_refresh (c : call command) (setter : W → result unit * W) (w : World)
    : result unit * World :=
  match call_client c setter w with
  | (Raise e, w1) => (Raise e, w1)
  | (Ok _, w1) => (Ok tt, refresh w1)
  end.

(** Lines 379-386. *)
Definition set_away_mode (state : bool) : World → result unit * World :=
  set_then_refresh (SetAwayMode state) (ModesApi.set_away_mode api state).

(** Lines 388-395. *)
Definition set_quiet_mode (state : bool) : World → result unit * World :=
  set_then_refresh (SetQuietMode state) (ModesApi.set_quiet_mode api state).

End Commands.

(** Whether an entry of the log is a refresh. *)
Definition is_refresh {command : Type} (c : call command) : bool :=
  match c with
  | Refresh _ => true
  | _ => false
  end.

(** What a command leaves behind: after a success the log has gained the
    command's own calls and then one refresh, the last entry; after a
    failure it has gained no refresh and the coordinator is what it was. *)
Definition outcome {W command : Type} (w : World W command)
    (res : result unit * World W command) : Prop :=
  match res with
  | (Ok _, w') =>
      ∃ own made, log w' = log w ++ own ++ [Refresh made]
                  ∧ Forall (λ c, is_refresh c = false) own
  | (Raise _, w') =>
      coord w' = coord w
      ∧ ∃ own, log w' = log w ++ own ∧ Forall (λ c, is_refresh c = false) own
  end.

(** The canned client of the scenario, with the further methods. *)
Definition api (build accepted : result unit)
    : ModesApi.ActronApi Scenario.canned Scenario.command :=
  {| ModesApi.base := Scenario.api;
     ModesApi.create_command := λ kind args r,
       (match build with
        | Ok _ => Ok (kind, KwZones [])
        | Raise e => Raise e
        end, r);
     ModesApi.set_away_mode := λ _ r, (accepted, r);
     ModesApi.set_quiet_mode := λ _ r, (accepted, r) |}.

Definition world (r : Scenario.canned) : World Scenario.canned Scenario.command :=
  {| coord := Scenario.coordinator true (Some Scenario.state); client := r; log := [] |}.

End Modes.

(** ** Exceptions that no [except Exception] clause catches *)

(** The refresh of both coordinators once more, with clients whose calls may
    also end with an exception that derives from [BaseException] only:
    [asyncio.CancelledError] when the task is cancelled at an [await],
    [KeyboardInterrupt], [SystemExit]. No handler of the refresh matches
    such an exception. *)
Module Interrupt.

(** How a call ends: it returns, it raises an exception derived from
    [Exception], or it raises one that is not, given by its class name. *)
Inductive outcome (A : Type) : Type :=
| Returns (a : A)
| Raises (e : exn)
| Passes (base : string).

Arguments Returns {A} a.
Arguments Raises {A} e.
Arguments Passes {A} base.

#[global] Instance outcome_ret : MRet outcome := λ A a, Returns a.

#[global] Instance outcome_bind : MBind outcome := λ A B k o,
  match o with
  | Returns a => k a
  | Raises e => Raises e
  | Passes b => Passes b
  end.

Definition of_result {A : Type} (r : result A) : outcome A :=
  match r with
  | Ok a => Returns a
  | Raise e => Raises e
  end.

(** The two methods of the client that the refresh uses. *)
Record ActronApi (W : Type) : Type := {
  is_api_healthy : W → outcome bool * W;
  get_ac_status : string → W → outcome value * W
}.

Arguments is_api_healthy {W} _ _.
Arguments get_ac_status {W} _ _ _.

(** A client that raises nothing outside [Exception]. *)
Definition of_api {W command : Type} (api : Api.ActronApi W command) : ActronApi W :=
  {| is_api_healthy := λ r,
       let (a, r') := Api.is_api_healthy api r in (of_result a, r');
     get_ac_status := λ device r,
       let (a, r') := Api.get_ac_status api device r in (of_result a, r') |}.

Definition IM (W command A : Type) : Type :=
  World W command → outcome A * World W command.

#[global] Instance IM_ret {W command} : MRet (IM W command) := λ A a w, (Returns a, w).

#[global] Instance IM_bind {W command} : MBind (IM W command) := λ A B k m w,
  match m w with
  | (Returns a, w') => k a w'
  | (Raises e, w') => (Raises e, w')
  | (Passes b, w') => (Passes b, w')
  end.

Section Coordinator.

Context {W command : Type} (api : ActronApi W).

#[local] Abbreviation IM := (IM W command).

Definition raise {A : Type} (e : exn) : IM A := λ w, (Raises e, w).

Definition get_self : IM Coordinator := λ w, (Returns (self w), w).

Definition modify_self (f : Coordinator → Coordinator) : IM unit := λ w,
  (Returns tt, {| self := f (self w); remote := remote w; calls := calls w |}).

(** [try: body except Exception as e: handler e]: what is raised outside
    [Exception] is not caught. *)
Definition try_except {A : Type} (body : IM A) (handler : exn → IM A) : IM A := λ w,
  match body w with
  | (Raises e, w') => handler e w'
  | (o, w') => (o, w')
  end.

Definition call {A : Type} (c : api_call command) (f : W → outcome A * W) : IM A := λ w,
  let (r, remote') := f (remote w) in
  (r, {| self := self w; remote := remote'; calls := calls w ++ [c] |}).

(** A method that makes no call to the client, as modelled above. *)
Definition run {A : Type} (m : M W command A) : IM A := λ w,
  let (r, w') := m w in (of_result r, w').

Definition cached_or {A : Type} (c : Coordinator) (k : parsed_data → IM A) (otherwise : IM A) : IM A :=
  match last_data c with
  | Some p => k p
  | None => otherwise
  end.

(** Lines 57-84. *)
Definition _async_update_data : IM coordinator_data :=
  try_except
    (healthy ← call CallIsApiHealthy (is_api_healthy api);
     c ← get_self;
     if negb healthy then
       cached_or c (λ p, mret (State p)) (mret EmptyState)
     else
       status ← call (CallGetAcStatus (device_id c)) (get_ac_status api (device_id c));
       parsed ← run (_parse_data status);
       modify_self (with_last_data (Some parsed));;
       mret (State parsed))
    (λ err,
       c ← get_self;
       match err with
       | AuthenticationError => raise ConfigEntryAuthFailed
       | ApiError => cached_or c (λ p, mret (State p)) (raise UpdateFailed)
       | _ => cached_or c (λ p, mret (State p)) (raise UpdateFailed)
       end).

End Coordinator.

(** The scenario's client, cancelled while the status is awaited. *)
Definition cancelled_api : ActronApi Scenario.canned :=
  {| is_api_healthy := λ r, (of_result (Scenario.healthy r), r);
     get_ac_status := λ _ r, (Passes "CancelledError", r) |}.

End Interrupt.

(** The same for the earlier coordinator, [actron/coordinator.py]. *)
Module LegacyInterrupt.

Import Interrupt.

Record ActronApi (W : Type) : Type := {
  has_bearer_token : W → bool;
  authenticate : W → outcome unit * W;
  get_ac_status : string → W → outcome value * W;
  get_ac_events : string → W → outcome value * W
}.

Arguments has_bearer_token {W} _ _.
Arguments authenticate {W} _ _.
Arguments get_ac_status {W} _ _ _.
Arguments get_ac_events {W} _ _ _.

(** A client that raises nothing outside [Exception]. *)
Definition of_api {W : Type} (api : Legacy.ActronApi W) : ActronApi W :=
  {| has_bearer_token := Legacy.has_bearer_token api;
     authenticate := λ r,
       let (a, r') := Legacy.authenticate api r in (of_result a, r');
     get_ac_status := λ device r,
       let (a, r') := Legacy.get_ac_status api device r in (of_result a, r');
     get_ac_events := λ device r,
       let (a, r') := Legacy.get_ac_events api device r in (of_result a, r') |}.

Section Coordinator.

Context {W : Type} (api : ActronApi W).

(** Lines 27-31. *)
Definition fetch (device_id : string) (r0 : W)
    : outcome (value * value) * W * list Legacy.call :=
  let '(auth, r1, log1) :=
    if has_bearer_token api r0 then (Returns tt, r0, [])
    else let (a, r) := authenticate api r0 in (a, r, [Legacy.Authenticate]) in
  match auth with
  | Raises e => (Raises e, r1, log1)
  | Passes b => (Passes b, r1, log1)
  | Returns _ =>
      let (s, r2) := get_ac_status api device_id r1 in
      match s with
      | Raises e => (Raises e, r2, log1 ++ [Legacy.GetAcStatus device_id])
      | Passes b => (Passes b, r2, log1 ++ [Legacy.GetAcStatus device_id])
      | Returns status =>
          let (ev, r3) := get_ac_events api device_id r2 in
          let log3 := log1 ++ [Legacy.GetAcStatus device_id; Legacy.GetAcEvents device_id] in
          match ev with
          | Raises e => (Raises e, r3, log3)
          | Passes b => (Passes b, r3, log3)
          | Returns events_ => (Returns (status, events_), r3, log3)
          end
      end
  end.

(** Lines 25-43: each of the three handlers raises [UpdateFailed], and none
    matches an exception outside [Exception]. *)
Definition _async_update_data (device_id : string) (r0 : W)
    : outcome Legacy.parsed_data * W * list Legacy.call :=
  let '(fetched, r, log) := fetch device_id r0 in
  let handled :=
    match fetched ≫= (λ '(status, events_), of_result (Legacy._parse_data status events_)) with
    | Returns p => Returns p
    | Raises AuthenticationError => Raises UpdateFailed
    | Raises ApiError => Raises UpdateFailed
    | Raises _ => Raises UpdateFailed
    | Passes b => Passes b
    end in
  (handled, r, log).

End Coordinator.

(** A client without a token, cancelled while the events are awaited. *)
Definition cancelled_api : ActronApi Legacy.canned :=
  {| has_bearer_token := λ _, false;
     authenticate := λ r, (Returns tt, r);
     get_ac_status := λ _ r, (of_result (Legacy.status r), r);
     get_ac_events := λ _ r, (Passes "CancelledError", r) |}.

End LegacyInterrupt.

(** ** Concrete data: more zones than flags, and a zone list that fails *)

Module Sparse.

(** Two zones exist and only one enabled-zone flag is sent. *)
Definition payload : value :=
  JDict [("lastKnownState",
          JDict [("UserAirconSettings",
                  JDict [("FanMode", JStr "LOW");
                         ("EnabledZones", JList [JBool true])]);
                 ("RemoteZoneInfo",
                  JList [JDict [("NV_Exists", JBool true)];
                         JDict [("NV_Exists", JBool true)]])])].

(** The main section reads well, with a continuous fan mode, and the first
    zone entry is not an object, so that the zone loop raises. *)
Definition broken_zone_payload : value :=
  JDict [("lastKnownState",
          JDict [("UserAirconSettings", JDict [("FanMode", JStr "LOW+CONT")]);
                 ("RemoteZoneInfo", JList [JNull])])].

(** A coordinator that holds the scenario's state, and a client that now
    answers with [payload]. *)
Definition client : Scenario.canned :=
  {| Scenario.healthy := Ok true; Scenario.status := Ok payload;
     Scenario.accepted := Ok tt |}.

Definition world : World Scenario.canned Scenario.command :=
  Scenario.world true (Some Scenario.state) client.

End Sparse.

(** * Properties *)

(** ** Strings *)

Lemma append_cons c (a b : string) : String c a +:+ b = String c (a +:+ b).
Proof. reflexivity. Qed.

Lemma split_head sep s :
  PyStr.split sep s !! 0 = Some (take_until (λ x, Ascii.eqb x sep) s).
Proof.
  induction s as [|x r IH]; simpl; [done|].
  destruct (Ascii.eqb x sep); [done|].
  destruct (PyStr.split sep r) as [|h t]; simpl in *; [done|].
  by simplify_eq.
Qed.

Lemma take_until_absent sep s :
  PyStr.contains sep s = false → take_until (λ x, Ascii.eqb x sep) s = s.
Proof.
  induction s as [|x r IH]; simpl; [done|].
  destruct (Ascii.eqb x sep); [done|].
  intros H. by rewrite IH.
Qed.

Lemma strip_after_take_until sep s :
  strip_after sep s = Ok (take_until (λ x, Ascii.eqb x sep) s).
Proof.
  unfold strip_after. destruct (PyStr.contains sep s) eqn:E.
  - by rewrite split_head.
  - by rewrite take_until_absent.
Qed.

Lemma take_until_twice p q s :
  take_until q (take_until p s) = take_until (λ x, p x || q x) s.
Proof.
  induction s as [|x r IH]; simpl; [done|].
  destruct (p x); simpl; [done|].
  destruct (q x); [done|]. by rewrite IH.
Qed.

Lemma base_fan_mode_of_take_until s :
  base_fan_mode_of s = Ok (take_until is_separator s).
Proof.
  unfold base_fan_mode_of. rewrite strip_after_take_until. simpl.
  rewrite strip_after_take_until. f_equal. apply take_until_twice.
Qed.

Lemma take_until_prefix p s :
  ∃ rest, s = take_until p s +:+ rest
          ∧ (rest = "" ∨ ∃ x r, rest = String x r ∧ p x = true).
Proof.
  induction s as [|x r [rest [IH1 IH2]]]; simpl.
  - exists "". auto.
  - destruct (p x) eqn:E.
    + exists (String x r). split; [done|]. right. eauto.
    + exists rest. split; [|done]. rewrite append_cons. by f_equal.
Qed.

Lemma take_until_clean p c s :
  p c = true → PyStr.contains c (take_until p s) = false.
Proof.
  intros Hc. induction s as [|x r IH]; simpl; [done|].
  destruct (p x) eqn:E; simpl; [done|].
  destruct (Ascii.eqb_spec x c) as [->|]; [congruence|done].
Qed.

Lemma endswith_unfold s suffix :
  PyStr.endswith s suffix =
  if String.eqb s suffix then true
  else match s with
       | EmptyString => false
       | String _ r => PyStr.endswith r suffix
       end.
Proof. by destruct s. Qed.

Lemma endswith_suffix s suffix :
  PyStr.endswith s suffix = true ↔ ∃ front, s = front +:+ suffix.
Proof.
  split.
  - induction s as [|x r IH]; rewrite endswith_unfold.
    + destruct (String.eqb_spec "" suffix) as [<-|_]; [|done]. by exists "".
    + destruct (String.eqb_spec (String x r) suffix) as [<-|_].
      * by exists "".
      * intros [front ->]%IH. by exists (String x front).
  - intros [front ->]. induction front as [|x r IH]; rewrite endswith_unfold.
    + change ("" +:+ suffix) with suffix. by rewrite String.eqb_refl.
    + rewrite append_cons, IH. by destruct (String.eqb _ _).
Qed.

(** ** Fallible expressions *)

Lemma bind_Ok {A B : Type} (r : result A) (k : A → result B) (b : B) :
  r ≫= k = Ok b → ∃ a, r = Ok a ∧ k a = Ok b.
Proof. destruct r as [a|e]; [|done]. intros H. by exists a. Qed.

(** Splits a hypothesis [x ← r; k = Ok b] into [r = Ok a] and [k a = Ok b],
    as often as it applies. *)
Ltac bind_inv H :=
  repeat (let a := fresh "v" in
          let E := fresh "E" in
          apply bind_Ok in H as [a [E H]]).

(** ** The normalizer *)

Lemma is_separator_true c : is_separator c = true → c = "+"%char ∨ c = "-"%char.
Proof.
  unfold is_separator. intros [H|H]%orb_prop; apply Ascii.eqb_eq in H; auto.
Qed.

(** C5 (amended): for every fan-mode string, the base is the string cut at
    the first character that is a ['+'] or a ['-'], whichever comes first,
    and the whole string when it holds neither: the base holds no separator,
    and what was cut off is empty or starts with one. *)
Theorem base_fan_mode_first_separator (s : string) :
  ∃ base rest,
    base_fan_mode_of s = Ok base
    ∧ s = base +:+ rest
    ∧ PyStr.contains "+" base = false
    ∧ PyStr.contains "-" base = false
    ∧ (rest = "" ∨ ∃ r, rest = String "+" r ∨ rest = String "-" r).
Proof.
  destruct (take_until_prefix is_separator s) as [rest [Hs Hrest]].
  exists (take_until is_separator s), rest.
  split; [apply base_fan_mode_of_take_until|].
  split; [done|].
  split; [by apply take_until_clean|].
  split; [by apply take_until_clean|].
  destruct Hrest as [->|(x & r & -> & Hx)]; [by left|right].
  exists r. destruct (is_separator_true _ Hx) as [->| ->]; auto.
Qed.

(** C5, as stated, fails on a ['-'] that comes before the ['+']: the base of
    ["A-B+C"] is ["A"], not the ["A-B"] that precedes the first ['+']. *)
Lemma base_fan_mode_minus_before_plus :
  PyStr.contains "+" "A-B+C" = true
  ∧ take_until (λ x, Ascii.eqb x "+") "A-B+C" = "A-B"
  ∧ base_fan_mode_of "A-B+C" = Ok "A"
  ∧ base_fan_mode_of "A-B+C" ≠ Ok (take_until (λ x, Ascii.eqb x "+") "A-B+C").
Proof. repeat split; done. Qed.

Section Normalizer.

Context {W command : Type}.

#[local] Abbreviation World := (World W command).

(** What [_parse_data] returns and what it leaves behind, by cases on the
    two stages of the normalizer. *)
Lemma _parse_data_eq (d : value) (w : World) :
  _parse_data d w =
  match parse_main d with
  | Raise _ => (Raise UpdateFailed, w)
  | Ok (m, last_known_state, aircon_system) =>
      (match parse_zones m last_known_state aircon_system with
       | Ok zs => Ok {| raw_data := d; main := m; zones := zs |}
       | Raise _ => Raise UpdateFailed
       end,
       {| self := with_continuous_fan (fan_continuous m) (self w);
          remote := remote w; calls := calls w |})
  end.
Proof.
  unfold _parse_data, try_except, lift, modify_self, raise, mbind, M_bind, mret, M_ret.
  destruct (parse_main d) as [[[m l] a]|e]; simpl; [|done].
  by destruct (parse_zones m l a).
Qed.

(** What a successful first stage says about the sections it read. *)
Lemma parse_main_inv (d : value) m l a :
  parse_main d = Ok (m, l, a) →
  ∃ user fan,
    get d "lastKnownState" (JDict []) = Ok l
    ∧ get l "UserAirconSettings" (JDict []) = Ok user
    ∧ get l "AirconSystem" (JDict []) = Ok a
    ∧ get user "FanMode" (JStr "") = Ok fan
    ∧ as_str fan = Ok (fan_mode m)
    ∧ get user "EnabledZones" (JList []) = Ok (EnabledZones m)
    ∧ fan_continuous m = PyStr.endswith (fan_mode m) "+CONT"
    ∧ base_fan_mode_of (fan_mode m) = Ok (base_fan_mode m).
Proof.
  unfold parse_main. intros H. bind_inv H.
  cbv [mret result_ret] in H. simplify_eq. simpl. eauto 10.
Qed.

Lemma parse_main_continuous (d : value) m l a :
  parse_main d = Ok (m, l, a) →
  fan_continuous m = PyStr.endswith (fan_mode m) "+CONT".
Proof.
  intros H. apply parse_main_inv in H.
  by destruct H as (? & ? & ? & ? & ? & ? & ? & ? & ? & ?).
Qed.

(** C9 (amended): the normalizer makes no call to the client and leaves the
    device id, the zone-control flag, the cached state and the host's data
    as they were; its result is a function of the payload alone. It has one
    effect on the coordinator: as soon as the main dictionary is built (line
    143) it sets [_continuous_fan] to whether the payload's fan mode ends
    with ["+CONT"], and that stays so whether the zone loop then succeeds or
    raises; when the main dictionary cannot be built the coordinator is
    untouched. The coordinator after the call is thereby fixed in every
    case. *)
Theorem parse_data_frame (d : value) (w w2 : World) :
  let (r, w') := _parse_data d w in
  remote w' = remote w
  ∧ calls w' = calls w
  ∧ device_id (self w') = device_id (self w)
  ∧ enable_zone_control (self w') = enable_zone_control (self w)
  ∧ last_data (self w') = last_data (self w)
  ∧ data (self w') = data (self w)
  ∧ fst (_parse_data d w2) = r
  ∧ match r with
    | Ok p => raw_data p = d
              ∧ _continuous_fan (self w') = PyStr.endswith (fan_mode (main p)) "+CONT"
    | Raise e => e = UpdateFailed
    end
  ∧ self w'
    = match parse_main d with
      | Ok (m, _, _) =>
          with_continuous_fan (PyStr.endswith (fan_mode m) "+CONT") (self w)
      | Raise _ => self w
      end
  ∧ (∀ m last_known_state aircon_system,
       parse_main d = Ok (m, last_known_state, aircon_system) →
       ∃ user fan,
         get d "lastKnownState" (JDict []) = Ok last_known_state
         ∧ get last_known_state "UserAirconSettings" (JDict []) = Ok user
         ∧ get user "FanMode" (JStr "") = Ok fan
         ∧ fan = JStr (fan_mode m)
         ∧ ((∃ zs, parse_zones m last_known_state aircon_system = Ok zs
                   ∧ r = Ok {| raw_data := d; main := m; zones := zs |})
            ∨ ((∃ e, parse_zones m last_known_state aircon_system = Raise e)
               ∧ r = Raise UpdateFailed))).
Proof.
  rewrite !_parse_data_eq.
  destruct (parse_main d) as [[[m l] a]|e] eqn:E; simpl.
  - repeat split; try done.
    + destruct (parse_zones m l a); simpl; [|done].
      split; [done|]. by eapply parse_main_continuous.
    + by rewrite (parse_main_continuous _ _ _ _ E).
    + intros m' l' a' Heq. simplify_eq.
      apply parse_main_inv in E as (user & fan & Hl & Hu & _ & Hf & Hs & _).
      exists user, fan. repeat (split; [done|]).
      split; [by destruct fan; simplify_eq/=|].
      destruct (parse_zones m' l' a') as [zs|e]; [left|right]; eauto.
  - repeat split; done.
Qed.

(** C9 where the zone loop raises: the main dictionary of
    [Sparse.broken_zone_payload] is built, its first zone entry is not an
    object, the normalizer raises [UpdateFailed], and [_continuous_fan],
    false before, is true after. *)
Lemma parse_data_failure_after_main :
  _continuous_fan (self (Scenario.world true None Scenario.up)) = false
  ∧ _parse_data Sparse.broken_zone_payload (Scenario.world true None Scenario.up)
    = (Raise UpdateFailed,
       {| self := with_continuous_fan true (Scenario.coordinator true None);
          remote := Scenario.up; calls := [] |}).
Proof. split; by vm_compute. Qed.

(** C4 (amended): with its sections under ["lastKnownState"], where the
    normalizer reads them, the scenario payload is normalized to base fan
    mode ["LOW"], continuous fan, and a zone ["zone_1"] that is enabled and
    at 22.5 degrees. *)
Theorem scenario_normalized (w : World) :
  ∃ p zone,
    fst (_parse_data Scenario.payload w) = Ok p
    ∧ base_fan_mode (main p) = "LOW"
    ∧ fan_continuous (main p) = true
    ∧ zones p !! "zone_1" = Some zone
    ∧ is_enabled zone = JBool true
    ∧ temp zone = JFloat 22.5.
Proof.
  exists Scenario.state, Scenario.living.
  rewrite _parse_data_eq.
  replace (parse_main Scenario.payload)
    with (Ok (main Scenario.state, JDict Scenario.sections,
              JDict [("Peripherals", JList [])])) by (by vm_compute).
  replace (parse_zones (main Scenario.state) (JDict Scenario.sections)
             (JDict [("Peripherals", JList [])]))
    with (Ok (zones Scenario.state)) by (by vm_compute).
  repeat split.
Qed.

End Normalizer.

(** C4, as stated, fails: with the sections at the top level of the payload
    the normalizer finds none of them, and returns the defaults with no
    zone. *)
Lemma scenario_bare_payload_defaults :
  ∃ p,
    fst (_parse_data Scenario.bare_payload (Scenario.world true None Scenario.up)) = Ok p
    ∧ base_fan_mode (main p) = ""
    ∧ fan_continuous (main p) = false
    ∧ zones p !! "zone_1" = None.
Proof.
  eexists. split; [by vm_compute|]. repeat split.
Qed.

(** C9, as stated, fails: normalizing the scenario payload on a coordinator
    whose [_continuous_fan] is false leaves it true. *)
Lemma parse_data_sets_continuous_fan :
  _continuous_fan (self (Scenario.world true None Scenario.up)) = false
  ∧ _continuous_fan
      (self (snd (_parse_data Scenario.payload (Scenario.world true None Scenario.up))))
    = true.
Proof. split; by vm_compute. Qed.

(** ** The refresh *)

(** Unfolds the operations of the monad. *)
Ltac unfold_M :=
  unfold try_except, call, lift, raise, get_self, modify_self, cached_or,
    mbind, M_bind, mret, M_ret in *.

Section Refresh.

Context {W command : Type} (api : Api.ActronApi W command).

#[local] Abbreviation World := (World W command).

(** C1: when the client reports itself unhealthy, the refresh returns the
    cached state, or the empty state when there is none, makes no call to
    the client besides reading the health flag (so no status request and no
    network call at all), and leaves the coordinator, hence the cached
    state, as it was. *)
Theorem refresh_unhealthy (w : World) (r : W) :
  Api.is_api_healthy api (remote w) = (Ok false, r) →
  _async_update_data api w =
    (Ok (match last_data (self w) with
         | Some p => State p
         | None => EmptyState
         end),
     {| self := self w; remote := r; calls := calls w ++ [CallIsApiHealthy] |})
  ∧ new_calls w (snd (_async_update_data api w)) = [CallIsApiHealthy]
  ∧ Forall (λ c, is_network_call c = false) (new_calls w (snd (_async_update_data api w)))
  ∧ last_data (self (snd (_async_update_data api w))) = last_data (self w).
Proof.
  intros H.
  assert (_async_update_data api w =
    (Ok (match last_data (self w) with
         | Some p => State p
         | None => EmptyState
         end),
     {| self := self w; remote := r; calls := calls w ++ [CallIsApiHealthy] |})) as ->.
  { unfold _async_update_data. unfold_M. rewrite H. simpl.
    by destruct (last_data (self w)). }
  unfold new_calls. simpl. rewrite drop_app_length.
  repeat split. by repeat constructor.
Qed.

(** C2: when the health check or the status request raises an
    authentication error, the refresh raises [ConfigEntryAuthFailed],
    whatever the cached state is, and leaves the coordinator as it was. *)
Theorem refresh_authentication_error (w : World) :
  (∃ r, Api.is_api_healthy api (remote w) = (Raise AuthenticationError, r))
  ∨ (∃ r1 r2,
       Api.is_api_healthy api (remote w) = (Ok true, r1)
       ∧ Api.get_ac_status api (device_id (self w)) r1 = (Raise AuthenticationError, r2)) →
  fst (_async_update_data api w) = Raise ConfigEntryAuthFailed
  ∧ self (snd (_async_update_data api w)) = self w.
Proof.
  intros [[r H]|(r1 & r2 & H1 & H2)]; unfold _async_update_data; unfold_M.
  - by rewrite H.
  - rewrite H1. simpl. by rewrite H2.
Qed.

(** C3: when the status request raises anything but an authentication
    error, the refresh has made that one request and no other, leaves the
    coordinator as it was, and returns the cached state if there is one,
    and raises [UpdateFailed] if there is none. *)
Theorem refresh_fetch_error (w : World) (e : exn) (r1 r2 : W) :
  Api.is_api_healthy api (remote w) = (Ok true, r1) →
  Api.get_ac_status api (device_id (self w)) r1 = (Raise e, r2) →
  e ≠ AuthenticationError →
  _async_update_data api w =
    (match last_data (self w) with
     | Some p => Ok (State p)
     | None => Raise UpdateFailed
     end,
     {| self := self w; remote := r2;
        calls := calls w ++ [CallIsApiHealthy; CallGetAcStatus (device_id (self w))] |}).
Proof.
  intros H1 H2 He. unfold _async_update_data. unfold_M.
  rewrite H1. simpl. rewrite H2. simpl. rewrite <- app_assoc. simpl.
  destruct e, (last_data (self w)); done.
Qed.

(** The refresh only adds health checks and status requests to the log. *)
Lemma refresh_calls (w : World) :
  ∃ new,
    calls (snd (_async_update_data api w)) = calls w ++ new
    ∧ Forall (λ c, is_refresh_call c = true) new.
Proof.
  unfold _async_update_data. unfold_M.
  destruct (Api.is_api_healthy api (remote w)) as [[[|]|e] r1] eqn:H1; simpl.
  - destruct (Api.get_ac_status api (device_id (self w)) r1) as [[status|e] r2] eqn:H2; simpl.
    + rewrite _parse_data_eq. simpl.
      exists [CallIsApiHealthy; CallGetAcStatus (device_id (self w))].
      rewrite <- app_assoc. split; [|by repeat constructor].
      destruct (parse_main status) as [[[m l] a]|e]; simpl.
      * destruct (parse_zones m l a); simpl; [done|].
        by destruct (last_data (self w)).
      * by destruct (last_data (self w)).
    + exists [CallIsApiHealthy; CallGetAcStatus (device_id (self w))].
      rewrite <- app_assoc. split; [|by repeat constructor].
      destruct e, (last_data (self w)); done.
  - exists [CallIsApiHealthy]. split; [|by repeat constructor].
    by destruct (last_data (self w)).
  - exists [CallIsApiHealthy]. split; [|by repeat constructor].
    destruct e, (last_data (self w)); done.
Qed.

Lemma async_request_refresh_calls (w : World) :
  ∃ new,
    calls (snd (async_request_refresh api w)) = calls w ++ new
    ∧ Forall (λ c, is_refresh_call c = true) new.
Proof.
  destruct (refresh_calls w) as (new & Hnew & Hall). exists new.
  split; [|done]. unfold async_request_refresh. unfold_M.
  by destruct (_async_update_data api w) as [[d|e] w'].
Qed.

End Refresh.

(** ** The zone view *)

Lemma zone_key_inj i j : zone_key i = zone_key j → i = j.
Proof.
  unfold zone_key. intros H%(inj (String.app "zone_"))%(inj pretty). lia.
Qed.

Lemma parse_zone_inv enabled peripherals i zone acc acc' :
  parse_zone enabled peripherals i zone acc = Ok acc' →
  ∀ k zd, acc' !! k = Some zd →
    acc !! k = Some zd ∨ (k = zone_key i ∧ zone_from enabled i zone zd).
Proof.
  unfold parse_zone. intros H k zd Hk.
  destruct (i <? MAX_ZONES) eqn:Hi; [|left; congruence].
  apply Nat.ltb_lt in Hi.
  apply bind_Ok in H as (v & Hv & H).
  destruct (truthy v) eqn:Ht; [|left; congruence].
  bind_inv H. cbv [mret result_ret] in H. simplify_eq.
  destruct (decide (zone_key i = k)) as [<-|Hne].
  - rewrite lookup_insert_eq in Hk. simplify_eq. right.
    split; [done|]. unfold zone_from. simpl. eauto 10.
  - rewrite lookup_insert_ne in Hk by done. by left.
Qed.

Lemma parse_zones_from_inv enabled peripherals zs : ∀ i0 acc m,
  parse_zones_from enabled peripherals i0 zs acc = Ok m →
  ∀ k zd, m !! k = Some zd →
    acc !! k = Some zd
    ∨ ∃ j zone, zs !! j = Some zone ∧ k = zone_key (i0 + j)
                ∧ zone_from enabled (i0 + j) zone zd.
Proof.
  induction zs as [|zone rest IH]; intros i0 acc m H k zd Hk; simpl in H.
  - left. congruence.
  - apply bind_Ok in H as (acc' & Hzone & H).
    destruct (IH _ _ _ H _ _ Hk) as [Hacc|(j & z & Hj & -> & Hfrom)].
    + destruct (parse_zone_inv _ _ _ _ _ _ Hzone _ _ Hacc) as [?|[-> Hfrom]]; [by left|].
      right. exists 0, zone. by rewrite Nat.add_0_r.
    + right. exists (S j), z. by rewrite <- Nat.add_succ_comm.
Qed.

Lemma parse_zone_mono enabled peripherals i zone acc acc' k :
  parse_zone enabled peripherals i zone acc = Ok acc' →
  is_Some (acc !! k) → is_Some (acc' !! k).
Proof.
  unfold parse_zone. intros H Hk.
  destruct (i <? MAX_ZONES); [|congruence].
  apply bind_Ok in H as (v & Hv & H).
  destruct (truthy v); [|congruence].
  bind_inv H. cbv [mret result_ret] in H. simplify_eq.
  rewrite lookup_insert_is_Some. destruct (decide (zone_key i = k)); auto.
Qed.

Lemma parse_zones_from_mono enabled peripherals zs : ∀ i0 acc m k,
  parse_zones_from enabled peripherals i0 zs acc = Ok m →
  is_Some (acc !! k) → is_Some (m !! k).
Proof.
  induction zs as [|zone rest IH]; intros i0 acc m k H Hk; simpl in H.
  - congruence.
  - apply bind_Ok in H as (acc' & Hzone & H).
    eapply IH; [done|]. by eapply parse_zone_mono.
Qed.

(** Every entry the vendor marks as existing at a position below
    [MAX_ZONES] has its zone in the result. *)
Lemma parse_zones_from_complete enabled peripherals zs : ∀ i0 acc m j zone v,
  parse_zones_from enabled peripherals i0 zs acc = Ok m →
  zs !! j = Some zone →
  i0 + j < MAX_ZONES →
  get zone "NV_Exists" (JBool false) = Ok v → truthy v = true →
  is_Some (m !! zone_key (i0 + j)).
Proof.
  induction zs as [|z rest IH]; intros i0 acc m j zone v H Hj Hlt Hv Ht; [done|].
  simpl in H. apply bind_Ok in H as (acc' & Hzone & H).
  destruct j as [|j]; simpl in Hj.
  - simplify_eq. rewrite Nat.add_0_r in *.
    eapply parse_zones_from_mono; [done|].
    unfold parse_zone in Hzone.
    apply Nat.ltb_lt in Hlt. rewrite Hlt, Hv in Hzone. simpl in Hzone.
    rewrite Ht in Hzone. bind_inv Hzone.
    cbv [mret result_ret] in Hzone. simplify_eq.
    rewrite lookup_insert_eq. eauto.
  - rewrite <- Nat.add_succ_comm. eapply IH; eauto. lia.
Qed.

Lemma enabled_at_inv enabled i v :
  enabled_at enabled i = Ok v →
  ∃ n, len enabled = Ok n
       ∧ (i < n → getitem enabled i = Ok v)
       ∧ (n ≤ i → v = JBool false).
Proof.
  unfold enabled_at. intros H. apply bind_Ok in H as (n & Hn & H).
  exists n. split; [done|].
  destruct (Nat.ltb_spec i n); split; intros; try lia; congruence.
Qed.

(** Line 163 on a list of flags: the flag at the position, [False] past the
    end; it raises in neither case. *)
Lemma enabled_at_list (l : list value) (i : nat) :
  enabled_at (JList l) i = Ok (default (JBool false) (l !! i)).
Proof.
  unfold enabled_at. simpl. destruct (Nat.ltb_spec i (length l)) as [Hlt|Hge].
  - destruct (lookup_lt_is_Some_2 l i Hlt) as [x Hx]. by rewrite Hx.
  - by rewrite (lookup_ge_None_2 l i).
Qed.

(** The loop over peripherals that are all objects raises nothing. *)
Lemma find_peripheral_total (ps : list value) (i : nat) :
  Forall (λ q, ∃ o, q = JDict o) ps → ∃ r, find_peripheral ps i = Ok r.
Proof.
  induction 1 as [|q ps [o ->] _ IH]; simpl; [eauto|].
  destruct (eq_singleton _ _); [eauto|done].
Qed.

(** One turn of the zone loop returns when the flags are a list, the
    peripherals are objects and the entry, if its position is below
    [MAX_ZONES], is an object. *)
Lemma parse_zone_total (l : list value) (peripherals : value) (ps : list value)
    (i : nat) (zone : value) (acc : gmap string zone_data) :
  iter peripherals = Ok ps →
  Forall (λ q, ∃ o, q = JDict o) ps →
  (i < MAX_ZONES → ∃ o, zone = JDict o) →
  ∃ acc', parse_zone (JList l) peripherals i zone acc = Ok acc'.
Proof.
  intros Hps Hall Hzone. unfold parse_zone.
  destruct (Nat.ltb_spec i MAX_ZONES) as [Hlt|Hge]; [|eauto].
  destruct (Hzone Hlt) as [o ->]. simpl.
  destruct (truthy _); [|eauto].
  rewrite enabled_at_list, Hps. simpl.
  destruct (find_peripheral_total ps i Hall) as [r ->]. simpl. eauto.
Qed.

Lemma parse_zones_from_total (l : list value) (peripherals : value)
    (ps : list value) (zs : list value) : ∀ i0 acc,
  iter peripherals = Ok ps →
  Forall (λ q, ∃ o, q = JDict o) ps →
  (∀ j z, zs !! j = Some z → i0 + j < MAX_ZONES → ∃ o, z = JDict o) →
  ∃ m, parse_zones_from (JList l) peripherals i0 zs acc = Ok m.
Proof.
  induction zs as [|zone rest IH]; intros i0 acc Hps Hall Hzs; simpl; [eauto|].
  destruct (parse_zone_total l peripherals ps i0 zone acc Hps Hall) as [acc' ->].
  { intros Hlt. apply (Hzs 0 zone); [done|lia]. }
  simpl. apply IH; [done..|].
  intros j z Hj Hlt. apply (Hzs (S j) z); [done|lia].
Qed.

Section Zones.

Context {W command : Type}.

#[local] Abbreviation World := (World W command).

Lemma _parse_data_Ok (d : value) (w : World) (p : parsed_data) :
  fst (_parse_data d w) = Ok p →
  ∃ last_known_state aircon_system,
    parse_main d = Ok (main p, last_known_state, aircon_system)
    ∧ parse_zones (main p) last_known_state aircon_system = Ok (zones p)
    ∧ raw_data p = d.
Proof.
  rewrite _parse_data_eq.
  destruct (parse_main d) as [[[m l] a]|e]; simpl; [|done].
  destruct (parse_zones m l a) eqn:E; simpl; [|done].
  intros. simplify_eq. eauto.
Qed.

(** A zone of a normalized state, traced back to the payload. *)
Lemma zone_entry_inv (d : value) (w : World) (p : parsed_data)
    (i : nat) (zd : zone_data) :
  fst (_parse_data d w) = Ok p →
  zones p !! zone_key i = Some zd →
  i < 8
  ∧ (∃ last_known_state info entries zone v,
       get d "lastKnownState" (JDict []) = Ok last_known_state
       ∧ get last_known_state "RemoteZoneInfo" (JList []) = Ok info
       ∧ iter info = Ok entries
       ∧ entries !! i = Some zone
       ∧ get zone "NV_Exists" (JBool false) = Ok v
       ∧ truthy v = true)
  ∧ (∃ n, len (EnabledZones (main p)) = Ok n
          ∧ (i < n → getitem (EnabledZones (main p)) i = Ok (is_enabled zd))
          ∧ (n ≤ i → is_enabled zd = JBool false))
  ∧ (∀ l, EnabledZones (main p) = JList l →
          is_enabled zd = default (JBool false) (l !! i)).
Proof.
  intros H Hk. apply _parse_data_Ok in H as (l & a & Hmain & Hzones & _).
  apply parse_main_inv in Hmain as (user & fan & Hl & _).
  unfold parse_zones in Hzones. bind_inv Hzones.
  rename v into info, v0 into peripherals, v1 into entries.
  destruct (parse_zones_from_inv _ _ _ _ _ _ Hzones _ _ Hk)
    as [Hempty|(j & zone & Hj & Hkey & Hlt & (v & Hv & Ht) & Hen & _)]; [done|].
  simpl in *. apply zone_key_inj in Hkey. subst j.
  destruct (enabled_at_inv _ _ _ Hen) as (n & Hn & Hin & Hout).
  split; [done|]. split; [eauto 12|]. split; [eauto|].
  intros zs Hzs. rewrite Hzs in *. simpl in *. simplify_eq.
  destruct (Nat.ltb_spec i (length zs)) as [Hlt'|Hge].
  - specialize (Hin Hlt'). destruct (zs !! i); by simplify_eq/=.
  - rewrite (lookup_ge_None_2 zs i) by done. by apply Hout.
Qed.

(** The converse: an entry marked as existing at a position below 8 has its
    zone in the normalized state. *)
Lemma zones_existing_included (d : value) (w : World) (p : parsed_data)
    (i : nat) last_known_state info entries zone v :
  fst (_parse_data d w) = Ok p →
  get d "lastKnownState" (JDict []) = Ok last_known_state →
  get last_known_state "RemoteZoneInfo" (JList []) = Ok info →
  iter info = Ok entries →
  entries !! i = Some zone →
  i < 8 →
  get zone "NV_Exists" (JBool false) = Ok v → truthy v = true →
  is_Some (zones p !! zone_key i).
Proof.
  intros H Hl Hinfo Hentries Hi Hlt Hv Ht.
  apply _parse_data_Ok in H as (l & a & Hmain & Hzones & _).
  apply parse_main_inv in Hmain as (user & fan & Hl' & _).
  unfold parse_zones in Hzones. bind_inv Hzones. simplify_eq.
  rewrite Hl in Hl'. simplify_eq.
  rewrite Hinfo in E. simplify_eq. rewrite Hentries in E1. simplify_eq.
  eapply (parse_zones_from_complete _ _ _ 0 _ _ i); eauto.
Qed.

(** C6: the zones of the normalized state are the existing entries of the
    vendor's zone list below position 8, and [is_enabled] is the flag at the
    zone's position, [False] where the flags are shorter.

    - Whenever the normalizer returns, a zone keyed ["zone_<i+1>"] stands
      for the entry at position [i] of the zone list, [i] is below 8 and the
      entry is marked as existing ([NV_Exists] is true as a condition); its
      [is_enabled] is the item at [i] of the enabled zones when [i] is
      within their length, and [False] when it is not.
    - The read of line 163 on a list of flags never raises: past the end of
      the flags it yields [False] without an access to the list.
    - The normalizer does return, and with every existing entry below
      position 8 as a zone, when the main dictionary is built, the flags are
      a list of any length, the zone entries below position 8 and the
      peripherals are objects: a zone past the end of the flags is then in
      the state with [is_enabled] [False]. *)
Theorem zones_only_existing (d : value) (w : World) :
  (∀ (p : parsed_data) (i : nat) (zd : zone_data),
     fst (_parse_data d w) = Ok p →
     zones p !! zone_key i = Some zd →
     i < 8
     ∧ (∃ last_known_state info entries zone v,
          get d "lastKnownState" (JDict []) = Ok last_known_state
          ∧ get last_known_state "RemoteZoneInfo" (JList []) = Ok info
          ∧ iter info = Ok entries
          ∧ entries !! i = Some zone
          ∧ get zone "NV_Exists" (JBool false) = Ok v
          ∧ truthy v = true)
     ∧ (∃ n, len (EnabledZones (main p)) = Ok n
             ∧ (i < n → getitem (EnabledZones (main p)) i = Ok (is_enabled zd))
             ∧ (n ≤ i → is_enabled zd = JBool false))
     ∧ (∀ l, EnabledZones (main p) = JList l →
             is_enabled zd = default (JBool false) (l !! i)))
  ∧ (∀ (l : list value) (i : nat),
       enabled_at (JList l) i = Ok (default (JBool false) (l !! i))
       ∧ (length l ≤ i → enabled_at (JList l) i = Ok (JBool false)))
  ∧ (∀ m last_known_state aircon_system l info entries peripherals ps,
       parse_main d = Ok (m, last_known_state, aircon_system) →
       EnabledZones m = JList l →
       get last_known_state "RemoteZoneInfo" (JList []) = Ok info →
       iter info = Ok entries →
       (∀ j z, entries !! j = Some z → j < 8 → ∃ o, z = JDict o) →
       get aircon_system "Peripherals" (JList []) = Ok peripherals →
       iter peripherals = Ok ps →
       Forall (λ q, ∃ o, q = JDict o) ps →
       ∃ p, fst (_parse_data d w) = Ok p
            ∧ main p = m
            ∧ raw_data p = d
            ∧ ∀ i zone v,
                entries !! i = Some zone →
                i < 8 →
                get zone "NV_Exists" (JBool false) = Ok v →
                truthy v = true →
                ∃ zd, zones p !! zone_key i = Some zd
                      ∧ is_enabled zd = default (JBool false) (l !! i)).
Proof.
  split; [intros p i zd; apply zone_entry_inv|].
  split.
  { intros l i. split; [apply enabled_at_list|].
    intros Hge. by rewrite enabled_at_list, (lookup_ge_None_2 l i). }
  intros m lks a l info entries peripherals ps Hmain Hl Hinfo Hentries Hdicts
    Hper Hps Hall.
  destruct (parse_zones_from_total l peripherals ps entries 0 ∅ Hps Hall)
    as [zs Hzs]; [done|].
  assert (parse_zones m lks a = Ok zs) as Hzones.
  { unfold parse_zones. rewrite Hinfo, Hper. simpl. rewrite Hentries. simpl.
    by rewrite Hl. }
  assert (fst (_parse_data d w) = Ok {| raw_data := d; main := m; zones := zs |})
    as Hp by (by rewrite _parse_data_eq, Hmain; simpl; rewrite Hzones).
  eexists. split; [exact Hp|]. split; [done|]. split; [done|].
  intros i zone v Hi Hlt Hv Ht. simpl.
  destruct (parse_zones_from_complete _ _ _ 0 _ _ i _ _ Hzs Hi Hlt Hv Ht)
    as [zd Hzd].
  exists zd. split; [done|].
  destruct (zone_entry_inv d w _ i zd Hp Hzd) as (_ & _ & _ & Hflag).
  by apply Hflag.
Qed.

End Zones.

(** ** The store of list objects *)

(** Lines 354-358 never write to the cached list: the copy is a new object,
    the assignment goes to it, and every object the store held before is
    what it was. *)
Lemma modify_statuses_copy (h : heap) (current : loc) (zs : list value)
    (k : Z) (enable : bool) :
  h !! current = Some zs →
  (0 ≤ k < Z.of_nat (length zs))%Z →
  modify_statuses current k enable h
  = Ok (length h, h ++ [<[Z.to_nat k := JBool enable]> zs]).
Proof.
  intros Hcur Hk. unfold modify_statuses, list_copy, list_len, alloc.
  rewrite Hcur. simpl.
  rewrite lookup_app_r, Nat.sub_diag by done. simpl.
  destruct (Z.leb_spec 0 k); [|lia].
  destruct (Z.ltb_spec k (Z.of_nat (length zs))); [|lia]. simpl.
  cbv [mret result_ret]. do 2 f_equal.
  unfold list_setitem.
  rewrite alter_app_r_alt by done. by rewrite Nat.sub_diag.
Qed.

Lemma modify_statuses_frame (h h' : heap) (current modified : loc) (k : Z)
    (enable : bool) :
  modify_statuses current k enable h = Ok (modified, h') →
  modified ≠ current ∧ ∀ l, l < length h → h' !! l = h !! l.
Proof.
  unfold modify_statuses, list_copy, list_len, alloc. intros H.
  destruct (h !! current) as [zs|] eqn:Hcur; [|done]. simpl in H.
  rewrite lookup_app_r, Nat.sub_diag in H by done. simpl in H.
  destruct (_ && _); [|done]. cbv [mret result_ret] in H. simplify_eq.
  apply lookup_lt_Some in Hcur. split; [lia|].
  intros l Hl. unfold list_setitem.
  rewrite list_lookup_alter_ne by lia. by rewrite lookup_app_l.
Qed.

Lemma modify_statuses_out_of_range (h : heap) (current : loc) (zs : list value)
    (k : Z) (enable : bool) :
  h !! current = Some zs →
  ¬ (0 ≤ k < Z.of_nat (length zs))%Z →
  modify_statuses current k enable h = Raise ValueError.
Proof.
  intros Hcur Hk. unfold modify_statuses, list_copy, list_len, alloc.
  rewrite Hcur. simpl.
  rewrite lookup_app_r, Nat.sub_diag by done. simpl.
  destruct (Z.leb_spec 0 k); [|done].
  destruct (Z.ltb_spec k (Z.of_nat (length zs))); [lia|done].
Qed.

(** ** The commands *)

Lemma with_enabled_zones_same (p : parsed_data) (zs : list value) :
  EnabledZones (main p) = JList zs →
  with_main (with_enabled_zones (JList zs) (main p)) p = p.
Proof. destruct p as [raw [] zn]. simpl. by intros ->. Qed.

Lemma with_last_data_same (c : Coordinator) (p : parsed_data) :
  last_data c = Some p → with_last_data (Some p) c = c.
Proof. destruct c. simpl. by intros ->. Qed.

Section Commands.

Context {W command : Type} (api : Api.ActronApi W command).

#[local] Abbreviation World := (World W command).

Lemma world_eta (w : World) :
  {| self := self w; remote := remote w; calls := calls w |} = w.
Proof. by destruct w. Qed.

(** What [send] adds to the log: the command being built, then, when the
    client has built it, the command being sent. *)
Lemma send_calls (kind : string) (args : kwargs) (w : World) :
  self (snd (send api kind args w)) = self w
  ∧ ∃ rest,
      calls (snd (send api kind args w)) = calls w ++ CallCreateCommand kind args :: rest
      ∧ Forall (λ c, ∃ cmd, c = CallSendCommand (device_id (self w)) cmd) rest.
Proof.
  unfold send. unfold_M.
  destruct (Api.create_command api kind args (remote w)) as [[cmd|e] r1]; simpl.
  - destruct (Api.send_command api (device_id (self w)) cmd r1) as [r r2]; simpl.
    split; [done|]. exists [CallSendCommand (device_id (self w)) cmd].
    rewrite <- app_assoc. split; [done|]. repeat constructor. by exists cmd.
  - split; [done|]. by exists [].
Qed.

(** C10: when the index resolves within the cached list of enabled zones,
    [set_zone_state] builds its [SET_ZONE_STATE] command from a list of the
    same length that holds [enable] at the index and the cached items
    everywhere else; once the command is sent the coordinator, and so the
    cached list, is what it was. *)
Theorem set_zone_state_zones (w : World) (zone_id : zone_ref) (enable : bool)
    (k : Z) (p : parsed_data) (zs : list value) :
  resolve_zone_index zone_id = Ok k →
  last_data (self w) = Some p →
  EnabledZones (main p) = JList zs →
  (0 ≤ k < Z.of_nat (length zs))%Z →
  ∃ sent rest,
    new_calls w (snd (set_zone_state api zone_id enable w))
    = CallCreateCommand "SET_ZONE_STATE" (KwZones sent) :: rest
    ∧ length sent = length zs
    ∧ sent !! Z.to_nat k = Some (JBool enable)
    ∧ (∀ j, j ≠ Z.to_nat k → sent !! j = zs !! j)
    ∧ self (snd (set_zone_state_send api zone_id enable w)) = self w
    ∧ last_data (self (snd (set_zone_state_send api zone_id enable w))) = Some p.
Proof.
  intros Hk Hp Hzs Hrange.
  exists (<[Z.to_nat k := JBool enable]> zs).
  assert (∃ rest,
    self (snd (set_zone_state_send api zone_id enable w)) = self w
    ∧ calls (snd (set_zone_state_send api zone_id enable w))
      = calls w ++ CallCreateCommand "SET_ZONE_STATE"
                     (KwZones (<[Z.to_nat k := JBool enable]> zs)) :: rest)
    as (rest1 & Hself & Hcalls).
  { unfold set_zone_state_send. unfold_M. rewrite Hk, Hp. simpl. rewrite Hzs.
    unfold alloc. simpl.
    rewrite (modify_statuses_copy [zs] 0 zs k enable) by done. simpl.
    rewrite with_enabled_zones_same, with_last_data_same, world_eta by done.
    destruct (send_calls "SET_ZONE_STATE"
                (KwZones (<[Z.to_nat k := JBool enable]> zs)) w)
      as (Hs & rest & Hc & _).
    by exists rest. }
  assert (∃ rest, calls (snd (set_zone_state api zone_id enable w))
                  = calls (snd (set_zone_state_send api zone_id enable w)) ++ rest)
    as (rest2 & Hall).
  { unfold set_zone_state. unfold_M.
    destruct (set_zone_state_send api zone_id enable w) as [[[]|e] w1]; simpl.
    - destruct (async_request_refresh_calls api w1) as (new & Hnew & _).
      exists new. by destruct (async_request_refresh api w1) as [[[]|e] w2].
    - exists []. by rewrite app_nil_r. }
  exists (rest1 ++ rest2). split.
  { unfold new_calls. rewrite Hall, Hcalls, <- app_assoc.
    by rewrite drop_app_length. }
  split; [by rewrite length_insert|].
  split; [apply list_lookup_insert_eq; lia|].
  split; [intros j Hj; by apply list_lookup_insert_ne|].
  split; [done|]. by rewrite Hself.
Qed.

(** C7 (amended): [set_zone_temperature] raises [ValueError] at once, with
    no call to the client and nothing changed, when zone control is off,
    when there is no cached state, when the zone is not in the cached state,
    or when the zone is not enabled. [set_zone_state] raises [ValueError],
    with no call to the client and nothing changed, when the index it
    resolves is outside the cached list of enabled zones. *)
Theorem zone_commands_validation (w : World) :
  (∀ zone_id temperature temp_key,
     enable_zone_control (self w) = false
     ∨ last_data (self w) = None
     ∨ (∃ p, last_data (self w) = Some p ∧ zones p !! zone_id = None)
     ∨ (∃ p zone, last_data (self w) = Some p ∧ zones p !! zone_id = Some zone
                  ∧ truthy (is_enabled zone) = false) →
     set_zone_temperature api zone_id temperature temp_key w = (Raise ValueError, w))
  ∧ (∀ zone_id enable k p zs,
       resolve_zone_index zone_id = Ok k →
       last_data (self w) = Some p →
       EnabledZones (main p) = JList zs →
       ¬ (0 ≤ k < Z.of_nat (length zs))%Z →
       set_zone_state api zone_id enable w = (Raise ValueError, w)).
Proof.
  split.
  - intros zone_id temperature temp_key H.
    unfold set_zone_temperature. unfold_M.
    destruct (enable_zone_control (self w)); simpl; [|done].
    destruct H as [H|[H|[(p & Hp & Hz)|(p & zone & Hp & Hz & Hen)]]].
    + done.
    + by rewrite H.
    + by rewrite Hp, Hz.
    + by rewrite Hp, Hz, Hen.
  - intros zone_id enable k p zs Hk Hp Hzs Hrange.
    unfold set_zone_state, set_zone_state_send. unfold_M.
    rewrite Hk, Hp. simpl. rewrite Hzs. unfold alloc. simpl.
    by rewrite (modify_statuses_out_of_range [zs] 0 zs k enable).
Qed.

(** C8: with the continuous flag left unspecified and a normalized state in
    [data], the first call [set_fan_mode] makes is the client's
    [set_fan_mode] with the validated base mode and, as continuity, whether
    the fan mode of that state ends with ["+CONT"]; the calls that follow
    are those of the refresh. With ["high"] and a current fan mode
    ["LOW+CONT"] the call is [("HIGH", true)]. *)
Theorem set_fan_mode_keeps_continuity (w : World) (mode_ : string) (p : parsed_data) :
  data (self w) = Some (State p) →
  (∃ rest,
     new_calls w (snd (set_fan_mode api mode_ None w))
     = CallSetFanMode (fan_base_mode mode_)
         (PyStr.endswith (fan_mode (main p)) "+CONT") :: rest
     ∧ Forall (λ c, is_refresh_call c = true) rest)
  ∧ (mode_ = "high" → fan_mode (main p) = "LOW+CONT" →
     ∃ rest, new_calls w (snd (set_fan_mode api mode_ None w))
             = CallSetFanMode "HIGH" true :: rest).
Proof.
  intros Hdata.
  assert (∃ rest,
     new_calls w (snd (set_fan_mode api mode_ None w))
     = CallSetFanMode (fan_base_mode mode_)
         (PyStr.endswith (fan_mode (main p)) "+CONT") :: rest
     ∧ Forall (λ c, is_refresh_call c = true) rest) as Hfirst.
  { unfold set_fan_mode, data_main, new_calls. unfold_M.
    rewrite Hdata. simpl. rewrite Hdata. simpl.
    destruct (Api.set_fan_mode api (fan_base_mode mode_)
                (PyStr.endswith (fan_mode (main p)) "+CONT") (remote w))
      as [[[]|e] r1]; simpl.
    - match goal with
      | |- context [async_request_refresh api ?w1] =>
          destruct (async_request_refresh_calls api w1) as (new & Hnew & Hall);
          destruct (async_request_refresh api w1) as [[[]|e] w2]
      end; simpl in *.
      + exists new. split; [|done].
        destruct (data (self w2)) as [[|p']|]; simpl;
          by rewrite Hnew, <- app_assoc, drop_app_length.
      + exists new. split; [|done].
        by rewrite Hnew, <- app_assoc, drop_app_length.
    - exists []. split; [|done]. by rewrite drop_app_length. }
  split; [done|].
  intros -> Hmode. destruct Hfirst as (rest & Hrest & _).
  exists rest. by rewrite Hrest, Hmode.
Qed.

(** The other case of C8: without a normalized state in [data] the command
    raises and no call reaches the client. *)
Lemma set_fan_mode_without_data (w : World) (mode_ : string) (continuous : option bool) :
  (data (self w) = None ∨ data (self w) = Some EmptyState) →
  snd (set_fan_mode api mode_ continuous w) = w
  ∧ ∃ e, fst (set_fan_mode api mode_ continuous w) = Raise e.
Proof.
  intros [H|H]; destruct continuous; unfold set_fan_mode, data_main; unfold_M;
    simpl; rewrite H; simpl; eauto.
Qed.

End Commands.

(** ** The properties on the scenario *)

(** C1 on a coordinator that holds the scenario state, the client being
    unhealthy. *)
Lemma refresh_unhealthy_scenario :
  _async_update_data Scenario.api
    (Scenario.world true (Some Scenario.state) Scenario.unhealthy)
  = (Ok (State Scenario.state),
     {| self := Scenario.coordinator true (Some Scenario.state);
        remote := Scenario.unhealthy;
        calls := [CallIsApiHealthy] |}).
Proof.
  exact (proj1 (refresh_unhealthy Scenario.api
                  (Scenario.world true (Some Scenario.state) Scenario.unhealthy)
                  Scenario.unhealthy eq_refl)).
Defined.

(** C2 on a coordinator that holds the scenario state, the status request
    being rejected. *)
Lemma refresh_authentication_error_scenario :
  last_data (Scenario.coordinator true (Some Scenario.state)) = Some Scenario.state
  ∧ fst (_async_update_data Scenario.api
           (Scenario.world true (Some Scenario.state) Scenario.rejecting))
    = Raise ConfigEntryAuthFailed
  ∧ self (snd (_async_update_data Scenario.api
                 (Scenario.world true (Some Scenario.state) Scenario.rejecting)))
    = Scenario.coordinator true (Some Scenario.state).
Proof.
  split; [reflexivity|].
  apply (refresh_authentication_error Scenario.api
           (Scenario.world true (Some Scenario.state) Scenario.rejecting)).
  right. exists Scenario.rejecting, Scenario.rejecting. split; reflexivity.
Defined.

(** C3 with and without a cached state, the status request failing. *)
Lemma refresh_fetch_error_scenario :
  _async_update_data Scenario.api
    (Scenario.world true (Some Scenario.state) Scenario.failing)
  = (Ok (State Scenario.state),
     {| self := Scenario.coordinator true (Some Scenario.state);
        remote := Scenario.failing;
        calls := [CallIsApiHealthy; CallGetAcStatus "neo-1"] |})
  ∧ _async_update_data Scenario.api (Scenario.world true None Scenario.failing)
    = (Raise UpdateFailed,
       {| self := Scenario.coordinator true None;
          remote := Scenario.failing;
          calls := [CallIsApiHealthy; CallGetAcStatus "neo-1"] |}).
Proof.
  split.
  - apply (refresh_fetch_error Scenario.api
             (Scenario.world true (Some Scenario.state) Scenario.failing)
             ApiError Scenario.failing Scenario.failing);
      [reflexivity|reflexivity|discriminate].
  - apply (refresh_fetch_error Scenario.api
             (Scenario.world true None Scenario.failing)
             ApiError Scenario.failing Scenario.failing);
      [reflexivity|reflexivity|discriminate].
Defined.

(** C6 on [Sparse.payload], two existing zones and one flag: the normalizer
    returns, and the zone at position 1, past the end of the flags, is in
    the state with [is_enabled] [False]. *)
Lemma zones_only_existing_sparse :
  ∃ p zd,
    fst (_parse_data Sparse.payload (Scenario.world true None Scenario.up)) = Ok p
    ∧ EnabledZones (main p) = JList [JBool true]
    ∧ zones p !! zone_key 1 = Some zd
    ∧ is_enabled zd = JBool false
    ∧ enabled_at (EnabledZones (main p)) 1 = Ok (JBool false)
    ∧ 1 < 8
    ∧ (∃ last_known_state info entries zone v,
         get Sparse.payload "lastKnownState" (JDict []) = Ok last_known_state
         ∧ get last_known_state "RemoteZoneInfo" (JList []) = Ok info
         ∧ iter info = Ok entries
         ∧ entries !! 1 = Some zone
         ∧ get zone "NV_Exists" (JBool false) = Ok v
         ∧ truthy v = true)
    ∧ (∃ n, len (EnabledZones (main p)) = Ok n ∧ n ≤ 1).
Proof.
  destruct (zones_only_existing Sparse.payload
              (Scenario.world true None Scenario.up)) as (Hinv & Hat & Hfwd).
  edestruct Hfwd as (p & Hp & Hm & _ & Hz).
  - vm_compute. reflexivity.
  - reflexivity.
  - reflexivity.
  - reflexivity.
  - intros [|[|j]] z Hj _; simpl in Hj; [| |done]; injection Hj as <-; eauto.
  - reflexivity.
  - reflexivity.
  - constructor.
  - edestruct (Hz 1) as (zd & Hzd & Hen);
      [reflexivity | lia | reflexivity | reflexivity |].
    destruct (Hinv p 1 zd Hp Hzd) as (Hlt & Hentry & _ & _).
    exists p, zd. rewrite Hm. simpl.
    split; [done|]. split; [done|]. split; [done|]. split; [exact Hen|].
    split; [by destruct (Hat [JBool true] 1) as [_ ->]; [|simpl; lia]|].
    split; [done|]. split; [exact Hentry|].
    exists 1. by split.
Defined.

(** C7 (amended) on a coordinator with zone control off, and on an index
    beyond the two enabled-zone flags of the scenario. *)
Lemma zone_commands_validation_scenario :
  set_zone_temperature Scenario.api "zone_1" 21 "TemperatureSetpoint_Cool_oC"
    (Scenario.world false (Some Scenario.state) Scenario.up)
  = (Raise ValueError, Scenario.world false (Some Scenario.state) Scenario.up)
  ∧ set_zone_state Scenario.api (ZoneId "zone_3") true
      (Scenario.world true (Some Scenario.state) Scenario.up)
    = (Raise ValueError, Scenario.world true (Some Scenario.state) Scenario.up).
Proof.
  split.
  - apply (proj1 (zone_commands_validation Scenario.api
                    (Scenario.world false (Some Scenario.state) Scenario.up))).
    left. reflexivity.
  - apply (proj2 (zone_commands_validation Scenario.api
                    (Scenario.world true (Some Scenario.state) Scenario.up))
             (ZoneId "zone_3") true 2%Z Scenario.state [JBool true; JBool false]).
    + reflexivity.
    + reflexivity.
    + reflexivity.
    + simpl. lia.
Defined.

(** C7, as stated, fails for [set_zone_state]: with zone control off, and
    for a zone that is neither in the cached state nor enabled, it builds
    and sends the command. *)
Lemma set_zone_state_without_zone_checks :
  enable_zone_control (Scenario.coordinator false (Some Scenario.state)) = false
  ∧ zones Scenario.state !! "zone_2" = None
  ∧ getitem (EnabledZones (main Scenario.state)) 1 = Ok (JBool false)
  ∧ fst (set_zone_state Scenario.api (ZoneId "zone_2") true
           (Scenario.world false (Some Scenario.state) Scenario.up))
    = Ok tt
  ∧ calls (snd (set_zone_state Scenario.api (ZoneId "zone_2") true
                  (Scenario.world false (Some Scenario.state) Scenario.up)))
    = [CallCreateCommand "SET_ZONE_STATE" (KwZones [JBool true; JBool true]);
       CallSendCommand "neo-1" ("SET_ZONE_STATE", KwZones [JBool true; JBool true]);
       CallIsApiHealthy;
       CallGetAcStatus "neo-1"].
Proof. repeat split; by vm_compute. Qed.

(** C8 on the scenario: ["high"] while the current fan mode is
    ["LOW+CONT"]. *)
Lemma set_fan_mode_keeps_continuity_scenario :
  fan_mode (main Scenario.state) = "LOW+CONT"
  ∧ ∃ rest,
      new_calls (Scenario.world true (Some Scenario.state) Scenario.up)
        (snd (set_fan_mode Scenario.api "high" None
                (Scenario.world true (Some Scenario.state) Scenario.up)))
      = CallSetFanMode "HIGH" true :: rest.
Proof.
  split; [reflexivity|].
  apply (proj2 (set_fan_mode_keeps_continuity Scenario.api
                  (Scenario.world true (Some Scenario.state) Scenario.up)
                  "high" Scenario.state eq_refl)); reflexivity.
Defined.

(** C10 on the scenario: enabling ["zone_2"] sends [[True, True]] and
    leaves the cached [[True, False]] in place. *)
Lemma set_zone_state_zones_scenario :
  ∃ sent rest,
    new_calls (Scenario.world true (Some Scenario.state) Scenario.up)
      (snd (set_zone_state Scenario.api (ZoneId "zone_2") true
              (Scenario.world true (Some Scenario.state) Scenario.up)))
    = CallCreateCommand "SET_ZONE_STATE" (KwZones sent) :: rest
    ∧ length sent = 2
    ∧ sent !! 1 = Some (JBool true)
    ∧ (∀ j, j ≠ 1 → sent !! j = [JBool true; JBool false] !! j)
    ∧ self (snd (set_zone_state_send Scenario.api (ZoneId "zone_2") true
                   (Scenario.world true (Some Scenario.state) Scenario.up)))
      = Scenario.coordinator true (Some Scenario.state)
    ∧ last_data
        (self (snd (set_zone_state_send Scenario.api (ZoneId "zone_2") true
                      (Scenario.world true (Some Scenario.state) Scenario.up))))
      = Some Scenario.state.
Proof.
  apply (set_zone_state_zones Scenario.api
           (Scenario.world true (Some Scenario.state) Scenario.up)
           (ZoneId "zone_2") true 1%Z Scenario.state [JBool true; JBool false]).
  - reflexivity.
  - reflexivity.
  - reflexivity.
  - simpl. lia.
Defined.

(** * Further properties *)

(** ** Zone keys and zone indices *)

Lemma digit_of_pretty_N_char (x : N) :
  (x < 10)%N → PyStr.digit_of (pretty_N_char x) = Some (Z.of_N x).
Proof.
  intros Hx. destruct x as [|p]; [done|].
  do 4 (try destruct p as [p|p|]); try done; lia.
Qed.

(** Reading back the digits [pretty_N_go] puts in front of [s]. *)
Lemma digits_value_pretty_N_go (x : N) : ∀ s,
  digits_value 0 (pretty_N_go x s) = digits_value (Z.of_N x) s.
Proof.
  induction (N.lt_wf_0 x) as [x _ IH]. intros s.
  assert (x = 0 ∨ 0 < x)%N as [->|Hx] by lia; [done|].
  rewrite pretty_N_go_step by done.
  rewrite IH by (by apply N.div_lt). simpl.
  rewrite digit_of_pretty_N_char by (by apply N.mod_lt).
  f_equal. rewrite (N.div_mod x 10) at 3 by done. lia.
Qed.

Lemma digits_only_pretty_N_go (x : N) : ∀ s,
  digits_only s = true → digits_only (pretty_N_go x s) = true.
Proof.
  induction (N.lt_wf_0 x) as [x _ IH]. intros s Hs.
  assert (x = 0 ∨ 0 < x)%N as [->|Hx] by lia; [done|].
  rewrite pretty_N_go_step by done. apply IH; [by apply N.div_lt|].
  simpl. by rewrite digit_of_pretty_N_char by (by apply N.mod_lt).
Qed.

Lemma pretty_N_go_nonempty (x : N) : ∀ s, s ≠ "" → pretty_N_go x s ≠ "".
Proof.
  induction (N.lt_wf_0 x) as [x _ IH]. intros s Hs.
  assert (x = 0 ∨ 0 < x)%N as [->|Hx] by lia; [done|].
  rewrite pretty_N_go_step by done. apply IH; [by apply N.div_lt|done].
Qed.

Lemma pretty_nat_digits (n : nat) :
  digits_only (pretty n) = true
  ∧ pretty n ≠ ""
  ∧ digits_value 0 (pretty n) = Z.of_nat n.
Proof.
  unfold pretty, pretty_nat, pretty, pretty_N.
  destruct (decide (N.of_nat n = 0%N)) as [H0|Hn].
  - repeat split; [done|]. simpl. lia.
  - split; [by apply digits_only_pretty_N_go|]. split.
    + rewrite pretty_N_go_step by lia. by apply pretty_N_go_nonempty.
    + rewrite digits_value_pretty_N_go. simpl. lia.
Qed.

Lemma digit_of_Some_range (x : ascii) (d : Z) :
  PyStr.digit_of x = Some d → 48 ≤ nat_of_ascii x ≤ 57.
Proof.
  unfold PyStr.digit_of.
  destruct (Nat.leb_spec 48 (nat_of_ascii x)), (Nat.leb_spec (nat_of_ascii x) 57);
    simpl; intros; simplify_eq; lia.
Qed.

Lemma digit_not_special (x : ascii) (d : Z) :
  PyStr.digit_of x = Some d →
  PyStr.is_space x = false
  ∧ Ascii.eqb x "+" = false ∧ Ascii.eqb x "-" = false ∧ Ascii.eqb x "_" = false.
Proof.
  intros H%digit_of_Some_range. unfold PyStr.is_space.
  repeat split.
  - destruct (Nat.leb_spec 9 (nat_of_ascii x)), (Nat.leb_spec (nat_of_ascii x) 13),
      (Nat.eqb_spec (nat_of_ascii x) 32), (Nat.eqb_spec (nat_of_ascii x) 133),
      (Nat.eqb_spec (nat_of_ascii x) 160); simpl; try done; lia.
  - destruct (Ascii.eqb_spec x "+") as [->|]; [compute in H; lia|done].
  - destruct (Ascii.eqb_spec x "-") as [->|]; [compute in H; lia|done].
  - destruct (Ascii.eqb_spec x "_") as [->|]; [compute in H; lia|done].
Qed.

Lemma int_digits_digits_only (s : string) : ∀ acc,
  digits_only s = true → PyStr.int_digits acc s = Some (digits_value acc s).
Proof.
  induction s as [|x r IH]; intros acc Hs; simpl in *; [done|].
  destruct (PyStr.digit_of x); [by apply IH|done].
Qed.

(** [int] reads a non-empty string of digits as the number it denotes. *)
Lemma int_digits_only (s : string) :
  digits_only s = true → s ≠ "" → PyStr.int s = Some (digits_value 0 s).
Proof.
  destruct s as [|x r]; [done|]. intros Hs _. simpl in Hs.
  destruct (PyStr.digit_of x) as [d|] eqn:Hd; [|done].
  destruct (digit_not_special _ _ Hd) as (Hsp & Hplus & Hminus & _).
  unfold PyStr.int. simpl. rewrite Hsp, Hplus, Hminus. simpl. rewrite Hd.
  by apply int_digits_digits_only.
Qed.

Lemma contains_underscore_digits (s : string) :
  digits_only s = true → PyStr.contains "_" s = false.
Proof.
  induction s as [|x r IH]; simpl; [done|].
  destruct (PyStr.digit_of x) as [d|] eqn:Hd; [|done].
  destruct (digit_not_special _ _ Hd) as (_ & _ & _ & ->). apply IH.
Qed.

Lemma split_absent (sep : ascii) (s : string) :
  PyStr.contains sep s = false → PyStr.split sep s = [s].
Proof.
  induction s as [|x r IH]; simpl; [done|].
  destruct (Ascii.eqb x sep); [done|]. intros H. by rewrite IH.
Qed.

Lemma zone_index_of_zone_key (i : nat) :
  zone_index_of (zone_key i) = Ok (Z.of_nat i).
Proof.
  destruct (pretty_nat_digits (i + 1)) as (Hd & Hne & Hv).
  unfold zone_index_of, zone_key.
  rewrite !append_cons. change ("" +:+ pretty (i + 1)) with (pretty (i + 1)).
  simpl. rewrite split_absent by (by apply contains_underscore_digits). simpl.
  rewrite int_digits_only by done. simpl. rewrite Hv.
  cbv [mret result_ret]. f_equal. lia.
Qed.

(** X1: the key the normalizer gives the zone at position [i] resolves back
    to [i]: [int("zone_<i+1>".split('_')[1]) - 1] is [i], so the string form
    and the integer form of a zone resolve to the same index. *)
Theorem zone_key_round_trip (i : nat) :
  zone_index_of (zone_key i) = Ok (Z.of_nat i)
  ∧ resolve_zone_index (ZoneId (zone_key i)) = resolve_zone_index (ZoneIndex (Z.of_nat i)).
Proof. split; apply zone_index_of_zone_key. Qed.

(** ** More on the normalizer *)

Lemma parse_zone_built enabled peripherals i zone acc acc' :
  parse_zone enabled peripherals i zone acc = Ok acc' →
  ∀ k zd, acc' !! k = Some zd →
    acc !! k = Some zd
    ∨ (k = zone_key i ∧ i < MAX_ZONES ∧ zone_built enabled peripherals i zone zd).
Proof.
  unfold parse_zone. intros H k zd Hk.
  destruct (i <? MAX_ZONES) eqn:Hi; [|left; congruence].
  apply Nat.ltb_lt in Hi.
  apply bind_Ok in H as (v & Hv & H).
  destruct (truthy v) eqn:Ht; [|left; congruence].
  bind_inv H. cbv [mret result_ret] in H. simplify_eq.
  destruct (decide (zone_key i = k)) as [<-|Hne].
  - rewrite lookup_insert_eq in Hk. simplify_eq. right.
    split; [done|]. split; [done|]. unfold zone_built. simpl. eauto 10.
  - rewrite lookup_insert_ne in Hk by done. by left.
Qed.

Lemma parse_zones_from_built enabled peripherals zs : ∀ i0 acc m,
  parse_zones_from enabled peripherals i0 zs acc = Ok m →
  ∀ k zd, m !! k = Some zd →
    acc !! k = Some zd
    ∨ ∃ j zone, zs !! j = Some zone ∧ k = zone_key (i0 + j)
                ∧ i0 + j < MAX_ZONES
                ∧ zone_built enabled peripherals (i0 + j) zone zd.
Proof.
  induction zs as [|zone rest IH]; intros i0 acc m H k zd Hk; simpl in H.
  - left. congruence.
  - apply bind_Ok in H as (acc' & Hzone & H).
    destruct (IH _ _ _ H _ _ Hk) as [Hacc|(j & z & Hj & -> & Hlt & Hb)].
    + destruct (parse_zone_built _ _ _ _ _ _ Hzone _ _ Hacc) as [?|(-> & Hlt & Hb)];
        [by left|].
      right. exists 0, zone. by rewrite Nat.add_0_r.
    + right. exists (S j), z. by rewrite <- Nat.add_succ_comm.
Qed.

Section NormalizerMore.

Context {W command : Type}.

#[local] Abbreviation World := (World W command).

(** X2: the keys of the zones of a normalized state are among ["zone_1"] to
    ["zone_8"], so there are at most eight zones. *)
Theorem zones_keys_bounded (d : value) (w : World) (p : parsed_data) :
  fst (_parse_data d w) = Ok p →
  (∀ k, is_Some (zones p !! k) → ∃ i, i < 8 ∧ k = zone_key i)
  ∧ size (zones p) ≤ 8.
Proof.
  intros H. apply _parse_data_Ok in H as (l & a & Hmain & Hzones & _).
  unfold parse_zones in Hzones. bind_inv Hzones.
  assert (∀ k, is_Some (zones p !! k) → ∃ i, i < 8 ∧ k = zone_key i) as Hkeys.
  { intros k [zd Hk].
    destruct (parse_zones_from_built _ _ _ _ _ _ Hzones _ _ Hk)
      as [Hempty|(j & zone & _ & -> & Hlt & _)]; [done|].
    exists j. by simpl in *. }
  split; [done|].
  rewrite <- size_dom.
  trans (size (list_to_set (C := gset string) (zone_key <$> seq 0 8))).
  - apply subseteq_size. intros k Hk.
    apply elem_of_dom, Hkeys in Hk as (i & Hi & ->).
    apply elem_of_list_to_set, list_elem_of_fmap. exists i.
    split; [done|]. apply elem_of_seq. lia.
  - rewrite size_list_to_set; [by rewrite length_fmap, length_seq|].
    apply NoDup_fmap_2_strong; [|apply NoDup_seq].
    intros i j _ _. apply zone_key_inj.
Qed.

(** X3: every field of a zone of a normalized state is read from the
    vendor's entry at the zone's position: the name is [NV_Title], or
    ["Zone <i+1>"] when the entry has none; temperature and humidity are
    [LiveTemp_oC] and [LiveHumidity_pc], [None] when missing; the peripheral
    fields are those [find_peripheral] returns for the position. *)
Theorem zone_entry_fields (d : value) (w : World) (p : parsed_data)
    (i : nat) (zd : zone_data) :
  fst (_parse_data d w) = Ok p →
  zones p !! zone_key i = Some zd →
  ∃ last_known_state info entries zone aircon_system peripherals ps,
    get d "lastKnownState" (JDict []) = Ok last_known_state
    ∧ get last_known_state "RemoteZoneInfo" (JList []) = Ok info
    ∧ iter info = Ok entries
    ∧ entries !! i = Some zone
    ∧ get zone "NV_Title" (JStr ("Zone " +:+ pretty (i + 1))) = Ok (name zd)
    ∧ get zone "LiveTemp_oC" JNull = Ok (temp zd)
    ∧ get zone "LiveHumidity_pc" JNull = Ok (humidity zd)
    ∧ get last_known_state "AirconSystem" (JDict []) = Ok aircon_system
    ∧ get aircon_system "Peripherals" (JList []) = Ok peripherals
    ∧ iter peripherals = Ok ps
    ∧ find_peripheral ps i = Ok (peripheral zd).
Proof.
  intros H Hk. apply _parse_data_Ok in H as (l & a & Hmain & Hzones & _).
  apply parse_main_inv in Hmain as (user & fan & Hl & _ & Ha & _).
  unfold parse_zones in Hzones. bind_inv Hzones.
  destruct (parse_zones_from_built _ _ _ _ _ _ Hzones _ _ Hk)
    as [Hempty|(j & zone & Hj & Hkey & _ & Hname & Htemp & Hhum & _ & ps & Hps & Hper)];
    [done|].
  simpl in *. apply zone_key_inj in Hkey. subst j.
  eauto 20.
Qed.

End NormalizerMore.

Lemma parse_zones_from_beyond enabled peripherals zs : ∀ i0 acc,
  MAX_ZONES ≤ i0 → parse_zones_from enabled peripherals i0 zs acc = Ok acc.
Proof.
  induction zs as [|zone rest IH]; intros i0 acc Hi; simpl; [done|].
  unfold parse_zone. destruct (Nat.ltb_spec i0 MAX_ZONES); [lia|]. simpl.
  apply IH. lia.
Qed.

Lemma parse_zones_from_take enabled peripherals zs : ∀ i0 acc,
  parse_zones_from enabled peripherals i0 zs acc
  = parse_zones_from enabled peripherals i0 (take (MAX_ZONES - i0) zs) acc.
Proof.
  induction zs as [|zone rest IH]; intros i0 acc.
  - by rewrite take_nil.
  - destruct (Nat.le_gt_cases MAX_ZONES i0) as [Hge|Hlt].
    + replace (MAX_ZONES - i0) with 0 by lia.
      by rewrite parse_zones_from_beyond.
    + replace (MAX_ZONES - i0) with (S (MAX_ZONES - S i0)) by lia. simpl.
      destruct (parse_zone enabled peripherals i0 zone acc); simpl; [|done].
      apply IH.
Qed.

(** X4: the zone loop reads the first eight entries of the vendor's list and
    nothing after them: whatever follows, of whatever type, changes neither
    the zones nor whether the loop fails. *)
Theorem zone_loop_reads_first_eight (enabled peripherals : value)
    (zs extra : list value) (acc : gmap string zone_data) :
  length zs = 8 →
  parse_zones_from enabled peripherals 0 (zs ++ extra) acc
  = parse_zones_from enabled peripherals 0 zs acc.
Proof.
  intros Hlen.
  rewrite (parse_zones_from_take _ _ (zs ++ extra)).
  replace (MAX_ZONES - 0) with (length zs) by (rewrite Hlen; done).
  by rewrite take_app_length.
Qed.

Section NormalizerEdges.

Context {W command : Type}.

#[local] Abbreviation World := (World W command).

(** X5: a payload object that has no ["lastKnownState"], or an empty one,
    is normalized without error to the defaults: off, mode ["OFF"], an empty
    fan mode, no enabled zones, no zone; every optional reading is [None].
    The payload is kept as [raw_data] and [_continuous_fan] becomes false. *)
Theorem parse_data_without_sections (o : list (string * value)) (w : World) :
  dict_get o "lastKnownState" (JDict []) = JDict [] →
  _parse_data (JDict o) w
  = (Ok {| raw_data := JDict o; main := default_main; zones := ∅ |},
     {| self := with_continuous_fan false (self w);
        remote := remote w; calls := calls w |}).
Proof.
  intros H. rewrite _parse_data_eq.
  assert (parse_main (JDict o) = Ok (default_main, JDict [], JDict [])) as ->.
  { unfold parse_main. simpl. by rewrite H. }
  done.
Qed.

(** X6: a payload that is not an object, or whose ["FanMode"] is present
    and not a string, makes the normalizer raise [UpdateFailed] before it
    has touched the coordinator. *)
Theorem parse_data_malformed (d : value) (w : World) :
  (∀ o, d ≠ JDict o)
  ∨ (∃ l u v,
       get d "lastKnownState" (JDict []) = Ok l
       ∧ get l "UserAirconSettings" (JDict []) = Ok u
       ∧ get u "FanMode" (JStr "") = Ok v
       ∧ ∀ s, v ≠ JStr s) →
  _parse_data d w = (Raise UpdateFailed, w).
Proof.
  intros H. rewrite _parse_data_eq.
  assert (∃ e, parse_main d = Raise e) as [e ->]; [|done].
  destruct H as [H|(l & u & v & Hl & Hu & Hv & Hs)].
  - destruct d; try (by eexists); by destruct (H d).
  - unfold parse_main. rewrite Hl. simpl. rewrite Hu. simpl.
    destruct (get l "MasterInfo" (JDict [])); simpl; [|by eexists].
    destruct (get l "LiveAircon" (JDict [])); simpl; [|by eexists].
    destruct (get l "AirconSystem" (JDict [])); simpl; [|by eexists].
    destruct (get l "Alerts" (JDict [])); simpl; [|by eexists].
    rewrite Hv. simpl.
    destruct v; try (by eexists). by destruct (Hs s).
Qed.

End NormalizerEdges.

(** X7: the peripheral loop takes the first peripheral assigned to exactly
    zone [i+1] and copies its five fields, [None] for each one missing;
    what follows it in the list is not looked at. When every peripheral is
    an object and none is assigned to the zone, the zone gets none. *)
Theorem find_peripheral_first_match (i : nat) (before : list value) :
  Forall (λ q, ∃ o, q = JDict o
                    ∧ eq_singleton (dict_get o "ZoneAssignment" (JList []))
                        (Z.of_nat (i + 1)) = false) before →
  find_peripheral before i = Ok None
  ∧ ∀ p after,
      eq_singleton (dict_get p "ZoneAssignment" (JList [])) (Z.of_nat (i + 1)) = true →
      find_peripheral (before ++ JDict p :: after) i = Ok (Some (peripheral_fields p)).
Proof.
  induction 1 as [|q rest (o & -> & Ho) _ [IH1 IH2]].
  - split; [done|]. intros p after Hp. simpl. by rewrite Hp.
  - split.
    + simpl. by rewrite Ho.
    + intros p after Hp. simpl. rewrite Ho. by apply IH2.
Qed.

(** ** More on the refresh *)

Section RefreshMore.

Context {W command : Type} (api : Api.ActronApi W command).

#[local] Abbreviation World := (World W command).

(** X8: when the client is healthy, answers the status request and the
    payload normalizes to [p], the refresh returns [p], caches it as
    [last_data], leaves [_continuous_fan] saying whether the payload's fan
    mode ends with ["+CONT"], and has made exactly one health check and one
    status request. *)
Theorem refresh_success (w : World) (r1 r2 : W) (d : value) (p : parsed_data) :
  Api.is_api_healthy api (remote w) = (Ok true, r1) →
  Api.get_ac_status api (device_id (self w)) r1 = (Ok d, r2) →
  fst (_parse_data d w) = Ok p →
  _async_update_data api w
  = (Ok (State p),
     {| self := with_last_data (Some p)
                  (with_continuous_fan (PyStr.endswith (fan_mode (main p)) "+CONT")
                     (self w));
        remote := r2;
        calls := calls w ++ [CallIsApiHealthy; CallGetAcStatus (device_id (self w))] |}).
Proof.
  intros H1 H2 Hp.
  unfold _async_update_data. unfold_M. rewrite H1. simpl. rewrite H2. simpl.
  rewrite _parse_data_eq in *.
  destruct (parse_main d) as [[[m l] a]|e] eqn:Hm; simpl in *; [|done].
  destruct (parse_zones m l a); simpl in *; [|done]. simplify_eq. simpl.
  rewrite <- app_assoc. by rewrite (parse_main_continuous _ _ _ _ Hm).
Qed.

(** X9: when the status request is answered with a payload the normalizer
    rejects, the refresh treats it like a failed request: it returns the
    cached state when there is one and raises [UpdateFailed] when there is
    none, and the cached state is not replaced. *)
Theorem refresh_malformed_payload (w : World) (r1 r2 : W) (d : value) (e : exn) :
  Api.is_api_healthy api (remote w) = (Ok true, r1) →
  Api.get_ac_status api (device_id (self w)) r1 = (Ok d, r2) →
  fst (_parse_data d w) = Raise e →
  fst (_async_update_data api w)
  = match last_data (self w) with
    | Some p => Ok (State p)
    | None => Raise UpdateFailed
    end
  ∧ last_data (self (snd (_async_update_data api w))) = last_data (self w)
  ∧ new_calls w (snd (_async_update_data api w))
    = [CallIsApiHealthy; CallGetAcStatus (device_id (self w))].
Proof.
  intros H1 H2 Hp.
  unfold _async_update_data, new_calls. unfold_M.
  rewrite H1. simpl. rewrite H2. simpl.
  rewrite _parse_data_eq in *.
  destruct (parse_main d) as [[[m l] a]|e'] eqn:Hm; simpl in *.
  - destruct (parse_zones m l a); simpl in *; [done|].
    destruct (last_data (self w)) eqn:Hl; simpl;
      by rewrite <- app_assoc, drop_app_length.
  - destruct (last_data (self w)) eqn:Hl; simpl;
      by rewrite <- app_assoc, drop_app_length.
Qed.

(** What the refresh keeps and what it can return, by cases on the client's
    answers. *)
Lemma refresh_outcome (w : World) :
  let (r, w') := _async_update_data api w in
  device_id (self w') = device_id (self w)
  ∧ enable_zone_control (self w') = enable_zone_control (self w)
  ∧ data (self w') = data (self w)
  ∧ match r with
    | Ok (State p) => last_data (self w') = Some p
    | Ok EmptyState => last_data (self w) = None ∧ last_data (self w') = None
    | Raise e =>
        last_data (self w') = last_data (self w)
        ∧ (e = ConfigEntryAuthFailed
           ∨ (e = UpdateFailed ∧ last_data (self w) = None))
    end.
Proof.
  unfold _async_update_data. unfold_M.
  destruct (Api.is_api_healthy api (remote w)) as [[[|]|e] r1]; simpl.
  - destruct (Api.get_ac_status api (device_id (self w)) r1) as [[d|e] r2]; simpl.
    + rewrite _parse_data_eq. simpl.
      destruct (parse_main d) as [[[m l] a]|e]; simpl.
      * destruct (parse_zones m l a); simpl; [done|].
        destruct (last_data (self w)) eqn:Hl; simpl; rewrite ?Hl; auto 10.
      * destruct (last_data (self w)) eqn:Hl; simpl; rewrite ?Hl; auto 10.
    + destruct e, (last_data (self w)) eqn:Hl; simpl; rewrite ?Hl; auto 10.
  - destruct (last_data (self w)) eqn:Hl; simpl; rewrite ?Hl; auto 10.
  - destruct e, (last_data (self w)) eqn:Hl; simpl; rewrite ?Hl; auto 10.
Qed.

Ltac unfold_IM :=
  unfold Interrupt._async_update_data, Interrupt.try_except, Interrupt.call,
    Interrupt.run, Interrupt.raise, Interrupt.get_self, Interrupt.modify_self,
    Interrupt.cached_or, mbind, Interrupt.IM_bind, mret, Interrupt.IM_ret in *.

(** On a client that raises nothing outside [Exception] the two models of
    the refresh agree. *)
Lemma interrupt_refresh_agrees (w : World) :
  Interrupt._async_update_data (Interrupt.of_api api) w
  = (let (r, w') := _async_update_data api w in (Interrupt.of_result r, w')).
Proof.
  unfold _async_update_data. unfold_M. unfold_IM. simpl.
  destruct (Api.is_api_healthy api (remote w)) as [[[|]|e] r1]; simpl.
  - destruct (Api.get_ac_status api (device_id (self w)) r1) as [[d|e] r2]; simpl.
    + rewrite _parse_data_eq. simpl.
      destruct (parse_main d) as [[[m l] a]|e]; simpl.
      * destruct (parse_zones m l a); simpl; [done|].
        by destruct (last_data (self w)).
      * by destruct (last_data (self w)).
    + by destruct e, (last_data (self w)).
  - by destruct (last_data (self w)).
  - by destruct e, (last_data (self w)).
Qed.

(** The refresh with a client that may raise outside [Exception]. *)
Lemma interrupt_refresh_outcome (client : Interrupt.ActronApi W) (w : World) :
  let (r, w') := Interrupt._async_update_data (command := command) client w in
  match r with
  | Interrupt.Returns (State p) => last_data (self w') = Some p
  | Interrupt.Returns EmptyState =>
      last_data (self w) = None ∧ last_data (self w') = None
  | Interrupt.Raises e =>
      last_data (self w') = last_data (self w)
      ∧ (e = ConfigEntryAuthFailed ∨ (e = UpdateFailed ∧ last_data (self w) = None))
  | Interrupt.Passes b =>
      self w' = self w
      ∧ (Interrupt.is_api_healthy client (remote w)
         = (Interrupt.Passes b, remote w')
         ∧ calls w' = calls w ++ [CallIsApiHealthy]
         ∨ ∃ r1, Interrupt.is_api_healthy client (remote w) = (Interrupt.Returns true, r1)
                 ∧ Interrupt.get_ac_status client (device_id (self w)) r1
                   = (Interrupt.Passes b, remote w')
                 ∧ calls w' = calls w ++ [CallIsApiHealthy;
                                          CallGetAcStatus (device_id (self w))])
  end.
Proof.
  unfold_IM.
  destruct (Interrupt.is_api_healthy client (remote w)) as [[[|]|e|b] r1]; simpl.
  - destruct (Interrupt.get_ac_status client (device_id (self w)) r1)
      as [[d|e|b] r2] eqn:Hs; simpl.
    + rewrite _parse_data_eq. simpl.
      destruct (parse_main d) as [[[m l] a]|e]; simpl.
      * destruct (parse_zones m l a); simpl; [done|].
        destruct (last_data (self w)) eqn:Hl; simpl; rewrite ?Hl; auto 10.
      * destruct (last_data (self w)) eqn:Hl; simpl; rewrite ?Hl; auto 10.
    + destruct e, (last_data (self w)) eqn:Hl; simpl; rewrite ?Hl; auto 10.
    + split; [done|]. right. exists r1. by rewrite Hs, <- app_assoc.
  - destruct (last_data (self w)) eqn:Hl; simpl; rewrite ?Hl; auto 10.
  - destruct e, (last_data (self w)) eqn:Hl; simpl; rewrite ?Hl; auto 10.
  - auto.
Qed.

(** X10: whatever the client does, the refresh raises nothing but
    [ConfigEntryAuthFailed] and [UpdateFailed], and [UpdateFailed] only
    while nothing is cached; a state it returns is the state cached when it
    returns; and a cached state is never dropped. This holds of a client
    whose calls return or raise exceptions derived from [Exception], and
    of any client once the exceptions outside [Exception] are counted: such
    an exception, raised by one of the two calls, is the one case more, it
    passes through the refresh as it is and the coordinator is left as it
    was. On clients of the first kind the two models of the refresh
    agree. *)
Theorem refresh_degrades (w : World) :
  (match fst (_async_update_data api w) with
   | Ok (State p) => last_data (self (snd (_async_update_data api w))) = Some p
   | Ok EmptyState => last_data (self w) = None
   | Raise e =>
       e = ConfigEntryAuthFailed ∨ (e = UpdateFailed ∧ last_data (self w) = None)
   end
   ∧ (is_Some (last_data (self w)) →
      is_Some (last_data (self (snd (_async_update_data api w))))))
  ∧ (∀ client : Interrupt.ActronApi W,
       let (r, w') := Interrupt._async_update_data (command := command) client w in
       match r with
       | Interrupt.Returns (State p) => last_data (self w') = Some p
       | Interrupt.Returns EmptyState => last_data (self w) = None
       | Interrupt.Raises e =>
           e = ConfigEntryAuthFailed ∨ (e = UpdateFailed ∧ last_data (self w) = None)
       | Interrupt.Passes b =>
           self w' = self w
           ∧ (fst (Interrupt.is_api_healthy client (remote w)) = Interrupt.Passes b
              ∨ ∃ r1, Interrupt.is_api_healthy client (remote w)
                      = (Interrupt.Returns true, r1)
                      ∧ fst (Interrupt.get_ac_status client (device_id (self w)) r1)
                        = Interrupt.Passes b)
       end
       ∧ (is_Some (last_data (self w)) → is_Some (last_data (self w'))))
  ∧ Interrupt._async_update_data (Interrupt.of_api api) w
    = (let (r, w') := _async_update_data api w in (Interrupt.of_result r, w')).
Proof.
  split; [|split; [|apply interrupt_refresh_agrees]].
  - pose proof (refresh_outcome w) as H.
    destruct (_async_update_data api w) as [[[|p]|e] w']; simpl in *.
    + destruct H as (_ & _ & _ & H0 & _). split; [done|].
      rewrite H0. by intros [? ?].
    + destruct H as (_ & _ & _ & H). split; [done|]. rewrite H. eauto.
    + destruct H as (_ & _ & _ & Hl & He). split; [done|]. by rewrite Hl.
  - intros client. pose proof (interrupt_refresh_outcome client w) as H.
    destruct (Interrupt._async_update_data client w) as [[[|p]|e|b] w'];
      simpl in *.
    + destruct H as [H0 _]. split; [done|]. rewrite H0. by intros [? ?].
    + rewrite H. eauto.
    + destruct H as [Hl He]. split; [done|]. by rewrite Hl.
    + destruct H as [Hs H]. rewrite Hs. split; [|done]. split; [done|].
      destruct H as [[H _]|(r1 & Hh & Hg & _)];
        [left; by rewrite H|right; exists r1; by rewrite Hg].
Qed.

(** X11: the refresh never changes the device id or the zone-control flag,
    and it leaves the host's [data] alone: storing the result there is the
    host's part. *)
Theorem refresh_frame (w : World) :
  device_id (self (snd (_async_update_data api w))) = device_id (self w)
  ∧ enable_zone_control (self (snd (_async_update_data api w)))
    = enable_zone_control (self w)
  ∧ data (self (snd (_async_update_data api w))) = data (self w).
Proof.
  pose proof (refresh_outcome w) as H.
  destruct (_async_update_data api w) as [r w']. simpl.
  by destruct H as (? & ? & ? & _).
Qed.

End RefreshMore.

(** ** More on the commands *)

Lemma upper_char_idemp (c : ascii) :
  PyStr.upper_char (PyStr.upper_char c) = PyStr.upper_char c.
Proof. by destruct c as [[] [] [] [] [] [] [] []]. Qed.

Lemma upper_idemp (s : string) : PyStr.upper (PyStr.upper s) = PyStr.upper s.
Proof.
  induction s as [|x r IH]; simpl; [done|]. by rewrite upper_char_idemp, IH.
Qed.

Lemma fan_base_mode_valid (mode_ : string) : fan_base_mode mode_ ∈ valid_modes.
Proof.
  unfold fan_base_mode. case_bool_decide; [done|].
  unfold valid_modes. apply elem_of_cons. by left.
Qed.

Section CommandsMore.

Context {W command : Type} (api : Api.ActronApi W command).

#[local] Abbreviation World := (World W command).

(** The host's refresh, as modelled: it does not raise, keeps the device id
    and the zone-control flag, and keeps the two copies of the state in
    agreement. *)
Lemma async_request_refresh_outcome (w : World) :
  fst (async_request_refresh api w) = Ok tt
  ∧ device_id (self (snd (async_request_refresh api w))) = device_id (self w)
  ∧ enable_zone_control (self (snd (async_request_refresh api w)))
    = enable_zone_control (self w)
  ∧ (coherent (self w) → coherent (self (snd (async_request_refresh api w)))).
Proof.
  pose proof (refresh_outcome api w) as H.
  unfold async_request_refresh. unfold_M. unfold coherent.
  destruct (_async_update_data api w) as [[[|p]|e] w']; simpl in *.
  - destruct H as (? & ? & ? & ? & Hl). rewrite Hl. auto.
  - destruct H as (? & ? & ? & Hl). rewrite Hl. auto.
  - destruct H as (? & ? & Hd & Hl & _). rewrite Hd, Hl. auto.
Qed.

Lemma send_outcome (kind : string) (args : kwargs) (w : World) :
  match Api.create_command api kind args (remote w) with
  | (Raise e, r1) =>
      send api kind args w
      = (Raise e, {| self := self w; remote := r1;
                     calls := calls w ++ [CallCreateCommand kind args] |})
  | (Ok cmd, r1) =>
      send api kind args w
      = (fst (Api.send_command api (device_id (self w)) cmd r1),
         {| self := self w;
            remote := snd (Api.send_command api (device_id (self w)) cmd r1);
            calls := calls w ++ [CallCreateCommand kind args;
                                 CallSendCommand (device_id (self w)) cmd] |})
  end.
Proof.
  unfold send. unfold_M.
  destruct (Api.create_command api kind args (remote w)) as [[cmd|e] r1]; simpl; [|done].
  destruct (Api.send_command api (device_id (self w)) cmd r1) as [r r2]; simpl.
  rewrite <- app_assoc. by destruct r.
Qed.

End CommandsMore.

Section CommandTheorems.

Context {W command : Type} (api : Api.ActronApi W command).

#[local] Abbreviation World := (World W command).

(** X12: whatever mode and flag the caller passes, the first call of
    [set_fan_mode] is the client's [set_fan_mode] with a base mode among
    LOW, MED, HIGH and AUTO: the requested mode in upper case, or LOW when
    that is none of the four; upper and lower case are not told apart. An
    explicit continuous flag is sent as given. Only the calls of the refresh
    follow. *)
Theorem set_fan_mode_call (w : World) (mode_ : string) (continuous : option bool)
    (p : parsed_data) :
  data (self w) = Some (State p) →
  fan_base_mode mode_ ∈ valid_modes
  ∧ fan_base_mode (PyStr.upper mode_) = fan_base_mode mode_
  ∧ ∃ rest,
      new_calls w (snd (set_fan_mode api mode_ continuous w))
      = CallSetFanMode (fan_base_mode mode_)
          (default (PyStr.endswith (fan_mode (main p)) "+CONT") continuous) :: rest
      ∧ Forall (λ c, is_refresh_call c = true) rest.
Proof.
  intros Hdata. split; [apply fan_base_mode_valid|].
  split; [unfold fan_base_mode; by rewrite upper_idemp|].
  unfold set_fan_mode, data_main, new_calls. unfold_M.
  destruct continuous as [b|]; simpl; rewrite Hdata; simpl; rewrite ?Hdata; simpl.
  all: match goal with
       | |- context [Api.set_fan_mode api ?m ?c ?r] =>
           destruct (Api.set_fan_mode api m c r) as [[[]|e] r1]; simpl
       end.
  all: try (exists []; split; [|done]; by rewrite drop_app_length).
  all: match goal with
       | |- context [async_request_refresh api ?w1] =>
           destruct (async_request_refresh_calls api w1) as (new & Hnew & Hall);
           destruct (async_request_refresh api w1) as [[[]|e] w2]
       end; simpl in *.
  all: exists new; split; [|done].
  all: try destruct (data (self w2)) as [[|p']|]; simpl;
         by rewrite Hnew, <- app_assoc, drop_app_length.
Qed.

(** X13: when the client's [set_fan_mode] raises, the command raises the
    same exception, no refresh follows, and the coordinator, its
    [_continuous_fan] included, is what it was. *)
Theorem set_fan_mode_rejected (w : World) (mode_ : string) (continuous : option bool)
    (p : parsed_data) (e : exn) (r1 : W) :
  data (self w) = Some (State p) →
  Api.set_fan_mode api (fan_base_mode mode_)
    (default (PyStr.endswith (fan_mode (main p)) "+CONT") continuous) (remote w)
  = (Raise e, r1) →
  set_fan_mode api mode_ continuous w
  = (Raise e,
     {| self := self w; remote := r1;
        calls := calls w ++ [CallSetFanMode (fan_base_mode mode_)
                               (default (PyStr.endswith (fan_mode (main p)) "+CONT")
                                  continuous)] |}).
Proof.
  intros Hdata Hapi.
  unfold set_fan_mode, data_main. unfold_M.
  destruct continuous as [b|]; simpl in *; rewrite Hdata; simpl; rewrite ?Hdata; simpl;
    by rewrite Hapi.
Qed.

(** X14: for a zone of the cached state that is enabled, with zone control
    on, [set_zone_temperature] builds [SET_ZONE_TEMP] for the zone's
    position, one less than the number in its key, with the temperature and
    key it was given, and that is its first call. *)
Theorem set_zone_temperature_sends (w : World) (i : nat) (temperature : float)
    (temp_key : string) (p : parsed_data) (zone : zone_data) :
  enable_zone_control (self w) = true →
  last_data (self w) = Some p →
  zones p !! zone_key i = Some zone →
  truthy (is_enabled zone) = true →
  ∃ rest,
    new_calls w (snd (set_zone_temperature api (zone_key i) temperature temp_key w))
    = CallCreateCommand "SET_ZONE_TEMP"
        (KwZoneTemp (Z.of_nat i) temperature temp_key) :: rest.
Proof.
  intros Hctl Hp Hz Hen.
  unfold set_zone_temperature, new_calls. unfold_M.
  rewrite Hctl. simpl. rewrite Hp, Hz, Hen. simpl.
  rewrite zone_index_of_zone_key. simpl.
  pose proof (send_outcome api "SET_ZONE_TEMP"
                (KwZoneTemp (Z.of_nat i) temperature temp_key) w) as Hsend.
  destruct (Api.create_command api _ _ (remote w)) as [[cmd|e] r1].
  - rewrite Hsend.
    destruct (Api.send_command api (device_id (self w)) cmd r1) as [[[]|e] r2]; simpl.
    + match goal with
      | |- context [async_request_refresh api ?w1] =>
          destruct (async_request_refresh_calls api w1) as (new & Hnew & _);
          destruct (async_request_refresh api w1) as [[[]|e] w2]
      end; simpl in *; eexists;
        by rewrite Hnew, <- app_assoc, drop_app_length.
    + eexists. by rewrite drop_app_length.
  - rewrite Hsend. simpl. eexists. by rewrite drop_app_length.
Qed.

(** X15: when the client fails to build or to send the command of
    [set_zone_temperature], the command raises the client's exception and
    stops: no refresh is asked for and the coordinator is what it was. *)
Theorem set_zone_temperature_failure (w : World) (i : nat) (temperature : float)
    (temp_key : string) (p : parsed_data) (zone : zone_data) (e : exn) :
  enable_zone_control (self w) = true →
  last_data (self w) = Some p →
  zones p !! zone_key i = Some zone →
  truthy (is_enabled zone) = true →
  fst (send api "SET_ZONE_TEMP" (KwZoneTemp (Z.of_nat i) temperature temp_key) w)
  = Raise e →
  fst (set_zone_temperature api (zone_key i) temperature temp_key w) = Raise e
  ∧ self (snd (set_zone_temperature api (zone_key i) temperature temp_key w)) = self w
  ∧ Forall (λ c, is_refresh_call c = false)
      (new_calls w (snd (set_zone_temperature api (zone_key i) temperature temp_key w))).
Proof.
  intros Hctl Hp Hz Hen Hfail.
  unfold set_zone_temperature, new_calls. unfold_M.
  rewrite Hctl. simpl. rewrite Hp, Hz, Hen. simpl.
  rewrite zone_index_of_zone_key. simpl.
  pose proof (send_outcome api "SET_ZONE_TEMP"
                (KwZoneTemp (Z.of_nat i) temperature temp_key) w) as Hsend.
  destruct (Api.create_command api _ _ (remote w)) as [[cmd|e'] r1];
    rewrite Hsend in *; simpl in *.
  - destruct (Api.send_command api (device_id (self w)) cmd r1) as [[[]|e'] r2];
      simpl in *; [done|]. simplify_eq.
    rewrite drop_app_length. repeat split. by repeat constructor.
  - simplify_eq. rewrite drop_app_length. repeat split. by repeat constructor.
Qed.

(** X16: [set_zone_state] does the same whether the zone is given by its
    key ["zone_<i+1>"] or by its index [i]. *)
Theorem set_zone_state_either_form (w : World) (i : nat) (enable : bool) :
  set_zone_state api (ZoneId (zone_key i)) enable w
  = set_zone_state api (ZoneIndex (Z.of_nat i)) enable w.
Proof.
  unfold set_zone_state, set_zone_state_send. simpl.
  by rewrite zone_index_of_zone_key.
Qed.

(** X17: [set_enable_zone_control] never raises, and after it the
    zone-control flag is the one given whatever the refresh it asks for
    runs into; the device id is unchanged. *)
Theorem set_enable_zone_control_sets (w : World) (enable : bool) :
  fst (set_enable_zone_control api enable w) = Ok tt
  ∧ enable_zone_control (self (snd (set_enable_zone_control api enable w))) = enable
  ∧ device_id (self (snd (set_enable_zone_control api enable w))) = device_id (self w).
Proof.
  unfold set_enable_zone_control. unfold_M. simpl.
  match goal with
  | |- context [async_request_refresh api ?w1] =>
      destruct (async_request_refresh_outcome api w1) as (Hr & Hd & Hz & _);
      destruct (async_request_refresh api w1) as [r w2]
  end; simpl in *.
  subst r. simpl. by rewrite Hz, Hd.
Qed.

End CommandTheorems.

(** ** The zone accessors *)

Lemma zone_index_of_raises (zone_id : string) (e : exn) :
  zone_index_of zone_id = Raise e → e = IndexError ∨ e = ValueError.
Proof.
  unfold zone_index_of.
  destruct (PyStr.split "_" zone_id !! 1) as [part|]; simpl; [|by left; congruence].
  destruct (PyStr.int part); simpl; [done|]. right. congruence.
Qed.

Lemma first_assigned_raises (ps : list value) (n : Z) (e : exn) :
  first_assigned ps n = Raise e → e = AttributeError.
Proof.
  induction ps as [|q rest IH]; simpl; [done|].
  destruct q; simpl; try congruence.
  destruct (eq_singleton _ n); [done|apply IH].
Qed.

Lemma first_assigned_Some (ps : list value) (n : Z) (q : value) :
  first_assigned ps n = Ok (Some q) →
  ∃ o, q = JDict o ∧ eq_singleton (dict_get o "ZoneAssignment" (JList [])) n = true.
Proof.
  induction ps as [|x rest IH]; simpl; [done|].
  destruct x; simpl; try done.
  destruct (eq_singleton _ n) eqn:E; [|apply IH].
  intros. simplify_eq. eauto.
Qed.

(** The normalizer and the accessor pick the same element of a list of
    peripherals. *)
Lemma find_peripheral_first_assigned (ps : list value) (i : nat) :
  match first_assigned ps (Z.of_nat (i + 1)) with
  | Ok (Some q) => ∃ o, q = JDict o ∧ find_peripheral ps i = Ok (Some (peripheral_fields o))
  | Ok None => find_peripheral ps i = Ok None
  | Raise e => find_peripheral ps i = Raise e
  end.
Proof.
  induction ps as [|x rest IH]; simpl; [done|].
  destruct x; simpl; try done.
  destruct (eq_singleton _ _); [|apply IH]. eauto.
Qed.

(** X18: for a zone id that has no ['_'] or no number after it, both
    accessors return [None], whatever the coordinator holds. *)
Theorem zone_accessors_bad_id (c : Coordinator) (zone_id : string) (e : exn) :
  zone_index_of zone_id = Raise e →
  get_zone_peripheral c zone_id = Ok None
  ∧ get_zone_last_updated c zone_id = Ok JNull.
Proof.
  intros H. unfold get_zone_last_updated, get_zone_peripheral.
  rewrite H. by destruct (zone_index_of_raises _ _ H) as [-> | ->].
Qed.

(** X19: before the host has stored a first result ([data] is [None]), the
    accessors do not return [None] for a well-formed zone id: the
    [AttributeError] of [None.get] is not among the exceptions they catch. *)
Theorem zone_accessors_before_first_refresh (c : Coordinator) (zone_id : string) (k : Z) :
  data c = None →
  zone_index_of zone_id = Ok k →
  get_zone_peripheral c zone_id = Raise AttributeError
  ∧ get_zone_last_updated c zone_id = Raise AttributeError.
Proof.
  intros Hd Hk. unfold get_zone_last_updated, get_zone_peripheral, data_raw.
  by rewrite Hk, Hd.
Qed.

(** X20: the accessors look for ["AirconSystem"] at the top level of the
    payload kept as [raw_data], not under ["lastKnownState"] where the
    normalizer reads it. For a payload that has it only there, they return
    [None] for every zone, also for a zone to which the normalizer attached
    a peripheral. *)
Theorem zone_accessors_miss_nested_section (c : Coordinator) (p : parsed_data)
    (o : list (string * value)) (zone_id : string) :
  data c = Some (State p) →
  raw_data p = JDict o →
  dict_get o "AirconSystem" (JDict []) = JDict [] →
  get_zone_peripheral c zone_id = Ok None
  ∧ get_zone_last_updated c zone_id = Ok JNull.
Proof.
  intros Hd Hraw Ha.
  assert (get_zone_peripheral c zone_id = Ok None) as Hnone.
  { unfold get_zone_peripheral, data_raw. rewrite Hd, Hraw.
    destruct (zone_index_of zone_id) as [k|e] eqn:Hk; simpl.
    - by rewrite Ha.
    - by destruct (zone_index_of_raises _ _ Hk) as [-> | ->]. }
  split; [done|]. unfold get_zone_last_updated. by rewrite Hnone.
Qed.

(** X21: when the payload kept as [raw_data] has the peripherals at its top
    level, [get_zone_peripheral] returns for ["zone_<i+1>"] the first
    peripheral whose [ZoneAssignment] is [[i+1]]. That is the peripheral
    whose fields the normalizer copies from the same list, and
    [get_zone_last_updated] returns its [LastConnectionTime]. *)
Theorem zone_accessors_first_match (c : Coordinator) (p : parsed_data)
    (o : list (string * value)) (peripherals : value) (ps : list value) (i : nat) :
  data c = Some (State p) →
  raw_data p = JDict o →
  get (dict_get o "AirconSystem" (JDict [])) "Peripherals" (JList []) = Ok peripherals →
  iter peripherals = Ok ps →
  get_zone_peripheral c (zone_key i) = first_assigned ps (Z.of_nat (i + 1))
  ∧ match first_assigned ps (Z.of_nat (i + 1)) with
    | Ok (Some q) =>
        ∃ o', q = JDict o'
              ∧ find_peripheral ps i = Ok (Some (peripheral_fields o'))
              ∧ get_zone_last_updated c (zone_key i)
                = Ok (last_connection (peripheral_fields o'))
    | Ok None =>
        find_peripheral ps i = Ok None
        ∧ get_zone_last_updated c (zone_key i) = Ok JNull
    | Raise e =>
        find_peripheral ps i = Raise e
        ∧ get_zone_last_updated c (zone_key i) = Raise AttributeError
    end.
Proof.
  intros Hd Hraw Hper Hps.
  assert (get_zone_peripheral c (zone_key i) = first_assigned ps (Z.of_nat (i + 1)))
    as Hget.
  { unfold get_zone_peripheral, data_raw.
    rewrite zone_index_of_zone_key, Hd, Hraw. simpl. rewrite Hper. simpl.
    rewrite Hps. simpl.
    replace (Z.of_nat i + 1)%Z with (Z.of_nat (i + 1)) by lia.
    destruct (first_assigned ps (Z.of_nat (i + 1))) as [r|e] eqn:E; [done|].
    by rewrite (first_assigned_raises _ _ _ E). }
  split; [done|].
  pose proof (find_peripheral_first_assigned ps i) as Hfind.
  unfold get_zone_last_updated. rewrite Hget.
  destruct (first_assigned ps (Z.of_nat (i + 1))) as [[q|]|e] eqn:E; simpl.
  - destruct Hfind as (o' & -> & Hfind).
    exists o'. split; [done|]. split; [done|].
    apply first_assigned_Some in E as (o'' & Ho & Hm). simplify_eq.
    destruct o'' as [|kv rest]; [done|]. done.
  - done.
  - by rewrite (first_assigned_raises _ _ _ E) in *.
Qed.

(** ** The two copies of the state *)

Lemma coherent_with_continuous_fan (b : bool) (c : Coordinator) :
  coherent (with_continuous_fan b c) ↔ coherent c.
Proof. done. Qed.

Lemma coherent_with_enable_zone_control (b : bool) (c : Coordinator) :
  coherent (with_enable_zone_control b c) ↔ coherent c.
Proof. done. Qed.

Section Coherence.

Context {W command : Type} (api : Api.ActronApi W command).

#[local] Abbreviation World := (World W command).

Lemma send_self (kind : string) (args : kwargs) (w : World) :
  self (snd (send api kind args w)) = self w.
Proof.
  pose proof (send_outcome api kind args w) as H.
  destruct (Api.create_command api kind args (remote w)) as [[cmd|e] r1];
    by rewrite H.
Qed.

(** Until the refresh it ends with, [set_zone_state] leaves the coordinator
    as it was, for every argument. *)
Lemma set_zone_state_send_self (zone_id : zone_ref) (enable : bool) (w : World) :
  self (snd (set_zone_state_send api zone_id enable w)) = self w.
Proof.
  unfold set_zone_state_send. unfold_M.
  destruct (resolve_zone_index zone_id) as [k|e]; simpl; [|done].
  destruct (last_data (self w)) as [p|] eqn:Hp; simpl; [|done].
  destruct (EnabledZones (main p)) as [| | | | |zs|d] eqn:Hzs; simpl; try done.
  - unfold alloc. simpl.
    destruct (decide (0 ≤ k < Z.of_nat (length zs))%Z) as [Hin|Hout].
    + rewrite (modify_statuses_copy [zs] 0 zs k enable) by done. simpl.
      rewrite with_enabled_zones_same, with_last_data_same, world_eta by done.
      apply send_self.
    + by rewrite (modify_statuses_out_of_range [zs] 0 zs k enable).
  - destruct (_ && _); simpl; [|done].
    apply send_self.
Qed.

(** X22: the cached state and the host's copy in [data] never part. A
    coordinator as constructed has neither. With the host's refresh run on
    request and every returned state stored in [data], the refresh and
    every command keep [data] equal to the cached state when there is one.
    The part of the code does not rest on when the host runs the refresh:
    [_async_update_data] leaves [data] alone, the state it returns is the
    cached one, so that the two agree once the host has stored it, and when
    it raises both are what they were; what the commands write themselves
    is neither of the two, so that a refresh the host puts off or drops
    leaves them equal as well. *)
Theorem coherent_kept (w : World) :
  (∀ device zone_control, coherent (__init__ device zone_control))
  ∧ (coherent (self w) →
     coherent (self (snd (async_request_refresh api w)))
     ∧ (∀ enable, coherent (self (snd (set_enable_zone_control api enable w))))
     ∧ (∀ mode_ continuous,
          coherent (self (snd (set_fan_mode api mode_ continuous w))))
     ∧ (∀ zone_id temperature temp_key,
          coherent (self (snd (set_zone_temperature api zone_id temperature temp_key w))))
     ∧ (∀ zone_id enable,
          coherent (self (snd (set_zone_state api zone_id enable w))))
     ∧ (let (r, w') := _async_update_data api w in
        data (self w') = data (self w)
        ∧ match r with
          | Ok d => coherent (with_data (Some d) (self w'))
          | Raise _ => coherent (self w')
          end)
     ∧ (∀ kind args, self (snd (send api kind args w)) = self w)
     ∧ (∀ zone_id enable,
          self (snd (set_zone_state_send api zone_id enable w)) = self w)
     ∧ (∀ flag, coherent (with_continuous_fan flag (self w))
                ∧ coherent (with_enable_zone_control flag (self w)))
     ∧ (∀ c, data c = data (self w) → last_data c = last_data (self w) →
             coherent c)).
Proof.
  split; [intros; by left|]. intros Hw.
  assert (∀ w1 : World, coherent (self w1) →
            coherent (self (snd (async_request_refresh api w1)))) as Hrefresh.
  { intros w1. by destruct (async_request_refresh_outcome api w1) as (_ & _ & _ & H). }
  split; [by apply Hrefresh|].
  split.
  { intros enable. unfold set_enable_zone_control. unfold_M. simpl.
    match goal with
    | |- context [async_request_refresh api ?w1] =>
        specialize (Hrefresh w1 Hw);
        destruct (async_request_refresh api w1) as [[[]|e] w2]
    end; done. }
  split.
  { intros mode_ continuous. unfold set_fan_mode, data_main. unfold_M.
    destruct (data (self w)) as [[|p]|] eqn:Hd;
      destruct continuous as [b|]; simpl; rewrite ?Hd; simpl; try done.
    all: match goal with
         | |- context [Api.set_fan_mode api ?m ?c ?r] =>
             destruct (Api.set_fan_mode api m c r) as [[[]|e] r1]; simpl
         end; try done.
    all: match goal with
         | |- context [async_request_refresh api ?w1] =>
             specialize (Hrefresh w1 Hw);
             destruct (async_request_refresh api w1) as [[[]|e] w2]
         end; simpl in *; try done.
    all: by destruct (data (self w2)) as [[|p']|]. }
  split.
  { intros zone_id temperature temp_key.
    unfold set_zone_temperature. unfold_M.
    destruct (enable_zone_control (self w)); simpl; [|done].
    destruct (last_data (self w)) as [p|] eqn:Hp; simpl; [|done].
    destruct (zones p !! zone_id) as [zone|]; simpl; [|done].
    destruct (truthy (is_enabled zone)); simpl; [|done].
    destruct (zone_index_of zone_id) as [k|e]; simpl; [|done].
    pose proof (send_self "SET_ZONE_TEMP" (KwZoneTemp k temperature temp_key) w) as Hs.
    destruct (send api "SET_ZONE_TEMP" (KwZoneTemp k temperature temp_key) w)
      as [[[]|e] w1]; simpl in *; [|by rewrite Hs].
    rewrite <- Hs in Hw. specialize (Hrefresh w1 Hw).
    by destruct (async_request_refresh api w1) as [[[]|e] w2]. }
  split.
  { intros zone_id enable. unfold set_zone_state. unfold_M.
    pose proof (set_zone_state_send_self zone_id enable w) as Hs.
    destruct (set_zone_state_send api zone_id enable w) as [[[]|e] w1];
      simpl in *; [|by rewrite Hs].
    rewrite <- Hs in Hw. specialize (Hrefresh w1 Hw).
    by destruct (async_request_refresh api w1) as [[[]|e] w2]. }
  split.
  { pose proof (refresh_outcome api w) as H. unfold coherent in *.
    destruct (_async_update_data api w) as [[[|p]|e] w']; simpl in *.
    - destruct H as (_ & _ & Hd & _ & Hl). rewrite Hl. auto.
    - destruct H as (_ & _ & Hd & Hl). by rewrite Hl.
    - destruct H as (_ & _ & Hd & Hl & _). by rewrite Hd, Hl. }
  split; [intros; apply send_self|].
  split; [intros; apply set_zone_state_send_self|].
  split; [done|].
  intros c Hd Hl. unfold coherent in *. by rewrite Hd, Hl.
Qed.

End Coherence.

(** ** The earlier coordinator *)

Lemma legacy_parse_zone_inv info i flag acc acc' :
  Legacy.parse_zone info i flag acc = Ok acc' →
  ∃ zd e,
    acc' = <[pretty i := e]> acc
    ∧ Legacy.enabled e = flag
    ∧ get info (pretty i) (JDict []) = Ok zd
    ∧ get zd "Name" (JStr ("Zone " +:+ pretty i)) = Ok (Legacy.name e)
    ∧ get zd "Temperature_oC" JNull = Ok (Legacy.temperature e).
Proof.
  unfold Legacy.parse_zone. intros H. bind_inv H.
  cbv [mret result_ret] in H. simplify_eq. eauto 10.
Qed.

Lemma legacy_parse_zones_from_inv info flags : ∀ i0 acc m,
  Legacy.parse_zones_from info i0 flags acc = Ok m →
  (∀ k, is_Some (m !! k) →
        is_Some (acc !! k) ∨ ∃ j, j < length flags ∧ k = pretty (i0 + j))
  ∧ (∀ j flag, flags !! j = Some flag →
       ∃ zd e,
         m !! pretty (i0 + j) = Some e
         ∧ Legacy.enabled e = flag
         ∧ get info (pretty (i0 + j)) (JDict []) = Ok zd
         ∧ get zd "Name" (JStr ("Zone " +:+ pretty (i0 + j))) = Ok (Legacy.name e)
         ∧ get zd "Temperature_oC" JNull = Ok (Legacy.temperature e))
  ∧ (∀ k e, acc !! k = Some e → (∀ j, j < length flags → k ≠ pretty (i0 + j)) →
            m !! k = Some e).
Proof.
  induction flags as [|flag rest IH]; intros i0 acc m H; simpl in H.
  - simplify_eq. repeat split; [by left|done|done].
  - apply bind_Ok in H as (acc' & Hzone & H).
    apply legacy_parse_zone_inv in Hzone as (zd & e & -> & He & Hzd & Hname & Htemp).
    destruct (IH _ _ _ H) as (Hkeys & Hall & Hkeep).
    split; [|split].
    + intros k Hk. destruct (Hkeys k Hk) as [Hacc|(j & Hj & ->)].
      * apply lookup_insert_is_Some in Hacc as [<-|[_ Hacc]]; [|by left].
        right. exists 0. rewrite Nat.add_0_r. split; [simpl; lia|done].
      * right. exists (S j). rewrite <- Nat.add_succ_comm. split; [simpl; lia|done].
    + intros [|j] fl Hj; simpl in Hj.
      * simplify_eq. rewrite Nat.add_0_r. exists zd, e.
        split; [|done]. apply Hkeep; [by rewrite lookup_insert_eq|].
        intros j _ Heq. apply (inj pretty) in Heq. lia.
      * rewrite <- Nat.add_succ_comm. by apply Hall.
    + intros k e' Hk Hne. apply Hkeep.
      * rewrite lookup_insert_ne; [done|].
        specialize (Hne 0). rewrite Nat.add_0_r in Hne.
        intros <-. apply Hne; [simpl; lia|done].
      * intros j Hj. rewrite Nat.add_succ_comm. apply Hne. simpl. lia.
Qed.

(** X23: the earlier coordinator makes one zone per enabled-zone flag, keyed
    by the flag's position counted from 0 (["0"], ["1"], ...), whether or
    not the vendor describes that zone: [enabled] is the flag, and the name
    is the zone's [Name], or ["Zone <i>"] when it has none. There is no
    other zone. *)
Theorem legacy_zones_by_flag (status : value) (zs : gmap string Legacy.zone_entry) :
  Legacy._parse_zone_data status = Ok zs →
  ∃ user info enabled_zones flags,
    get status "UserAirconSettings" (JDict []) = Ok user
    ∧ get status "RemoteZoneInfo" (JDict []) = Ok info
    ∧ get user "EnabledZones" (JList []) = Ok enabled_zones
    ∧ iter enabled_zones = Ok flags
    ∧ (∀ k, is_Some (zs !! k) → ∃ i, i < length flags ∧ k = pretty i)
    ∧ (∀ i flag, flags !! i = Some flag →
         ∃ zd e,
           zs !! pretty i = Some e
           ∧ Legacy.enabled e = flag
           ∧ get info (pretty i) (JDict []) = Ok zd
           ∧ get zd "Name" (JStr ("Zone " +:+ pretty i)) = Ok (Legacy.name e)
           ∧ get zd "Temperature_oC" JNull = Ok (Legacy.temperature e)).
Proof.
  unfold Legacy._parse_zone_data. intros H. bind_inv H.
  destruct (legacy_parse_zones_from_inv _ _ _ _ _ H) as (Hkeys & Hall & _).
  eexists _, _, _, _. repeat (split; [done|]). split.
  - intros k Hk. destruct (Hkeys k Hk) as [[? ?]|Hj]; [done|]. by simpl in Hj.
  - intros i flag Hi. by apply (Hall i flag).
Qed.

(** X24: the earlier coordinator needs [RemoteZoneInfo] to be an object
    keyed by zone number. When the vendor sends it as a list and there is
    at least one enabled-zone flag, zone parsing raises [AttributeError];
    with no flag the list is never looked at and there is no zone. *)
Theorem legacy_zones_need_object (status user : value) (l flags : list value) :
  get status "UserAirconSettings" (JDict []) = Ok user →
  get status "RemoteZoneInfo" (JDict []) = Ok (JList l) →
  get user "EnabledZones" (JList []) = Ok (JList flags) →
  Legacy._parse_zone_data status
  = match flags with
    | [] => Ok ∅
    | _ :: _ => Raise AttributeError
    end.
Proof.
  intros Hu Hi Hf. unfold Legacy._parse_zone_data.
  rewrite Hu. simpl. rewrite Hi. simpl. rewrite Hf. simpl.
  by destruct flags.
Qed.

(** X25: in the earlier coordinator a status without
    ["UserAirconSettings"] gives a result without the five settings keys
    and without zones: missing sections leave keys out, they are not filled
    with defaults. *)
Theorem legacy_missing_settings (d : list (string * value)) (events_ : value)
    (p : Legacy.parsed_data) :
  Legacy.has_key d "UserAirconSettings" = false →
  Legacy._parse_data (JDict d) events_ = Ok p →
  Legacy.settings p = None ∧ Legacy.zones p = ∅.
Proof.
  intros Hk H. unfold Legacy._parse_data in H.
  assert (Legacy.parse_settings (JDict d) = Ok None) as Hs.
  { unfold Legacy.parse_settings, Legacy.if_present. simpl. by rewrite Hk. }
  assert (dict_get d "UserAirconSettings" (JDict []) = JDict []) as Hget.
  { clear -Hk. induction d as [|[k v] r IH]; simpl in *; [done|].
    destruct (String.eqb k "UserAirconSettings"); [done|]. by apply IH. }
  assert (Legacy._parse_zone_data (JDict d) = Ok ∅) as Hz.
  { unfold Legacy._parse_zone_data. simpl. by rewrite Hget. }
  rewrite Hs, Hz in H. simpl in H.
  destruct (Legacy.parse_sensors (JDict d)) as [[[[t h] b] o]|e]; simpl in H; [|done].
  destruct (get events_ "events" (JList [])); simpl in H; [|done].
  cbv [mret result_ret] in H. by simplify_eq.
Qed.

Section LegacyRefresh.

Context {W : Type} (api : Legacy.ActronApi W).

(** On a client that raises nothing outside [Exception] the two models of
    the earlier refresh agree. *)
Lemma legacy_interrupt_agrees (device_id : string) (r0 : W) :
  LegacyInterrupt._async_update_data (LegacyInterrupt.of_api api) device_id r0
  = (let '(result_, r, log) := Legacy._async_update_data api device_id r0 in
     (Interrupt.of_result result_, r, log)).
Proof.
  unfold LegacyInterrupt._async_update_data, LegacyInterrupt.fetch,
    Legacy._async_update_data, Legacy.fetch. simpl.
  destruct (Legacy.has_bearer_token api r0).
  - destruct (Legacy.get_ac_status api device_id r0) as [[status|e] r2]; simpl.
    + destruct (Legacy.get_ac_events api device_id r2) as [[ev|e] r3]; simpl.
      * by destruct (Legacy._parse_data status ev) as [p|[]].
      * by destruct e.
    + by destruct e.
  - destruct (Legacy.authenticate api r0) as [[[]|e] r1]; simpl.
    + destruct (Legacy.get_ac_status api device_id r1) as [[status|e] r2]; simpl.
      * destruct (Legacy.get_ac_events api device_id r2) as [[ev|e] r3]; simpl.
        -- by destruct (Legacy._parse_data status ev) as [p|[]].
        -- by destruct e.
      * by destruct e.
    + by destruct e.
Qed.

(** The requests, the final state of the client and the result of the
    earlier refresh, from the answers of the client. *)
Lemma legacy_interrupt_refresh (client : LegacyInterrupt.ActronApi W)
    (device_id : string) (r0 : W) :
  let auth := if LegacyInterrupt.has_bearer_token client r0
              then (Interrupt.Returns tt, r0)
              else LegacyInterrupt.authenticate client r0 in
  let status := LegacyInterrupt.get_ac_status client device_id (snd auth) in
  let events_ := LegacyInterrupt.get_ac_events client device_id (snd status) in
  LegacyInterrupt._async_update_data client device_id r0
  = match fst auth with
    | Interrupt.Returns _ =>
        match fst status with
        | Interrupt.Returns s =>
            (match fst events_ with
             | Interrupt.Returns ev =>
                 match Legacy._parse_data s ev with
                 | Ok p => Interrupt.Returns p
                 | Raise _ => Interrupt.Raises UpdateFailed
                 end
             | Interrupt.Raises _ => Interrupt.Raises UpdateFailed
             | Interrupt.Passes b => Interrupt.Passes b
             end,
             snd events_,
             (if LegacyInterrupt.has_bearer_token client r0 then []
              else [Legacy.Authenticate])
             ++ [Legacy.GetAcStatus device_id; Legacy.GetAcEvents device_id])
        | Interrupt.Raises _ =>
            (Interrupt.Raises UpdateFailed, snd status,
             (if LegacyInterrupt.has_bearer_token client r0 then []
              else [Legacy.Authenticate])
             ++ [Legacy.GetAcStatus device_id])
        | Interrupt.Passes b =>
            (Interrupt.Passes b, snd status,
             (if LegacyInterrupt.has_bearer_token client r0 then []
              else [Legacy.Authenticate])
             ++ [Legacy.GetAcStatus device_id])
        end
    | Interrupt.Raises _ =>
        (Interrupt.Raises UpdateFailed, snd auth,
         if LegacyInterrupt.has_bearer_token client r0 then []
         else [Legacy.Authenticate])
    | Interrupt.Passes b =>
        (Interrupt.Passes b, snd auth,
         if LegacyInterrupt.has_bearer_token client r0 then []
         else [Legacy.Authenticate])
    end.
Proof.
  unfold LegacyInterrupt._async_update_data, LegacyInterrupt.fetch. simpl.
  destruct (LegacyInterrupt.has_bearer_token client r0); simpl.
  - destruct (LegacyInterrupt.get_ac_status client device_id r0)
      as [[status|e|b] r2]; simpl; [|by destruct e|done].
    destruct (LegacyInterrupt.get_ac_events client device_id r2)
      as [[ev|e|b] r3]; simpl; [|by destruct e|done].
    by destruct (Legacy._parse_data status ev) as [p|[]].
  - destruct (LegacyInterrupt.authenticate client r0) as [[[]|e|b] r1]; simpl;
      [|by destruct e|done].
    destruct (LegacyInterrupt.get_ac_status client device_id r1)
      as [[status|e|b] r2]; simpl; [|by destruct e|done].
    destruct (LegacyInterrupt.get_ac_events client device_id r2)
      as [[ev|e|b] r3]; simpl; [|by destruct e|done].
    by destruct (Legacy._parse_data status ev) as [p|[]].
Qed.

(** X26: the refresh of the earlier coordinator turns every exception
    derived from [Exception] into [UpdateFailed], an authentication error
    included. It authenticates first, and only when the client holds no
    token; it then asks for the status and for the events, in that order,
    and stops at the first call that does not return: the requests made are
    none after a failed authentication, the status alone after a failed
    status, and both otherwise; when it returns a result it has made both
    requests and the result is the normalized pair of answers. An exception
    outside [Exception] raised by a call passes through as it is, the
    requests stopping there as well. The first part is about clients that
    raise within [Exception], the second about any client, and on the
    former the two models agree. *)
Theorem legacy_refresh_policy (device_id : string) (r0 : W) :
  (let '(result_, r, log) := Legacy._async_update_data api device_id r0 in
   let auth := if Legacy.has_bearer_token api r0 then (Ok tt, r0)
               else Legacy.authenticate api r0 in
   let status := Legacy.get_ac_status api device_id (snd auth) in
   let events_ := Legacy.get_ac_events api device_id (snd status) in
   ∃ requests,
     log = (if Legacy.has_bearer_token api r0 then [] else [Legacy.Authenticate])
           ++ requests
     ∧ requests `prefix_of` [Legacy.GetAcStatus device_id; Legacy.GetAcEvents device_id]
     ∧ match result_ with
       | Ok _ => requests = [Legacy.GetAcStatus device_id; Legacy.GetAcEvents device_id]
       | Raise e => e = UpdateFailed
       end
     ∧ requests = match fst auth, fst status with
                  | Raise _, _ => []
                  | Ok _, Raise _ => [Legacy.GetAcStatus device_id]
                  | Ok _, Ok _ =>
                      [Legacy.GetAcStatus device_id; Legacy.GetAcEvents device_id]
                  end
     ∧ r = match fst auth, fst status with
           | Raise _, _ => snd auth
           | Ok _, Raise _ => snd status
           | Ok _, Ok _ => snd events_
           end
     ∧ result_ = match fst auth, fst status, fst events_ with
                 | Ok _, Ok s, Ok ev =>
                     match Legacy._parse_data s ev with
                     | Ok p => Ok p
                     | Raise _ => Raise UpdateFailed
                     end
                 | _, _, _ => Raise UpdateFailed
                 end)
  ∧ (∀ client : LegacyInterrupt.ActronApi W,
       let auth := if LegacyInterrupt.has_bearer_token client r0
                   then (Interrupt.Returns tt, r0)
                   else LegacyInterrupt.authenticate client r0 in
       let status := LegacyInterrupt.get_ac_status client device_id (snd auth) in
       let events_ := LegacyInterrupt.get_ac_events client device_id (snd status) in
       LegacyInterrupt._async_update_data client device_id r0
       = match fst auth with
         | Interrupt.Returns _ =>
             match fst status with
             | Interrupt.Returns s =>
                 (match fst events_ with
                  | Interrupt.Returns ev =>
                      match Legacy._parse_data s ev with
                      | Ok p => Interrupt.Returns p
                      | Raise _ => Interrupt.Raises UpdateFailed
                      end
                  | Interrupt.Raises _ => Interrupt.Raises UpdateFailed
                  | Interrupt.Passes b => Interrupt.Passes b
                  end,
                  snd events_,
                  (if LegacyInterrupt.has_bearer_token client r0 then []
                   else [Legacy.Authenticate])
                  ++ [Legacy.GetAcStatus device_id; Legacy.GetAcEvents device_id])
             | Interrupt.Raises _ =>
                 (Interrupt.Raises UpdateFailed, snd status,
                  (if LegacyInterrupt.has_bearer_token client r0 then []
                   else [Legacy.Authenticate])
                  ++ [Legacy.GetAcStatus device_id])
             | Interrupt.Passes b =>
                 (Interrupt.Passes b, snd status,
                  (if LegacyInterrupt.has_bearer_token client r0 then []
                   else [Legacy.Authenticate])
                  ++ [Legacy.GetAcStatus device_id])
             end
         | Interrupt.Raises _ =>
             (Interrupt.Raises UpdateFailed, snd auth,
              if LegacyInterrupt.has_bearer_token client r0 then []
              else [Legacy.Authenticate])
         | Interrupt.Passes b =>
             (Interrupt.Passes b, snd auth,
              if LegacyInterrupt.has_bearer_token client r0 then []
              else [Legacy.Authenticate])
         end)
  ∧ LegacyInterrupt._async_update_data (LegacyInterrupt.of_api api) device_id r0
    = (let '(result_, r, log) := Legacy._async_update_data api device_id r0 in
       (Interrupt.of_result result_, r, log)).
Proof.
  split; [|split; [intros client; apply legacy_interrupt_refresh
                  |apply legacy_interrupt_agrees]].
  unfold Legacy._async_update_data, Legacy.fetch.
  destruct (Legacy.has_bearer_token api r0); simpl.
  - destruct (Legacy.get_ac_status api device_id r0) as [[status|e] r2]; simpl.
    + destruct (Legacy.get_ac_events api device_id r2) as [[ev|e] r3]; simpl.
      * eexists. split; [done|]. split; [done|].
        by destruct (Legacy._parse_data status ev) as [p|[]].
      * eexists. split; [done|]. split; [done|]. by destruct e.
    + exists [Legacy.GetAcStatus device_id]. split; [done|].
      split; [by eexists|]. by destruct e.
  - destruct (Legacy.authenticate api r0) as [[[]|e] r1]; simpl.
    + destruct (Legacy.get_ac_status api device_id r1) as [[status|e] r2]; simpl.
      * destruct (Legacy.get_ac_events api device_id r2) as [[ev|e] r3]; simpl.
        -- eexists. split; [done|]. split; [done|].
           by destruct (Legacy._parse_data status ev) as [p|[]].
        -- eexists. split; [done|]. split; [done|]. by destruct e.
      * exists [Legacy.GetAcStatus device_id]. split; [done|].
        split; [by eexists|]. by destruct e.
    + exists []. split; [done|]. split; [apply prefix_nil|]. by destruct e.
Qed.

End LegacyRefresh.

(** ** The commands that set a mode or a temperature *)

Section ModeCommands.

Context {W command : Type} (api : ModesApi.ActronApi W command) (HVACMode_OFF : string).

#[local] Abbreviation World := (Modes.World W command).

Lemma send_then_refresh_outcome (kind : string) (args : ModesApi.kwargs) (w : World) :
  Modes.outcome w (Modes.send_then_refresh api kind args w)
  ∧ ∃ rest, Modes.log (snd (Modes.send_then_refresh api kind args w))
            = Modes.log w ++ Modes.CreateCommand kind args :: rest.
Proof.
  unfold Modes.send_then_refresh, Modes.call_client, Modes.outcome.
  destruct (ModesApi.create_command api kind args (Modes.client w)) as [[cmd|e] r1];
    simpl.
  - destruct (Api.send_command (ModesApi.base api) (device_id (Modes.coord w)) cmd r1)
      as [[[]|e] r2]; simpl.
    + split.
      * eexists [Modes.CreateCommand kind args;
                 Modes.SendCommand (device_id (Modes.coord w)) cmd], _.
        split; [by rewrite <- !app_assoc|]. by repeat constructor.
      * eexists. by rewrite <- !app_assoc.
    + split; [|eexists; by rewrite <- app_assoc].
      split; [done|]. eexists. split; [by rewrite <- app_assoc|].
      by repeat constructor.
  - split; [|by eexists]. split; [done|]. eexists. split; [done|].
    by repeat constructor.
Qed.

Lemma set_then_refresh_outcome (c : Modes.call command) (setter : W → result unit * W)
    (w : World) :
  Modes.is_refresh c = false →
  Modes.outcome w (Modes.set_then_refresh api c setter w)
  ∧ ∃ rest, Modes.log (snd (Modes.set_then_refresh api c setter w))
            = Modes.log w ++ c :: rest.
Proof.
  intros Hc. unfold Modes.set_then_refresh, Modes.call_client, Modes.outcome.
  destruct (setter (Modes.client w)) as [[[]|e] r1]; simpl.
  - split; [|eexists; by rewrite <- app_assoc].
    exists [c]. eexists. split; [by rewrite <- app_assoc|]. by repeat constructor.
  - split; [|by eexists]. split; [done|]. eexists. split; [done|].
    by repeat constructor.
Qed.

(** X27: each of the five commands that set a mode or a temperature either
    succeeds, and then the refresh has been asked for once, after the
    command's own calls, or raises, and then no refresh has been asked for
    and the coordinator is what it was. *)
Theorem mode_commands_outcome (w : World) :
  (∀ hvac_mode, Modes.outcome w (Modes.set_hvac_mode api HVACMode_OFF hvac_mode w))
  ∧ (∀ temperature is_cooling,
       Modes.outcome w (Modes.set_temperature api temperature is_cooling w))
  ∧ (∀ mode_, Modes.outcome w (Modes.set_climate_mode api mode_ w))
  ∧ (∀ state, Modes.outcome w (Modes.set_away_mode api state w))
  ∧ (∀ state, Modes.outcome w (Modes.set_quiet_mode api state w)).
Proof.
  repeat split; intros.
  - unfold Modes.set_hvac_mode.
    destruct (String.eqb hvac_mode HVACMode_OFF); apply send_then_refresh_outcome.
  - apply send_then_refresh_outcome.
  - apply send_then_refresh_outcome.
  - by apply set_then_refresh_outcome.
  - by apply set_then_refresh_outcome.
Qed.

(** X28: [set_hvac_mode] builds the command ["OFF"], with no argument, for
    the host's [HVACMode.OFF], and for any other mode the command
    ["CLIMATE_MODE"] with that mode, passed on as given; for those modes it
    does exactly what [set_climate_mode] does. *)
Theorem set_hvac_mode_command (hvac_mode : string) (w : World) :
  (hvac_mode = HVACMode_OFF →
   ∃ rest, Modes.log (snd (Modes.set_hvac_mode api HVACMode_OFF hvac_mode w))
           = Modes.log w ++ Modes.CreateCommand "OFF" ModesApi.KwNone :: rest)
  ∧ (hvac_mode ≠ HVACMode_OFF →
     Modes.set_hvac_mode api HVACMode_OFF hvac_mode w
     = Modes.set_climate_mode api hvac_mode w
     ∧ ∃ rest, Modes.log (snd (Modes.set_hvac_mode api HVACMode_OFF hvac_mode w))
               = Modes.log w
                 ++ Modes.CreateCommand "CLIMATE_MODE" (ModesApi.KwMode hvac_mode) :: rest).
Proof.
  unfold Modes.set_hvac_mode, Modes.set_climate_mode.
  destruct (String.eqb_spec hvac_mode HVACMode_OFF) as [Heq|Hne].
  - split; [|done]. intros _. apply send_then_refresh_outcome.
  - split; [done|]. intros _. split; [done|]. apply send_then_refresh_outcome.
Qed.

End ModeCommands.

(** ** The further properties on concrete data *)

Lemma zones_keys_bounded_scenario :
  (∀ k, is_Some (zones Scenario.state !! k) → ∃ i, i < 8 ∧ k = zone_key i)
  ∧ size (zones Scenario.state) ≤ 8.
Proof.
  apply (zones_keys_bounded Scenario.payload
           (Scenario.world true None Scenario.up) Scenario.state).
  vm_compute. reflexivity.
Defined.

Lemma zone_entry_fields_scenario :
  ∃ last_known_state info entries zone aircon_system peripherals ps,
    get Scenario.payload "lastKnownState" (JDict []) = Ok last_known_state
    ∧ get last_known_state "RemoteZoneInfo" (JList []) = Ok info
    ∧ iter info = Ok entries
    ∧ entries !! 0 = Some zone
    ∧ get zone "NV_Title" (JStr ("Zone " +:+ pretty (0 + 1))) = Ok (name Scenario.living)
    ∧ get zone "LiveTemp_oC" JNull = Ok (temp Scenario.living)
    ∧ get zone "LiveHumidity_pc" JNull = Ok (humidity Scenario.living)
    ∧ get last_known_state "AirconSystem" (JDict []) = Ok aircon_system
    ∧ get aircon_system "Peripherals" (JList []) = Ok peripherals
    ∧ iter peripherals = Ok ps
    ∧ find_peripheral ps 0 = Ok (peripheral Scenario.living).
Proof.
  apply (zone_entry_fields Scenario.payload
           (Scenario.world true None Scenario.up) Scenario.state 0 Scenario.living).
  - vm_compute. reflexivity.
  - vm_compute. reflexivity.
Defined.

(** Nine entries, the ninth not even an object. *)
Lemma zone_loop_reads_first_eight_example :
  parse_zones_from (JList []) (JList []) 0
    (replicate 8 (JDict [("NV_Exists", JBool true)]) ++ [JNull]) ∅
  = parse_zones_from (JList []) (JList []) 0
      (replicate 8 (JDict [("NV_Exists", JBool true)])) ∅.
Proof.
  apply (zone_loop_reads_first_eight (JList []) (JList [])
           (replicate 8 (JDict [("NV_Exists", JBool true)])) [JNull] ∅).
  reflexivity.
Defined.

(** The scenario's payload with its sections at the top level. *)
Lemma parse_data_without_sections_scenario :
  _parse_data Scenario.bare_payload (Scenario.world true None Scenario.up)
  = (Ok {| raw_data := Scenario.bare_payload; main := default_main; zones := ∅ |},
     {| self := with_continuous_fan false (Scenario.coordinator true None);
        remote := Scenario.up; calls := [] |}).
Proof.
  apply (parse_data_without_sections Scenario.sections
           (Scenario.world true None Scenario.up)).
  reflexivity.
Defined.

Lemma parse_data_malformed_examples :
  _parse_data (JList []) (Scenario.world true None Scenario.up)
  = (Raise UpdateFailed, Scenario.world true None Scenario.up)
  ∧ _parse_data
      (JDict [("lastKnownState",
               JDict [("UserAirconSettings", JDict [("FanMode", JNull)])])])
      (Scenario.world true None Scenario.up)
    = (Raise UpdateFailed, Scenario.world true None Scenario.up).
Proof.
  split.
  - apply parse_data_malformed. left. intros o. discriminate.
  - apply parse_data_malformed. right.
    exists (JDict [("UserAirconSettings", JDict [("FanMode", JNull)])]),
      (JDict [("FanMode", JNull)]), JNull.
    repeat split. intros s. discriminate.
Defined.

(** A peripheral of zone 2, then one of zone 1, then an entry that is not an
    object: zone 1 gets the second, and the third is not reached. *)
Lemma find_peripheral_first_match_example :
  find_peripheral Cases.peripherals 0 = Ok None
  ∧ find_peripheral (Cases.peripherals ++ JDict Sensor.peripheral :: [JNull]) 0
    = Ok (Some (peripheral_fields Sensor.peripheral)).
Proof.
  destruct (find_peripheral_first_match 0 Cases.peripherals) as [Hnone Hfirst].
  - repeat constructor. eexists. split; reflexivity.
  - split; [exact Hnone|]. apply Hfirst. reflexivity.
Defined.

Lemma refresh_success_scenario :
  _async_update_data Scenario.api (Scenario.world true None Scenario.up)
  = (Ok (State Scenario.state),
     {| self := with_last_data (Some Scenario.state)
                  (with_continuous_fan true (Scenario.coordinator true None));
        remote := Scenario.up;
        calls := [CallIsApiHealthy; CallGetAcStatus "neo-1"] |}).
Proof.
  apply (refresh_success Scenario.api (Scenario.world true None Scenario.up)
           Scenario.up Scenario.up Scenario.payload Scenario.state).
  - reflexivity.
  - reflexivity.
  - vm_compute. reflexivity.
Defined.

Lemma refresh_malformed_payload_scenario :
  fst (_async_update_data Scenario.api
         (Scenario.world true (Some Scenario.state) Cases.garbled))
  = Ok (State Scenario.state)
  ∧ last_data (self (snd (_async_update_data Scenario.api
                            (Scenario.world true (Some Scenario.state) Cases.garbled))))
    = Some Scenario.state
  ∧ new_calls (Scenario.world true (Some Scenario.state) Cases.garbled)
      (snd (_async_update_data Scenario.api
              (Scenario.world true (Some Scenario.state) Cases.garbled)))
    = [CallIsApiHealthy; CallGetAcStatus "neo-1"].
Proof.
  apply (refresh_malformed_payload Scenario.api
           (Scenario.world true (Some Scenario.state) Cases.garbled)
           Cases.garbled Cases.garbled (JList []) UpdateFailed).
  - reflexivity.
  - reflexivity.
  - reflexivity.
Defined.

Lemma set_fan_mode_call_scenario :
  fan_base_mode "turbo" ∈ valid_modes
  ∧ fan_base_mode (PyStr.upper "turbo") = fan_base_mode "turbo"
  ∧ ∃ rest,
      new_calls (Scenario.world true (Some Scenario.state) Scenario.up)
        (snd (set_fan_mode Scenario.api "turbo" (Some false)
                (Scenario.world true (Some Scenario.state) Scenario.up)))
      = CallSetFanMode "LOW" false :: rest
      ∧ Forall (λ c, is_refresh_call c = true) rest.
Proof.
  apply (set_fan_mode_call Scenario.api
           (Scenario.world true (Some Scenario.state) Scenario.up)
           "turbo" (Some false) Scenario.state).
  reflexivity.
Defined.

Lemma set_fan_mode_rejected_scenario :
  set_fan_mode Scenario.api "high" None
    (Scenario.world true (Some Scenario.state) Cases.refusing)
  = (Raise ApiError,
     {| self := Scenario.coordinator true (Some Scenario.state);
        remote := Cases.refusing;
        calls := [CallSetFanMode "HIGH" true] |}).
Proof.
  apply (set_fan_mode_rejected Scenario.api
           (Scenario.world true (Some Scenario.state) Cases.refusing)
           "high" None Scenario.state ApiError Cases.refusing).
  - reflexivity.
  - reflexivity.
Defined.

Lemma set_zone_temperature_sends_scenario :
  ∃ rest,
    new_calls (Scenario.world true (Some Scenario.state) Scenario.up)
      (snd (set_zone_temperature Scenario.api (zone_key 0) 21
              "TemperatureSetpoint_Cool_oC"
              (Scenario.world true (Some Scenario.state) Scenario.up)))
    = CallCreateCommand "SET_ZONE_TEMP"
        (KwZoneTemp 0 21 "TemperatureSetpoint_Cool_oC") :: rest.
Proof.
  apply (set_zone_temperature_sends Scenario.api
           (Scenario.world true (Some Scenario.state) Scenario.up)
           0 21 "TemperatureSetpoint_Cool_oC" Scenario.state Scenario.living).
  - reflexivity.
  - reflexivity.
  - vm_compute. reflexivity.
  - reflexivity.
Defined.

Lemma set_zone_temperature_failure_scenario :
  fst (set_zone_temperature Scenario.api (zone_key 0) 21 "TemperatureSetpoint_Cool_oC"
         (Scenario.world true (Some Scenario.state) Cases.refusing))
  = Raise ApiError
  ∧ self (snd (set_zone_temperature Scenario.api (zone_key 0) 21
                 "TemperatureSetpoint_Cool_oC"
                 (Scenario.world true (Some Scenario.state) Cases.refusing)))
    = Scenario.coordinator true (Some Scenario.state)
  ∧ Forall (λ c, is_refresh_call c = false)
      (new_calls (Scenario.world true (Some Scenario.state) Cases.refusing)
         (snd (set_zone_temperature Scenario.api (zone_key 0) 21
                 "TemperatureSetpoint_Cool_oC"
                 (Scenario.world true (Some Scenario.state) Cases.refusing)))).
Proof.
  apply (set_zone_temperature_failure Scenario.api
           (Scenario.world true (Some Scenario.state) Cases.refusing)
           0 21 "TemperatureSetpoint_Cool_oC" Scenario.state Scenario.living ApiError).
  - reflexivity.
  - reflexivity.
  - vm_compute. reflexivity.
  - reflexivity.
  - reflexivity.
Defined.

Lemma zone_accessors_bad_id_example :
  get_zone_peripheral (__init__ "neo-1" true) "living" = Ok None
  ∧ get_zone_last_updated (__init__ "neo-1" true) "living" = Ok JNull.
Proof.
  apply (zone_accessors_bad_id (__init__ "neo-1" true) "living" IndexError).
  reflexivity.
Defined.

Lemma zone_accessors_before_first_refresh_example :
  get_zone_peripheral (__init__ "neo-1" true) "zone_1" = Raise AttributeError
  ∧ get_zone_last_updated (__init__ "neo-1" true) "zone_1" = Raise AttributeError.
Proof.
  apply (zone_accessors_before_first_refresh (__init__ "neo-1" true) "zone_1" 0%Z).
  - reflexivity.
  - reflexivity.
Defined.

(** The normalizer has attached the sensor to zone 1, and the accessors do
    not find it. *)
Lemma zone_accessors_miss_nested_section_sensor :
  (∃ zone, zones (Sensor.state_of Sensor.payload) !! "zone_1" = Some zone
           ∧ peripheral zone = Some (peripheral_fields Sensor.peripheral))
  ∧ get_zone_peripheral (Sensor.coordinator Sensor.payload) "zone_1" = Ok None
  ∧ get_zone_last_updated (Sensor.coordinator Sensor.payload) "zone_1" = Ok JNull.
Proof.
  split.
  - eexists. split; vm_compute; reflexivity.
  - apply (zone_accessors_miss_nested_section (Sensor.coordinator Sensor.payload)
             (Sensor.state_of Sensor.payload)
             [("lastKnownState", JDict Sensor.sections)] "zone_1").
    + reflexivity.
    + vm_compute. reflexivity.
    + reflexivity.
Defined.

Lemma zone_accessors_first_match_sensor :
  get_zone_peripheral (Sensor.coordinator Sensor.flat_payload) (zone_key 0)
  = Ok (Some (JDict Sensor.peripheral)).
Proof.
  exact (proj1 (zone_accessors_first_match (Sensor.coordinator Sensor.flat_payload)
                  (Sensor.state_of Sensor.flat_payload)
                  (("lastKnownState", JDict Sensor.sections) :: Sensor.sections)
                  (JList [JDict Sensor.peripheral]) [JDict Sensor.peripheral] 0
                  eq_refl eq_refl eq_refl eq_refl)).
Defined.

(** X22 on a coordinator that holds the scenario's state while the client
    now answers with [Sparse.payload]: [set_fan_mode] succeeds, its refresh
    replaces the cached state, and [data] follows. *)
Lemma coherent_kept_through_command :
  coherent (self Sparse.world)
  ∧ last_data (self Sparse.world) = Some Scenario.state
  ∧ fst (set_fan_mode Scenario.api "high" None Sparse.world) = Ok tt
  ∧ calls (snd (set_fan_mode Scenario.api "high" None Sparse.world))
    = [CallSetFanMode "HIGH" true; CallIsApiHealthy; CallGetAcStatus "neo-1"]
  ∧ coherent (self (snd (set_fan_mode Scenario.api "high" None Sparse.world)))
  ∧ ∃ p,
      last_data (self (snd (set_fan_mode Scenario.api "high" None Sparse.world)))
      = Some p
      ∧ data (self (snd (set_fan_mode Scenario.api "high" None Sparse.world)))
        = Some (State p)
      ∧ raw_data p = Sparse.payload.
Proof.
  assert (coherent (self Sparse.world)) as Hw by reflexivity.
  destruct (coherent_kept Scenario.api Sparse.world) as [_ Hkept].
  destruct (Hkept Hw) as (_ & _ & Hfan & _).
  split; [exact Hw|]. split; [reflexivity|].
  split; [vm_compute; reflexivity|]. split; [vm_compute; reflexivity|].
  split; [exact (Hfan "high" None)|].
  eexists. split; [vm_compute; reflexivity|].
  split; vm_compute; reflexivity.
Defined.

(** X10 on a refresh cancelled while the status is awaited: the
    cancellation passes through, after the two calls, and the coordinator
    is what it was. *)
Lemma refresh_degrades_cancelled :
  fst (Interrupt._async_update_data Interrupt.cancelled_api
         (Scenario.world true (Some Scenario.state) Scenario.up))
  = Interrupt.Passes "CancelledError"
  ∧ calls (snd (Interrupt._async_update_data Interrupt.cancelled_api
                  (Scenario.world true (Some Scenario.state) Scenario.up)))
    = [CallIsApiHealthy; CallGetAcStatus "neo-1"]
  ∧ self (snd (Interrupt._async_update_data Interrupt.cancelled_api
                 (Scenario.world true (Some Scenario.state) Scenario.up)))
    = Scenario.coordinator true (Some Scenario.state).
Proof.
  pose proof (proj1 (proj2 (refresh_degrades Scenario.api
                              (Scenario.world true (Some Scenario.state) Scenario.up)))
                Interrupt.cancelled_api) as H.
  vm_compute in H. destruct H as [[Hself _] _].
  split; [vm_compute; reflexivity|]. split; [vm_compute; reflexivity|].
  exact Hself.
Defined.

(** X26 on a client without a token whose status request fails, and on one
    cancelled while the events are awaited: the first refresh stops after
    the status request and raises [UpdateFailed], the second lets the
    cancellation through after the three calls. *)
Lemma legacy_refresh_policy_stops :
  Legacy._async_update_data Legacy.canned_api "neo-1"
    {| Legacy.token := false; Legacy.login := Ok tt;
       Legacy.status := Raise ApiError; Legacy.history := Ok (JDict []) |}
  = (Raise UpdateFailed,
     {| Legacy.token := false; Legacy.login := Ok tt;
        Legacy.status := Raise ApiError; Legacy.history := Ok (JDict []) |},
     [Legacy.Authenticate; Legacy.GetAcStatus "neo-1"])
  ∧ LegacyInterrupt._async_update_data LegacyInterrupt.cancelled_api "neo-1"
      {| Legacy.token := false; Legacy.login := Ok tt;
         Legacy.status := Ok Legacy.sample_status; Legacy.history := Ok (JDict []) |}
    = (Interrupt.Passes "CancelledError",
       {| Legacy.token := false; Legacy.login := Ok tt;
          Legacy.status := Ok Legacy.sample_status; Legacy.history := Ok (JDict []) |},
       [Legacy.Authenticate; Legacy.GetAcStatus "neo-1"; Legacy.GetAcEvents "neo-1"]).
Proof.
  split.
  - pose proof (proj1 (legacy_refresh_policy Legacy.canned_api "neo-1"
                         {| Legacy.token := false; Legacy.login := Ok tt;
                            Legacy.status := Raise ApiError;
                            Legacy.history := Ok (JDict []) |})) as H.
    simpl in H. destruct H as (requests & _ & _ & _ & -> & _ & _).
    reflexivity.
  - exact (proj1 (proj2 (legacy_refresh_policy Legacy.canned_api "neo-1"
                           {| Legacy.token := false; Legacy.login := Ok tt;
                              Legacy.status := Ok Legacy.sample_status;
                              Legacy.history := Ok (JDict []) |}))
             LegacyInterrupt.cancelled_api).
Defined.

Lemma legacy_zones_by_flag_sample :
  ∃ zs, Legacy._parse_zone_data Legacy.sample_status = Ok zs
  ∧ ∃ user info enabled_zones flags,
    get Legacy.sample_status "UserAirconSettings" (JDict []) = Ok user
    ∧ get Legacy.sample_status "RemoteZoneInfo" (JDict []) = Ok info
    ∧ get user "EnabledZones" (JList []) = Ok enabled_zones
    ∧ iter enabled_zones = Ok flags
    ∧ (∀ k, is_Some (zs !! k) → ∃ i, i < length flags ∧ k = pretty i)
    ∧ (∀ i flag, flags !! i = Some flag →
         ∃ zd e,
           zs !! pretty i = Some e
           ∧ Legacy.enabled e = flag
           ∧ get info (pretty i) (JDict []) = Ok zd
           ∧ get zd "Name" (JStr ("Zone " +:+ pretty i)) = Ok (Legacy.name e)
           ∧ get zd "Temperature_oC" JNull = Ok (Legacy.temperature e)).
Proof.
  destruct (Legacy._parse_zone_data Legacy.sample_status) as [zs|e] eqn:E;
    [|vm_compute in E; discriminate E].
  exists zs. split; [reflexivity|].
  apply (legacy_zones_by_flag Legacy.sample_status zs E).
Defined.

Lemma legacy_zones_need_object_example :
  Legacy._parse_zone_data
    (JDict [("UserAirconSettings", JDict [("EnabledZones", JList [JBool true])]);
            ("RemoteZoneInfo", JList [])])
  = Raise AttributeError.
Proof.
  apply (legacy_zones_need_object _ (JDict [("EnabledZones", JList [JBool true])])
           [] [JBool true]); reflexivity.
Defined.

Lemma legacy_missing_settings_example :
  ∃ p, Legacy._parse_data (JDict []) (JDict []) = Ok p
       ∧ Legacy.settings p = None ∧ Legacy.zones p = ∅.
Proof.
  destruct (Legacy._parse_data (JDict []) (JDict [])) as [p|e] eqn:E;
    [|vm_compute in E; discriminate E].
  exists p. split; [reflexivity|].
  apply (legacy_missing_settings [] (JDict []) p); [reflexivity|exact E].
Defined.

Lemma set_hvac_mode_command_example :
  ∃ rest,
    Modes.log (snd (Modes.set_hvac_mode (Modes.api (Ok tt) (Ok tt)) "off" "off"
                      (Modes.world Scenario.up)))
    = [] ++ Modes.CreateCommand "OFF" ModesApi.KwNone :: rest.
Proof.
  apply (proj1 (set_hvac_mode_command (Modes.api (Ok tt) (Ok tt)) "off" "off"
                  (Modes.world Scenario.up))).
  reflexivity.
Defined.
